(** * Defou workflow agent: a shallow embedding of the two pipelines

    Pipeline A (the watched list processor: [parseMarkdownLinks],
    [fetchArticleContent], [generateContent], [runVerifySkill],
    [processInputFile]) and Pipeline B (the trend scraper: [fetchHotList],
    [analyzeHotList], [run]) are embedded as functions over an explicit
    world (file system, clock position, effect trace) and an environment
    of external collaborators (HTTP transport, readable-text extraction,
    list scraping, model API, clock, verification script).

    Modelling choices:
    - the file system is a finite map from the paths of the readable files
      to their contents; the environment tells which other paths exist
      without being readable (a file without permission, a directory) and
      which renames the system refuses although the source is there (a
      name too long, a missing permission); reading or renaming a path
      that is not there raises, and so do these; writing succeeds;
    - a collaborator answers as a function of its arguments; the clock is a
      sequence of readings, one consumed by each [new Date()] or
      [Date.now()], so any timing of the tasks is some clock;
    - an [async] function is a computation that returns, throws (a rejected
      promise) or exits the process; the tasks of a batch run in submission
      order, each as a whole: the concurrency cap changes the interleaving
      of their effects, not which effects happen. *)

From Stdlib Require Import String Ascii ZArith DecimalString.
From stdpp Require Import gmap list fin_maps sets.

Set Warnings "-abstract-large-number,-clear-no-such-hyp".

Open Scope N_scope.
Open Scope nat_scope.

(** ** JavaScript strings

    A JS string is a sequence of UTF-16 code units; [substring], [slice],
    [startsWith], [trim], [split] and the regular expressions of the
    source (none carries the [u] flag) all work on code units. *)

Definition jsstring := list N.

(** Code units of an ASCII literal. *)
Definition str (s : string) : jsstring :=
  map N_of_ascii (list_ascii_of_string s).

Definition chr (c : ascii) : N := N_of_ascii c.

Arguments str : simpl never.
Arguments chr : simpl never.

(** A JS string used as a condition is true exactly when it is not empty. *)
Definition truthy (s : jsstring) : bool :=
  match s with [] => false | _ :: _ => true end.

(** [String.prototype.startsWith]. *)
Fixpoint startsWith (s p : jsstring) {struct p} : bool :=
  match p, s with
  | [], _ => true
  | _ :: _, [] => false
  | c :: p', d :: s' => if N.eqb c d then startsWith s' p' else false
  end.

(** [String.prototype.includes]. *)
Fixpoint includes (s p : jsstring) : bool :=
  startsWith s p ||
  match s with
  | [] => false
  | _ :: s' => includes s' p
  end.

(** ECMAScript [WhiteSpace] and [LineTerminator] code units, the ones
    [trim] strips. *)
Definition is_js_space (c : N) : bool :=
  (N.eqb c 9 || N.eqb c 10 || N.eqb c 11 || N.eqb c 12 || N.eqb c 13 ||
   N.eqb c 32 || N.eqb c 160 || N.eqb c 5760 ||
   (N.leb 8192 c && N.leb c 8202) ||
   N.eqb c 8232 || N.eqb c 8233 || N.eqb c 8239 || N.eqb c 8287 ||
   N.eqb c 12288 || N.eqb c 65279)%N.

Fixpoint trimStart (s : jsstring) : jsstring :=
  match s with
  | [] => []
  | c :: s' => if is_js_space c then trimStart s' else s
  end.

Definition trimEnd (s : jsstring) : jsstring := rev (trimStart (rev s)).

Definition trim (s : jsstring) : jsstring := trimEnd (trimStart s).

(** [s.substring(0, n)] and [s.slice(0, n)] for [0 <= n]. *)
Definition substring0 (n : nat) (s : jsstring) : jsstring := take n s.

(** The two character budgets of Pipeline A. *)
Definition EXCERPT_LIMIT : nat := 15000.
Definition PROMPT_EXCERPT_LIMIT : nat := 8000.

(** ** Pipeline A, link extractor *)

Record ArticleItem := mkArticle { title : jsstring; link : jsstring }.

#[global] Instance ArticleItem_eq_dec : EqDecision ArticleItem.
Proof. solve_decision. Defined.

(** The longest prefix of code units satisfying [p], and what follows it:
    a greedy [[^x]*]. *)
Fixpoint span (p : N -> bool) (s : jsstring) : jsstring * jsstring :=
  match s with
  | [] => ([], [])
  | c :: s' =>
      if p c then let '(a, b) := span p s' in (c :: a, b) else ([], s)
  end.

Definition not_rbracket (c : N) : bool := negb (N.eqb c (chr "]")).
Definition not_rparen (c : N) : bool := negb (N.eqb c (chr ")")).

(** One attempt of [/\[([^\]]+)\]\(([^)]+)\)/] anchored at the head of [s]:
    the two capture groups and the length of the whole match. Both groups
    are greedy and are followed by the one code unit they exclude, so no
    shorter run can succeed where the longest fails. *)
Definition match_here (s : jsstring) : option (jsstring * jsstring * nat) :=
  match s with
  | c :: s1 =>
      if N.eqb c (chr "[") then
        match span not_rbracket s1 with
        | ((_ :: _) as g1, _ :: lp :: s3) =>
            if N.eqb lp (chr "(") then
              match span not_rparen s3 with
              | ((_ :: _) as g2, _ :: _) =>
                  Some (g1, g2, length g1 + length g2 + 4)
              | _ => None
              end
            else None
        | _ => None
        end
      else None
  | [] => None
  end.

(** Leftmost match in the suffix [s] of the subject that starts at absolute
    index [pos]. *)
Fixpoint search (s : jsstring) (pos : nat) : option (jsstring * jsstring * nat) :=
  match match_here s with
  | Some (g1, g2, len) => Some (g1, g2, pos + len)
  | None =>
      match s with
      | [] => None
      | _ :: s' => search s' (S pos)
      end
  end.

(** The state of a global ([/g]) regular expression object. *)
Record RegExp := mkRegExp { lastIndex : nat }.

(** [regex.exec(content)]: the match found from [lastIndex] on, with
    [lastIndex] moved past it; [null] with [lastIndex] reset to 0 when
    there is none. *)
Definition exec (re : RegExp) (content : jsstring)
  : option (jsstring * jsstring) * RegExp :=
  if decide (lastIndex re <= length content) then
    match search (drop (lastIndex re) content) (lastIndex re) with
    | Some (g1, g2, e) => (Some (g1, g2), mkRegExp e)
    | None => (None, mkRegExp 0)
    end
  else (None, mkRegExp 0).

Definition http : jsstring := str "http".

(** The body of the [while] loop: trim both groups and push the item when
    it passes the test. *)
Definition push_if_valid (items : list ArticleItem) (g1 g2 : jsstring)
  : list ArticleItem :=
  let title := trim g1 in
  let link := trim g2 in
  if truthy title && truthy link && startsWith link http
  then items ++ [mkArticle title link]
  else items.

(** [while ((match = regex.exec(content)) !== null) { ... }]; [None] when
    the fuel runs out before [exec] answers [null]. *)
Fixpoint parse_loop (fuel : nat) (re : RegExp) (content : jsstring)
    (items : list ArticleItem) : option (list ArticleItem * RegExp) :=
  match fuel with
  | 0 => None
  | S fuel' =>
      match exec re content with
      | (Some (g1, g2), re') =>
          parse_loop fuel' re' content (push_if_valid items g1 g2)
      | (None, re') => Some (items, re')
      end
  end.

(** Every match is at least six code units long, so the loop body runs at
    most [length content] times. *)
Definition parse_fuel (content : jsstring) : nat := S (length content).

Definition parseMarkdownLinks (content : jsstring) : list ArticleItem :=
  match parse_loop (parse_fuel content) (mkRegExp 0) content [] with
  | Some (items, _) => items
  | None => []
  end.


(** ** Numbers, dates and paths *)

(** [String(n)] for an integer [n]. *)
Definition decimal (n : Z) : jsstring :=
  str (NilZero.string_of_int (Z.to_int n)).

(** [n] in decimal, padded with zeros to at least [w] digits ([0 <= n]). *)
Definition pad (w : nat) (n : Z) : jsstring :=
  let d := decimal n in
  replicate (w - length d) (chr "0") ++ d.

(** Civil date of a day number counted from 1970-01-01 (proleptic
    Gregorian calendar, as ECMAScript's [YearFromTime], [MonthFromTime]
    and [DateFromTime]). *)
Definition civil_from_days (days : Z) : Z * Z * Z :=
  let z := (days + 719468)%Z in
  let era := (z / 146097)%Z in
  let doe := (z - era * 146097)%Z in
  let yoe := ((doe - doe / 1460 + doe / 36524 - doe / 146096) / 365)%Z in
  let doy := (doe - (365 * yoe + yoe / 4 - yoe / 100))%Z in
  let mp := ((5 * doy + 2) / 153)%Z in
  let d := (doy - (153 * mp + 2) / 5 + 1)%Z in
  let m := (if (mp <? 10)%Z then mp + 3 else mp - 9)%Z in
  let y := (yoe + era * 400 + (if (m <=? 2)%Z then 1 else 0))%Z in
  (y, m, d).

Definition iso_year (y : Z) : jsstring :=
  if ((0 <=? y) && (y <=? 9999))%Z then pad 4 y
  else if (y <? 0)%Z then chr "-" :: pad 6 (- y)
  else chr "+" :: pad 6 y.

(** [new Date(t).toISOString()] for the epoch-millisecond time value [t]. *)
Definition toISOString (t : Z) : jsstring :=
  let days := (t / 86400000)%Z in
  let ms := (t mod 86400000)%Z in
  let '(y, m, d) := civil_from_days days in
  iso_year y ++ str "-" ++ pad 2 m ++ str "-" ++ pad 2 d ++ str "T" ++
  pad 2 (ms / 3600000) ++ str ":" ++ pad 2 (ms / 60000 mod 60) ++ str ":" ++
  pad 2 (ms / 1000 mod 60) ++ str "." ++ pad 3 (ms mod 1000) ++ str "Z".

(** [s.replace(/[:.]/g, '-')]. *)
Definition replace_colon_dot (s : jsstring) : jsstring :=
  map (fun c => if (N.eqb c (chr ":") || N.eqb c (chr "."))%bool
                then chr "-" else c) s.

(** The code units [/[^a-z0-9\u4e00-\u9fa5]/gi] leaves alone: ASCII letters
    of both cases (the [i] flag), digits and the CJK block. *)
Definition keeps_in_title (c : N) : bool :=
  ((N.leb 97 c && N.leb c 122) || (N.leb 65 c && N.leb c 90) ||
   (N.leb 48 c && N.leb c 57) || (N.leb 19968 c && N.leb c 40869))%N.

(** [title.replace(/[^a-z0-9\u4e00-\u9fa5]/gi, '_')]. *)
Definition sanitize (s : jsstring) : jsstring :=
  map (fun c => if keeps_in_title c then c else chr "_") s.

Definition slash : N := chr "/".

(** [path.join(dir, name)] for a normalised [dir] and a file name. *)
Definition path_join (dir name : jsstring) : jsstring :=
  dir ++ slash :: name.

(** What follows the last [/] of [s]; [acc] is the segment read so far. *)
Fixpoint last_segment (acc s : jsstring) : jsstring :=
  match s with
  | [] => acc
  | c :: s' => if N.eqb c slash then last_segment [] s'
               else last_segment (acc ++ [c]) s'
  end.

Fixpoint strip_leading_slashes (s : jsstring) : jsstring :=
  match s with
  | [] => []
  | c :: s' => if N.eqb c slash then strip_leading_slashes s' else s
  end.

(** [path.basename(p)] (POSIX): trailing separators are dropped, then the
    last segment is returned. *)
Definition basename (p : jsstring) : jsstring :=
  last_segment [] (rev (strip_leading_slashes (rev p))).

(** ** The world and its effects *)

Inductive JsError :=
| Error (message : jsstring)        (* [new Error(message)] of the source *)
| TypeError (message : jsstring)    (* raised by the runtime *)
| SystemError (message : jsstring). (* raised by a collaborator *)

(** A value that is a string or [undefined]. *)
Inductive JsValue := VString (s : jsstring) | VUndefined.

(** What a template literal makes of such a value. *)
Definition to_display (v : JsValue) : jsstring :=
  match v with
  | VString s => s
  | VUndefined => str "undefined"
  end.

(** Console lines, by the statement that prints them. *)
Inductive LogLine :=
| LogFetching (url : jsstring)
| LogFetchError (url : jsstring) (e : JsError)
| LogGenerating (title : jsstring)
| LogVerifyTrigger
| LogVerifyDone
| LogVerifyFailed (code : Z)
| LogProcessing (filename : jsstring)
| LogNoValidLinks (filename : jsstring)
| LogFound (n : nat)
| LogTask (index total : nat) (title : jsstring)
| LogSkipping (title : jsstring)
| LogSaved (path : jsstring)
| LogTaskFailed (title : jsstring) (e : JsError)
| LogArchived (path : jsstring)
| LogInputFailed (filename : jsstring) (e : JsError)
| LogFetchingHot
| LogFetched (n : nat)
| LogSavedRaw (path : jsstring)
| LogAnalyzing
| LogSavedReport (path : jsstring)
| LogRunFailed (e : JsError).

Inductive Event :=
| EvLog (l : LogLine)
| EvHttpGet (url : jsstring)
| EvModelCall (system prompt : jsstring)
| EvWriteFile (path content : jsstring)
| EvRename (src dst : jsstring)
| EvSpawnVerify.

(** The file system maps the path of a readable file to its content;
    [ticks] counts the readings of the clock made so far; [trace] lists the
    effects in the order they happened (a rename is listed when the system
    has done it). *)
Record World := mkWorld {
  fs : gmap jsstring jsstring;
  ticks : nat;
  trace : list Event
}.

Inductive Outcome (A : Type) :=
| Return (a : A)
| Throw (e : JsError)
| Exit (code : Z).                  (* [process.exit(code)] *)
Arguments Return {A} a.
Arguments Throw {A} e.
Arguments Exit {A} code.

Definition Eff (A : Type) : Type := World -> Outcome A * World.

#[global] Instance Eff_ret : MRet Eff := fun A a w => (Return a, w).

#[global] Instance Eff_bind : MBind Eff := fun A B k m w =>
  match m w with
  | (Return a, w') => k a w'
  | (Throw e, w') => (Throw e, w')
  | (Exit c, w') => (Exit c, w')
  end.

Definition throw {A} (e : JsError) : Eff A := fun w => (Throw e, w).

Definition process_exit {A} (code : Z) : Eff A := fun w => (Exit code, w).

(** [try { body } catch (e) { handler }]. *)
Definition try_catch {A} (body : Eff A) (handler : JsError -> Eff A) : Eff A :=
  fun w =>
    match body w with
    | (Throw e, w') => handler e w'
    | r => r
    end.

Definition emit (e : Event) : Eff unit := fun w =>
  (Return tt, mkWorld (fs w) (ticks w) (trace w ++ [e])).

Definition log (l : LogLine) : Eff unit := emit (EvLog l).

Definition ENOENT (p : jsstring) : JsError :=
  SystemError (str "ENOENT: no such file or directory, " ++ p).

Definition writeFileSync (p c : jsstring) : Eff unit := fun w =>
  (Return tt,
   mkWorld (<[p := c]> (fs w)) (ticks w) (trace w ++ [EvWriteFile p c])).

(** ** External collaborators *)

Inductive HttpResult :=
| NetworkError (message : jsstring)  (* transport error, timeout, body read *)
| HttpResponse (ok : bool) (status : Z) (statusText body : jsstring).

Inductive ReadabilityResult :=
| DomThrows (message : jsstring)     (* [new JSDOM] or [parse] raises *)
| NoArticle                          (* [parse()] returns [null] *)
| Article (textContent : option jsstring).

(** The blocks of a model response; only a text block has a [text] field. *)
Inductive ContentBlock :=
| TextBlock (text : jsstring)
| ToolUseBlock (id name : jsstring)
| ThinkingBlock (thinking : jsstring).

Inductive ApiResult :=
| ApiError (message : jsstring)
| ApiMessage (content : list ContentBlock).

(** What cheerio finds under one [.child-item] element: the texts of the
    elements matching [.left-item span], the anchors matching
    [.medium-txt a] and the texts of the elements matching [.small-txt]. *)
Record Anchor := mkAnchor { a_text : jsstring; a_href : option jsstring }.

Record ChildItem := mkChildItem {
  left_item_spans : list jsstring;
  medium_txt_links : list Anchor;
  small_txts : list jsstring
}.

Record HotItem := mkHotItem {
  rank : jsstring;
  hot_title : jsstring;
  hot_link : jsstring;
  source : jsstring;
  hot : jsstring
}.

Record Env := mkEnv {
  MOCK_MODE : bool;
  projectRoot : jsstring;
  http_get : jsstring -> HttpResult;
  readability : jsstring -> jsstring -> ReadabilityResult; (* html, url *)
  cheerio_child_items : jsstring -> list ChildItem;
  messages_create : jsstring -> jsstring -> ApiResult;     (* system, prompt *)
  clock : nat -> Z;               (* the k-th reading of the clock, epoch ms *)
  toLocaleString : Z -> jsstring;
  JSON_stringify : list HotItem -> jsstring;  (* [JSON.stringify(_, null, 2)] *)
  verify_exit_code : Z;
  (* the error raised by reading a path that exists and is no readable file *)
  unreadable : jsstring -> option jsstring;
  (* the error raised by a rename the system refuses: source, destination *)
  rename_error : jsstring -> jsstring -> option jsstring
}.

Section Effects.
Variable E : Env.

(** [fs.existsSync(p)]: a readable file, or anything else that is there. *)
Definition existsSync (p : jsstring) : Eff bool := fun w =>
  (Return match fs w !! p with
          | Some _ => true
          | None => match unreadable E p with Some _ => true | None => false end
          end, w).

(** [fs.readFileSync(p, 'utf-8')]. *)
Definition readFileSync (p : jsstring) : Eff jsstring := fun w =>
  match fs w !! p with
  | Some c => (Return c, w)
  | None =>
      match unreadable E p with
      | Some m => (Throw (SystemError m), w)
      | None => (Throw (ENOENT p), w)
      end
  end.

(** [fs.renameSync(src, dst)]: raises when there is no file at [src], and
    when the system refuses the move; nothing is changed then. *)
Definition renameSync (src dst : jsstring) : Eff unit := fun w =>
  match fs w !! src with
  | Some c =>
      match rename_error E src dst with
      | Some m => (Throw (SystemError m), w)
      | None =>
          (Return tt,
           mkWorld (<[dst := c]> (delete src (fs w))) (ticks w)
                   (trace w ++ [EvRename src dst]))
      end
  | None => (Throw (ENOENT src), w)
  end.

(** [new Date()] and [Date.now()]. *)
Definition Date_now : Eff Z := fun w =>
  (Return (clock E (ticks w)), mkWorld (fs w) (S (ticks w)) (trace w)).

(** [await fetch(url, ...)] followed by [await response.text()]. *)
Definition fetch (url : jsstring) : Eff (bool * Z * jsstring * jsstring) :=
  emit (EvHttpGet url);;
  match http_get E url with
  | NetworkError m => throw (SystemError m)
  | HttpResponse ok status statusText body =>
      mret (ok, status, statusText, body)
  end.

(** [new Readability(new JSDOM(html, { url }).window.document).parse()]. *)
Definition parse_article (html url : jsstring)
  : Eff (option (option jsstring)) :=
  match readability E html url with
  | DomThrows m => throw (SystemError m)
  | NoArticle => mret None
  | Article t => mret (Some t)
  end.

(** [await anthropic.messages.create({ system, messages: [prompt] })]. *)
Definition anthropic_messages_create (system prompt : jsstring)
  : Eff (list ContentBlock) :=
  emit (EvModelCall system prompt);;
  match messages_create E system prompt with
  | ApiError m => throw (SystemError m)
  | ApiMessage content => mret content
  end.

(** [(msg.content[0] as any).text]. *)
Definition first_text (content : list ContentBlock) : Eff JsValue :=
  match content with
  | [] => throw (TypeError
            (str "Cannot read properties of undefined (reading 'text')"))
  | TextBlock t :: _ => mret (VString t)
  | _ :: _ => mret VUndefined
  end.
End Effects.

(** ** Pipeline A: fetcher, generator, batch orchestrator *)

Definition nl : jsstring := [10%N].
Definition dq : jsstring := [34%N].

(** [lines.join('\n')]. *)
Fixpoint unlines (ls : list jsstring) : jsstring :=
  match ls with
  | [] => []
  | [l] => l
  | l :: ls' => l ++ nl ++ unlines ls'
  end.

Definition failed_prefix : jsstring := str "[Failed".
Definition sentinel_prefix : jsstring := str "[Failed to fetch content from ".

(** [`[Failed to fetch content from ${url}]`]. *)
Definition sentinel (url : jsstring) : jsstring :=
  sentinel_prefix ++ url ++ str "]".

Definition rocket : jsstring := [55357%N; 56960%N].
Definition fire : jsstring := [55357%N; 56613%N].
Definition brain : jsstring := [55358%N; 56800%N].

(** The prompt template of [generateContent]. *)
Definition generate_prompt (articleTitle articleContent : jsstring) : jsstring :=
  nl ++ unlines [
    str "You are " ++ dq ++ str "Defou x Stanley" ++ dq ++
      str ", a top-tier content expert.";
    [];
    str "**Task**: Rewrite the following article into a viral " ++ dq ++
      str "Defou x Stanley" ++ dq ++ str " style post.";
    [];
    str "**Source Article Title**: " ++ articleTitle;
    str "**Source Article Content**: ";
    substring0 PROMPT_EXCERPT_LIMIT articleContent ++ str "... (truncated)";
    [];
    str "**Style Requirements**:";
    str "1.  **Insightful**: Peel back the layers to reveal the core essence.";
    str "2.  **Smart Routing**: Match the topic to T1 (Hotspot), T2 (Anti-Chicken Soup), T3 (Roast/Satire), or T4 (Dry Goods).";
    str "3.  **Minimalist & Sharp**: No fluff. Start with a reversal. Cold, restrained tone.";
    str "4.  **Structure**: Re-structure scattered thoughts into a logical flow.";
    [];
    str "**Output Format (Markdown)**:";
    [];
    str "# " ++ rocket ++ str " Defou x Stanley Content Generation";
    [];
    str "## 1. Routing & Strategy";
    str "* **Topic**: " ++ articleTitle;
    str "* **Matched Template**: [T1/T2/T3/T4]";
    str "* **Angle**: [Selected Angle]";
    str "* **Reason**: [Why this angle?]";
    [];
    str "---";
    [];
    str "## 2. Content Drafting";
    [];
    str "### " ++ fire ++ str " Version A: Stanley Style (Viral)";
    [];
    str "> **Hooks**";
    str "> * [Hook 1]...";
    [];
    str "**Body:**";
    [];
    str "[Content here...]";
    [];
    str "**Score:** [X]/100";
    [];
    str "---";
    [];
    str "### " ++ brain ++ str " Version B: Defou Style (Deep Insight)";
    [];
    str "> **Hooks**";
    str "> * [Hook 1]...";
    [];
    str "**Body:**";
    [];
    str "[Content here...]";
    [];
    str "**Score:** [X]/100";
    [];
    str "---";
    [];
    str "## 3. Publishing Advice";
    str "* **Time**: [Time]";
    str "* **Reason**: [Reason]"
  ] ++ nl.

Definition generate_system : jsstring :=
  str "You are Defou x Stanley, a viral content expert.".

(** [`# Mock Content for ${articleTitle}\n\nGenerated in Mock Mode.`]. *)
Definition mock_content (articleTitle : jsstring) : jsstring :=
  str "# Mock Content for " ++ articleTitle ++ nl ++ nl ++
  str "Generated in Mock Mode.".

(** The provenance header and the body of an output post. *)
Definition final_content (a : ArticleItem) (filename generated_at : jsstring)
    (generatedContent : JsValue) : jsstring :=
  nl ++ unlines [
    str "<!--";
    str "Original Title: " ++ title a;
    str "Source Link: " ++ link a;
    str "Input List File: " ++ filename;
    str "Generated: " ++ generated_at;
    str "-->";
    [];
    to_display generatedContent
  ] ++ nl.

(** [`list_${dateStr}_${safeTitle}.md`] for the time value [t]. *)
Definition output_filename (t : Z) (article_title : jsstring) : jsstring :=
  let dateStr := take 19 (replace_colon_dot (toISOString t)) in
  let safeTitle := take 20 (sanitize article_title) in
  str "list_" ++ dateStr ++ str "_" ++ safeTitle ++ str ".md".

Section PipelineA.
Variable E : Env.

Definition INPUT_DIR : jsstring := path_join (projectRoot E) (str "local_inputs").
Definition OUTPUT_DIR : jsstring :=
  path_join (path_join (projectRoot E) (str "outputs")) (str "defou-stanley-posts").
Definition ARCHIVE_DIR : jsstring := path_join (projectRoot E) (str "archive").

Definition fetchArticleContent (url : jsstring) : Eff jsstring :=
  try_catch
    (log (LogFetching url);;
     '(ok, _, statusText, html) ← fetch E url;
     if negb ok then
       throw (Error (str "Failed to fetch: " ++ statusText))
     else
       article ← parse_article E html url;
       match article with
       | Some (Some textContent) =>
           if truthy textContent
           then mret (substring0 EXCERPT_LIMIT (trim textContent))
           else throw (Error (str "Failed to parse article content"))
       | _ => throw (Error (str "Failed to parse article content"))
       end)
    (fun error =>
       log (LogFetchError url error);;
       mret (sentinel url)).

Definition generateContent (articleTitle articleContent sourceLink : jsstring)
  : Eff JsValue :=
  log (LogGenerating articleTitle);;
  if MOCK_MODE E then
    mret (VString (mock_content articleTitle))
  else
    content ← anthropic_messages_create E generate_system
                (generate_prompt articleTitle articleContent);
    first_text content.

(** The script's exit code is looked at and never propagated. *)
Definition runVerifySkill : Eff unit :=
  log LogVerifyTrigger;;
  emit EvSpawnVerify;;
  if (verify_exit_code E =? 0)%Z then log LogVerifyDone
  else log (LogVerifyFailed (verify_exit_code E)).

(** The closure handed to [limit] for one article; [successCount] is the
    counter the closures share. *)
Definition article_task (filename : jsstring) (total index : nat)
    (article : ArticleItem) (successCount : nat) : Eff nat :=
  try_catch
    (log (LogTask (index + 1) total (title article));;
     content ← fetchArticleContent (link article);
     if startsWith content failed_prefix then
       log (LogSkipping (title article));;
       mret successCount
     else
       generatedContent ← generateContent (title article) content (link article);
       t ← Date_now E;
       let outputPath := path_join OUTPUT_DIR (output_filename t (title article)) in
       t' ← Date_now E;
       writeFileSync outputPath
         (final_content article filename (toLocaleString E t') generatedContent);;
       log (LogSaved outputPath);;
       mret (S successCount))
    (fun err =>
       log (LogTaskFailed (title article) err);;
       mret successCount).

(** [await Promise.all(articles.map((article, index) => limit(...)))]: the
    tasks in submission order, each one run as a whole. *)
Fixpoint run_tasks (filename : jsstring) (total index : nat)
    (articles : list ArticleItem) (successCount : nat) : Eff nat :=
  match articles with
  | [] => mret successCount
  | article :: rest =>
      successCount' ← article_task filename total index article successCount;
      run_tasks filename total (S index) rest successCount'
  end.

Definition archive_path (now : Z) (filename : jsstring) : jsstring :=
  path_join ARCHIVE_DIR (decimal now ++ str "_" ++ filename).

(** The one-second debounce before the existence check is a wait only:
    the world handed to this function is the one found after it. *)
Definition processInputFile (filePath : jsstring) : Eff unit :=
  let filename := basename filePath in
  log (LogProcessing filename);;
  present ← existsSync E filePath;
  if negb present then mret tt
  else
    try_catch
      (fileContent ← readFileSync E filePath;
       let articles := parseMarkdownLinks fileContent in
       if length articles =? 0 then
         log (LogNoValidLinks filename)
       else
         log (LogFound (length articles));;
         successCount ← run_tasks filename (length articles) 0 articles 0;
         now ← Date_now E;
         let archivePath := archive_path now filename in
         renameSync E filePath archivePath;;
         log (LogArchived archivePath);;
         if 0 <? successCount then runVerifySkill else mret tt)
      (fun error => log (LogInputFailed filename error)).
End PipelineA.

(** ** Pipeline B: hot-list fetcher, trend analyzer, report writer *)

Module Tophub.

Definition TOPHUB_URL : jsstring := str "https://tophub.today/hot".
Definition TOPHUB_ORIGIN : jsstring := str "https://tophub.today".

(** The middle dot of the label, U+2027. *)
Definition middle_dot : N := 8231%N.

(** [s.split(sep)] for a separator of one code unit: never empty. *)
Fixpoint split_on (sep : N) (s : jsstring) : list jsstring :=
  match s with
  | [] => [[]]
  | c :: s' =>
      if N.eqb c sep then [] :: split_on sep s'
      else
        match split_on sep s' with
        | piece :: pieces => (c :: piece) :: pieces
        | [] => [[c]]
        end
  end.

(** [parts[i] || '']. *)
Definition or_empty (part : option jsstring) : jsstring :=
  match part with
  | Some p => if truthy p then p else []
  | None => []
  end.

(** cheerio's [.text()] of a selection: the texts of its elements joined. *)
Definition selection_text (texts : list jsstring) : jsstring := concat texts.

(** cheerio's [.attr('href')]: the attribute of the first element. *)
Definition selection_href (links : list Anchor) : option jsstring :=
  match links with
  | [] => None
  | a :: _ => a_href a
  end.

(** [link || '']. *)
Definition href_or_empty (href : option jsstring) : jsstring :=
  match href with
  | Some l => l
  | None => []
  end.

Definition full_link (link : jsstring) : jsstring :=
  if startsWith link http then link else TOPHUB_ORIGIN ++ link.

(** The callback of [$('.child-item').each]. *)
Definition scrape_item (items : list HotItem) (el : ChildItem) : list HotItem :=
  let rank := trim (selection_text (left_item_spans el)) in
  let titleLink := medium_txt_links el in
  let title := trim (selection_text (map a_text titleLink)) in
  let link := href_or_empty (selection_href titleLink) in
  let fullLink := full_link link in
  let smallTxt := trim (selection_text (small_txts el)) in
  let parts := map trim (split_on middle_dot smallTxt) in
  let source := or_empty (parts !! 0) in
  let hot := or_empty (parts !! 1) in
  if truthy title then items ++ [mkHotItem rank title fullLink source hot]
  else items.

(** What the callback reads off an element, before any defaulting. *)
Definition node_title (el : ChildItem) : jsstring :=
  trim (selection_text (map a_text (medium_txt_links el))).

Definition node_label (el : ChildItem) : jsstring :=
  trim (selection_text (small_txts el)).

Definition node_href (el : ChildItem) : option jsstring :=
  selection_href (medium_txt_links el).

Definition item_line (item : HotItem) : jsstring :=
  rank item ++ str ". [" ++ source item ++ str "] " ++ hot_title item ++
  str " (Hot: " ++ hot item ++ str ") - Link: " ++ hot_link item.

Definition analyze_prompt (items : list HotItem) : jsstring :=
  let topItems := take 30 items in
  let itemsText := unlines (map item_line topItems) in
  nl ++ unlines [
    str "You are a content strategy expert. Here is a list of current trending topics from TopHub (Hot List):";
    [];
    itemsText;
    [];
    str "Please perform the following tasks:";
    str "1. **Analyze Traffic Potential**: Identify which of these topics have the highest potential for viral traffic *right now*. Look for topics that arouse strong curiosity, controversy, or urgency.";
    str "2. **Topic Suggestions**: Based on the high-potential topics, suggest 5 specific content angles/titles that a creator could use.";
    str "3. **Format**: Output your response in Markdown.";
    [];
    str "For the suggestions, use this format:";
    str "- **Topic**: [Original Topic Title]";
    str "- **Angle**: [Proposed Content Angle]";
    str "- **Why it works**: [Brief explanation of traffic potential]"
  ] ++ nl.

Definition analyze_system : jsstring :=
  str "You are an expert content strategist and trend analyst.".

Definition mock_analysis : jsstring :=
  str "# Mock Analysis" ++ nl ++ nl ++ str "- Mock Suggestion 1" ++ nl ++
  str "- Mock Suggestion 2".

Definition raw_filename (dateStr : jsstring) : jsstring :=
  str "tophub_hot_" ++ dateStr ++ str ".json".

Definition report_filename (dateStr : jsstring) : jsstring :=
  str "tophub_analysis_" ++ dateStr ++ str ".md".

Definition report_content (generated_at rawFilename : jsstring)
    (report : JsValue) : jsstring :=
  str "# TopHub Hot List Analysis" ++ nl ++
  str "> Generated at: " ++ generated_at ++ nl ++
  str "> Source Data: [" ++ rawFilename ++ str "](./" ++ rawFilename ++
  str ")" ++ nl ++ nl ++ to_display report.

Section Pipeline.
Variable E : Env.

Definition OUTPUT_DIR : jsstring := path_join (projectRoot E) (str "outputs").
Definition TRENDS_DIR : jsstring := path_join OUTPUT_DIR (str "trends").

Definition fetchHotList : Eff (list HotItem) :=
  log LogFetchingHot;;
  '(ok, status, statusText, html) ← fetch E TOPHUB_URL;
  if negb ok then
    throw (Error (str "Failed to fetch tophub: " ++ decimal status ++
                  str " " ++ statusText))
  else
    mret (fold_left scrape_item (cheerio_child_items E html) []).

Definition analyzeHotList (items : list HotItem) : Eff JsValue :=
  let prompt := analyze_prompt items in
  log LogAnalyzing;;
  if MOCK_MODE E then mret (VString mock_analysis)
  else
    content ← anthropic_messages_create E analyze_system prompt;
    first_text content.

Definition run : Eff jsstring :=
  try_catch
    (items ← fetchHotList;
     log (LogFetched (length items));;
     t ← Date_now E;
     let dateStr := replace_colon_dot (toISOString t) in
     let rawFilename := raw_filename dateStr in
     let rawPath := path_join TRENDS_DIR rawFilename in
     writeFileSync rawPath (JSON_stringify E items);;
     log (LogSavedRaw rawPath);;
     report ← analyzeHotList items;
     let reportPath := path_join TRENDS_DIR (report_filename dateStr) in
     t' ← Date_now E;
     writeFileSync reportPath
       (report_content (toLocaleString E t') rawFilename report);;
     log (LogSavedReport reportPath);;
     mret reportPath)
    (fun error =>
       log (LogRunFailed error);;
       process_exit 1%Z).
End Pipeline.

End Tophub.

(** ** Link resolution, in the specification's words

    The specification has relative links resolved against the site's
    origin. A link is relative when it has no scheme (RFC 3986, 3.1 and
    4.2): a scheme is a letter followed by letters, digits, [+], [-] and
    [.], closed by a colon. The origin of an [http] or [https] URL is its
    scheme with the authority that follows [://], up to the first [/], [?]
    or [#]. Whatever else resolution does, the URL it gives for a relative
    link has the origin of the site. *)







(** ** Observations on traces and worlds *)

(** The effects added to the trace between two worlds. *)
Definition since (w w' : World) : list Event :=
  drop (length (trace w)) (trace w').

(** How many elements of a list pass a test. *)
Definition count_of {A} (f : A -> bool) (l : list A) : nat :=
  length (filter f l).

Definition is_skip (e : Event) : bool :=
  match e with EvLog (LogSkipping _) => true | _ => false end.

Definition skipped (tr : list Event) : nat := count_of is_skip tr.

Definition written_path (e : Event) : option jsstring :=
  match e with EvWriteFile p _ => Some p | _ => None end.

Definition written_paths (tr : list Event) : list jsstring :=
  omap written_path tr.

Definition renamed (e : Event) : option (jsstring * jsstring) :=
  match e with EvRename a b => Some (a, b) | _ => None end.

Definition renames (tr : list Event) : list (jsstring * jsstring) :=
  omap renamed tr.

Definition is_spawn (e : Event) : bool :=
  match e with EvSpawnVerify => true | _ => false end.

Definition spawns (tr : list Event) : nat := count_of is_spawn tr.

Definition is_network_call (e : Event) : bool :=
  match e with EvHttpGet _ | EvModelCall _ _ => true | _ => false end.

Definition network_calls (tr : list Event) : nat :=
  count_of is_network_call tr.

Definition is_generating (e : Event) : bool :=
  match e with EvLog (LogGenerating _) => true | _ => false end.

Definition generations (tr : list Event) : nat := count_of is_generating tr.

(** ** The extractor's contract

    A link has the shape [[Title](URL)], with a title that holds no closing
    bracket and a URL that holds no closing parenthesis, both not empty.
    In the specification's words any substring of that shape is an
    occurrence of a link ([occurrence]). The scan of the source's global
    regular expression is narrower ([scan_matches]): it takes the leftmost
    occurrence of the text, then goes on in the text after it, so that the
    matches it reports do not overlap. *)

Definition link_shape (t l : jsstring) : jsstring :=
  chr "[" :: t ++ chr "]" :: chr "(" :: l ++ [chr ")"].

Arguments link_shape : simpl never.

Definition well_shaped (t l : jsstring) : Prop :=
  t <> [] /\ (chr "]" ∉ t) /\ l <> [] /\ (chr ")" ∉ l).

Definition occurs_at (s pre t l post : jsstring) : Prop :=
  s = pre ++ link_shape t l ++ post /\ well_shaped t l.

(** In the specification's words: [o] is an occurrence in [s]. *)
Definition occurrence (s : jsstring) (o : jsstring * jsstring) : Prop :=
  exists pre post, occurs_at s pre (fst o) (snd o) post.

(** What the scan of [/\[([^\]]+)\]\(([^)]+)\)/g] reports for [s]. *)
Inductive scan_matches : jsstring -> list (jsstring * jsstring) -> Prop :=
| scan_none s :
    (forall pre t l post, ~ occurs_at s pre t l post) ->
    scan_matches s []
| scan_next s pre t l post rest :
    occurs_at s pre t l post ->
    (forall pre' t' l' post',
        occurs_at s pre' t' l' post' -> length pre <= length pre') ->
    scan_matches post rest ->
    scan_matches s ((t, l) :: rest).

(** The item an occurrence or a match yields, if any: both parts trimmed
    and not empty, the link starting with [http]. *)
Definition item_of_occurrence (o : jsstring * jsstring) : option ArticleItem :=
  let t := trim (fst o) in
  let l := trim (snd o) in
  match t, l with
  | _ :: _, _ :: _ => if startsWith l http then Some (mkArticle t l) else None
  | _, _ => None
  end.

(** In the specification's words: every occurrence that passes the test
    yields an item of the result. *)
Definition every_occurrence_extracted (s : jsstring) : Prop :=
  forall o a,
    occurrence s o -> item_of_occurrence o = Some a ->
    a ∈ parseMarkdownLinks s.

(** ** What a run leaves behind, independently of the world it starts in *)

Definition empty_world : World := mkWorld ∅ 0 [].

(** The world [w] with the effects [evs] added to its trace. *)
Definition extend (w : World) (evs : list Event) : World :=
  mkWorld (fs w) (ticks w) (trace w ++ evs).

(** The string [fetchArticleContent] returns for a URL. *)
Definition fetched (E : Env) (url : jsstring) : jsstring :=
  match fst (fetchArticleContent E url empty_world) with
  | Return s => s
  | _ => []
  end.

(** How [generateContent] ends for an article and its fetched text. *)
Definition generation (E : Env) (a : ArticleItem) (content : jsstring)
  : Outcome JsValue :=
  fst (generateContent E (title a) content (link a) empty_world).

Definition is_return {A} (o : Outcome A) : bool :=
  match o with Return _ => true | _ => false end.

(** The task of an article takes the skip branch. *)
Definition skips (E : Env) (a : ArticleItem) : bool :=
  startsWith (fetched E (link a)) failed_prefix.

(** The task of an article reaches [writeFileSync]. *)
Definition saves (E : Env) (a : ArticleItem) : bool :=
  negb (skips E a) && is_return (generation E a (fetched E (link a))).

(** The fetch of an article fails: the fetcher returns its sentinel. *)
Definition returns_sentinel (E : Env) (a : ArticleItem) : bool :=
  bool_decide (fetched E (link a) = sentinel (link a)).

(** The three failure paths of the fetcher, and its success path. *)
Inductive fetch_fails (E : Env) (url : jsstring) : Prop :=
| fails_transport m :
    http_get E url = NetworkError m -> fetch_fails E url
| fails_status status statusText body :
    http_get E url = HttpResponse false status statusText body ->
    fetch_fails E url
| fails_unparseable status statusText html :
    http_get E url = HttpResponse true status statusText html ->
    match readability E html url with
    | Article (Some (_ :: _)) => False
    | _ => True
    end ->
    fetch_fails E url.

Definition fetch_reads (E : Env) (url text : jsstring) : Prop :=
  exists status statusText html,
    http_get E url = HttpResponse true status statusText html /\
    readability E html url = Article (Some text) /\ text <> [].

(** The effects of one call of [generateContent]. *)
Definition generate_events (E : Env) (articleTitle articleContent : jsstring)
  : list Event :=
  EvLog (LogGenerating articleTitle) ::
  if MOCK_MODE E then []
  else [EvModelCall generate_system
          (generate_prompt articleTitle articleContent)].

(** Where the post of an article saved at time [t] goes. *)
Definition output_path (E : Env) (t : Z) (a : ArticleItem) : jsstring :=
  path_join (OUTPUT_DIR E) (output_filename t (title a)).

(** Where a run started in [w] on a file holding [content] asks the system
    to move the file: the time stamp is the reading of the clock that
    follows the batch, in which each post saved reads the clock twice. *)
Definition archive_target (E : Env) (w : World) (filePath content : jsstring)
  : jsstring :=
  archive_path E
    (clock E (ticks w + 2 * count_of (saves E) (parseMarkdownLinks content)))
    (basename filePath).

(** The system refuses that move. *)
Definition rename_refused (E : Env) (w : World) (filePath content : jsstring)
  : bool :=
  match rename_error E filePath (archive_target E w filePath content) with
  | Some _ => true
  | None => false
  end.

Definition is_fetch_event (e : Event) : bool :=
  match e with
  | EvLog (LogFetching _) | EvLog (LogFetchError _ _) | EvHttpGet _ => true
  | _ => false
  end.

Definition under (dir p : jsstring) : bool := startsWith p (dir ++ [slash]).

(** The files under the output directory that exist in [w'] and did not in
    [w]. *)
Definition created_outputs (E : Env) (w w' : World) : gset jsstring :=
  filter (fun p => under (OUTPUT_DIR E) p) (dom (fs w') ∖ dom (fs w)).

(** What [(msg.content[0] as any).text] makes of the answer of the model
    API: the rejection of the call is passed on, reading [text] off a
    missing first block raises, a text block gives its text and any other
    block gives [undefined]. *)
Definition first_text_outcome (r : ApiResult) : Outcome JsValue :=
  match r with
  | ApiError m => Throw (SystemError m)
  | ApiMessage [] =>
      Throw (TypeError
               (str "Cannot read properties of undefined (reading 'text')"))
  | ApiMessage (TextBlock text :: _) => Return (VString text)
  | ApiMessage (_ :: _) => Return VUndefined
  end.

(** ** Sample environments and worlds *)

Definition sample_http (url : jsstring) : HttpResult :=
  if startsWith url (str "http://down") then NetworkError (str "ETIMEDOUT")
  else if startsWith url (str "http://gone")
       then HttpResponse false 404 (str "Not Found") []
       else HttpResponse true 200 (str "OK") (str "<p>page</p>").

(** The readable text of the sample pages; the page under
    [http://alerts] is an article on failed logins. *)
Definition sample_readability (html url : jsstring) : ReadabilityResult :=
  if startsWith url (str "http://alerts")
  then Article (Some (str "[Failed logins] are rising this week."))
  else if startsWith url (str "http://empty") then NoArticle
       else Article (Some (str "  Hello, reader.  ")).

Definition sample_nodes : list ChildItem :=
  [ mkChildItem [str " 1 "]
      [mkAnchor (str " First topic ") (Some (str "/n/abc"))]
      [str "Zhihu "; [8231%N]; str " 958 hot"];
    mkChildItem [] [mkAnchor (str "   ") (Some (str "/n/blank"))] [];
    mkChildItem [str "3"]
      [mkAnchor (str "Third topic") (Some (str "https://example.com/t"))]
      [str "Weibo"];
    mkChildItem [] [mkAnchor (str "Fourth topic") None] [] ].

(** The longest file name the sample file system takes. *)
Definition NAME_MAX : nat := 255.

(** The sample file system refuses a rename to a name longer than that. *)
Definition sample_rename_error (src dst : jsstring) : option jsstring :=
  if NAME_MAX <? length (basename dst)
  then Some (str "ENAMETOOLONG: name too long, rename")
  else None.

(** In the sample file system [/app/local_inputs/locked.md] is a file
    that may not be read. *)
Definition sample_unreadable (p : jsstring) : option jsstring :=
  if bool_decide (p = str "/app/local_inputs/locked.md")
  then Some (str "EACCES: permission denied, open")
  else None.

Definition sample_env (mock : bool) (api : ApiResult) : Env :=
  mkEnv mock (str "/app") sample_http sample_readability
        (fun _ => sample_nodes) (fun _ _ => api)
        (fun _ => 1700000000123%Z) (fun _ => str "11/14/2023, 10:13:20 PM")
        (fun _ => str "[...]") 0%Z sample_unreadable sample_rename_error.

Definition env_mock : Env := sample_env true (ApiError (str "no key")).
Definition env_live_text : Env :=
  sample_env false (ApiMessage [TextBlock (str "# Post"); TextBlock (str "more")]).
Definition env_live_tool : Env :=
  sample_env false
    (ApiMessage [ToolUseBlock (str "toolu_01") (str "search");
                 TextBlock (str "# Post")]).
Definition env_live_down : Env := sample_env false (ApiError (str "overloaded")).

(** An environment in which every request is answered by [answer]. *)
Definition env_answering (answer : HttpResult) : Env :=
  mkEnv true (str "/app") (fun _ => answer) sample_readability
        (fun _ => sample_nodes) (fun _ _ => ApiError (str "no key"))
        (fun _ => 1700000000123%Z) (fun _ => str "11/14/2023, 10:13:20 PM")
        (fun _ => str "[...]") 0%Z sample_unreadable sample_rename_error.

Definition env_unavailable : Env :=
  env_answering (HttpResponse false 503 (str "Service Unavailable") []).

Definition env_offline : Env := env_answering (NetworkError (str "ENOTFOUND")).



Definition sample_path : jsstring := str "/app/local_inputs/links.md".

Definition world_with (content : jsstring) : World :=
  mkWorld {[ sample_path := content ]} 0 [].

(** A file whose name is 253 code units long: with the 14 code units of
    the time stamp and the underscore, its archive name passes 255. *)
Definition long_name : jsstring := replicate 250 (chr "a") ++ str ".md".

Definition long_path : jsstring := path_join (str "/app/local_inputs") long_name.

Definition world_at (path content : jsstring) : World :=
  mkWorld {[ path := content ]} 0 [].

(** One valid link, to a page that can be fetched. *)
Definition links_one : jsstring := str "1. [AI News](https://example.com/a)".

(** Two valid links, the second of which cannot be fetched. *)
Definition links_one_down : jsstring :=
  str "1. [AI News](https://example.com/a) 2. [Down](http://down.example/x)".

(** One valid link to an article whose text starts with [[Failed]. *)
Definition links_alert : jsstring := str "- [Security](http://alerts.example/1)".

(** Two valid links whose titles sanitize to the same fragment. *)
Definition links_twins : jsstring := str "[A!](http://a.example) [A?](http://b.example)".

(** A link whose parenthesis is not closed on its line, then a second
    link: the match of the first runs to the parenthesis that closes the
    second. *)
Definition links_nested : jsstring :=
  str "- [Broken](http://a.example/x" ++ [10%N] ++
  str "- [Good](http://b.example/y)".

(** No valid link: the only candidate is not an http link. *)
Definition links_none : jsstring := str "see [notes](ftp://files/notes.txt)".

(** Three valid links, none of which can be fetched: the first host is
    unreachable, the second answers 404, the third page has no article. *)
Definition links_all_down : jsstring :=
  str "[Down](http://down.example/x) [Gone](http://gone.example/y) [Empty](http://empty.example/z)".

(** ** The watcher, and two more counters *)

Definition is_http_get (e : Event) : bool :=
  match e with EvHttpGet _ => true | _ => false end.

Definition http_gets (tr : list Event) : nat := count_of is_http_get tr.

Definition is_model_call (e : Event) : bool :=
  match e with EvModelCall _ _ => true | _ => false end.

Definition model_calls (tr : list Event) : nat := count_of is_model_call tr.

Definition dot : N := chr ".".
Definition not_dot (c : N) : bool := negb (N.eqb c dot).

Definition is_nil {A} (l : list A) : bool :=
  match l with [] => true | _ :: _ => false end.

(** [path.extname(p)] (POSIX): what follows the last dot of the base name,
    the dot included; empty when there is no dot, when the only dot opens
    the name, and for the name [..]. *)
Definition extname (p : jsstring) : jsstring :=
  let '(ext_rev, rest) := span not_dot (rev (basename p)) in
  match rest with
  | [] => []
  | _ :: pre_rev =>
      match rev pre_rev with
      | [] => []
      | c :: pre' =>
          if N.eqb c dot && is_nil ext_rev && is_nil pre' then []
          else dot :: rev ext_rev
      end
  end.

(** [s.toLowerCase()] on the code units below 128. The others are left as
    they are: none of them lowercases to a unit of [.md] or [.txt], the
    only strings the result is compared with. *)
Definition toLowerCase (s : jsstring) : jsstring :=
  map (fun c => if (N.leb 65 c && N.leb c 90)%N then (c + 32)%N else c) s.

(** [['.md', '.txt'].includes(path.extname(filename).toLowerCase())]. *)
Definition watched_extension (filename : jsstring) : bool :=
  bool_decide (toLowerCase (extname filename) ∈ [str ".md"; str ".txt"]).

(** The handler of the watcher's [add] event (its two console lines are
    left out of the trace). *)
Definition on_add (E : Env) (filePath : jsstring) : Eff unit :=
  let filename := basename filePath in
  if negb (watched_extension filename) then mret tt
  else processInputFile E filePath.

(** The environment [E] with a verification child that exits with [code]. *)
Definition with_exit_code (E : Env) (code : Z) : Env :=
  mkEnv (MOCK_MODE E) (projectRoot E) (http_get E) (readability E)
        (cheerio_child_items E) (messages_create E) (clock E)
        (toLocaleString E) (JSON_stringify E) code (unreadable E)
        (rename_error E).

(** The effects other than console lines. *)
Definition not_log (e : Event) : bool :=
  match e with EvLog _ => false | _ => true end.

Definition beyond_console (tr : list Event) : list Event := filter not_log tr.

(** The effects of one call of [runVerifySkill]. *)
Definition hook_events (E : Env) : list Event :=
  [EvLog LogVerifyTrigger; EvSpawnVerify;
   EvLog (if (verify_exit_code E =? 0)%Z then LogVerifyDone
          else LogVerifyFailed (verify_exit_code E))].

(** The effects of [processInputFile] that follow the batch: the rename,
    its console line and the hook if a post was saved, or the console line
    of the error when the system refuses the rename. *)
Definition after_batch (E : Env) (w : World) (filePath content : jsstring)
  : list Event :=
  let dst := archive_target E w filePath content in
  match rename_error E filePath dst with
  | None =>
      EvRename filePath dst :: EvLog (LogArchived dst) ::
      (if 0 <? count_of (saves E) (parseMarkdownLinks content)
       then hook_events E else [])
  | Some m => [EvLog (LogInputFailed (basename filePath) (SystemError m))]
  end.

(** The code units of an ISO time stamp. *)
Definition is_iso_unit (c : N) : bool :=
  (N.leb 48 c && N.leb c 57) || N.eqb c (chr "-") || N.eqb c (chr "+") ||
  N.eqb c (chr "T") || N.eqb c (chr "Z") || N.eqb c (chr ":") ||
  N.eqb c (chr ".").

(** The code units a generated file name is made of. *)
Definition is_name_unit (c : N) : bool :=
  keeps_in_title c || N.eqb c (chr "_") || N.eqb c (chr "-") ||
  N.eqb c (chr ".") || N.eqb c (chr "+").

(** * Theorems *)

(** ** Strings *)

Lemma startsWith_prefix s p : startsWith s p = true <-> p `prefix_of` s.
Proof.
  revert s; induction p as [|c p IH]; intros s; simpl.
  - split; [intros _; apply prefix_nil | done].
  - destruct s as [|d s].
    + split; [done | intros [k Hk]; discriminate Hk].
    
    + destruct (N.eqb_spec c d) as [->|Hne].
      * rewrite IH. split.
        -- apply prefix_cons.
        -- intros [k Hk]. injection Hk as Hk. by exists k.
      * split; [done | intros [k Hk]; injection Hk as Hk; congruence].
Qed.

Lemma startsWith_app p s : startsWith (p ++ s) p = true.
Proof. apply startsWith_prefix. by apply prefix_app_r. Qed.

Lemma includes_here s p : startsWith s p = true -> includes s p = true.
Proof. destruct s; simpl; intros ->; done. Qed.

Lemma includes_app_r a s p : includes s p = true -> includes (a ++ s) p = true.
Proof.
  intros H. induction a as [|c a IH]; [done|].
  simpl. rewrite IH. apply orb_true_r.
Qed.

Lemma includes_middle a p b : includes (a ++ p ++ b) p = true.
Proof. apply includes_app_r, includes_here, startsWith_app. Qed.

Lemma length_substring0 n s : length (substring0 n s) <= n.
Proof. unfold substring0. rewrite length_take. apply Nat.le_min_l. Qed.

(** ** The regular expression *)

Lemma span_app p s a b : span p s = (a, b) -> s = a ++ b.
Proof.
  revert a b; induction s as [|c s IH]; intros a b; simpl.
  - by intros [= <- <-].
  - destruct (p c); [|by intros [= <- <-]].
    destruct (span p s) as [a' b'] eqn:Hs. intros [= <- <-].
    simpl. f_equal. by apply IH.
Qed.

Lemma span_Forall p s a b : span p s = (a, b) -> Forall (fun c => p c = true) a.
Proof.
  revert a b; induction s as [|c s IH]; intros a b; simpl.
  - intros [= <- <-]. constructor.
  - destruct (p c) eqn:Hc; [|intros [= <- <-]; constructor].
    destruct (span p s) as [a' b'] eqn:Hs. intros [= <- <-].
    constructor; [done | by eapply IH].
Qed.

Lemma span_stop p s a c b : span p s = (a, c :: b) -> p c = false.
Proof.
  revert a; induction s as [|d s IH]; intros a; simpl.
  - intros [=].
  - destruct (p d) eqn:Hd.
    + destruct (span p s) as [a' b'] eqn:Hs. intros [= <- ->]. by eapply IH.
    + by intros [= <- <- <-].
Qed.

Lemma span_unique p a c b :
  Forall (fun x => p x = true) a -> p c = false ->
  span p (a ++ c :: b) = (a, c :: b).
Proof.
  intros Ha Hc. induction Ha as [|x a Hx Ha IH]; simpl.
  - by rewrite Hc.
  - by rewrite Hx, IH.
Qed.

Lemma not_rbracket_Forall t :
  chr "]" ∉ t <-> Forall (fun c => not_rbracket c = true) t.
Proof.
  rewrite Forall_forall. unfold not_rbracket. split.
  - intros H c Hc. apply negb_true_iff, N.eqb_neq. intros ->. done.
  - intros H Hin. specialize (H _ Hin). by rewrite N.eqb_refl in H.
Qed.

Lemma not_rparen_Forall l :
  chr ")" ∉ l <-> Forall (fun c => not_rparen c = true) l.
Proof.
  rewrite Forall_forall. unfold not_rparen. split.
  - intros H c Hc. apply negb_true_iff, N.eqb_neq. intros ->. done.
  - intros H Hin. specialize (H _ Hin). by rewrite N.eqb_refl in H.
Qed.

Lemma link_shape_length t l : length (link_shape t l) = length t + length l + 4.
Proof. unfold link_shape. simpl. rewrite !length_app. simpl. rewrite length_app. simpl. lia. Qed.

(** An anchored match is exactly a well-shaped link at the head. *)
Lemma match_here_Some s t l n :
  match_here s = Some (t, l, n) ->
  exists post, s = link_shape t l ++ post /\ well_shaped t l /\
               n = length t + length l + 4.
Proof.
  unfold match_here. destruct s as [|c s1]; [done|].
  destruct (N.eqb_spec c (chr "[")) as [->|]; [|done].
  destruct (span not_rbracket s1) as [g1 r1] eqn:H1.
  destruct g1 as [|x g1]; [done|].
  destruct r1 as [|rb [|lp s3]]; [done..|].
  destruct (N.eqb_spec lp (chr "(")) as [->|]; [|done].
  destruct (span not_rparen s3) as [g2 r2] eqn:H2.
  destruct g2 as [|y g2]; [done|].
  destruct r2 as [|rp post]; [done|].
  intros [= <- <- <-].
  pose proof (span_stop _ _ _ _ _ H1) as Hrb.
  pose proof (span_stop _ _ _ _ _ H2) as Hrp.
  apply negb_false_iff, N.eqb_eq in Hrb, Hrp. subst rb rp.
  exists post. split; [|split; [|done]].
  - apply span_app in H1, H2. subst s1 s3. unfold link_shape.
    simpl. f_equal. f_equal. rewrite <- !app_assoc. simpl.
    rewrite <- !app_assoc. done.
  - repeat split; [done| |done|].
    + apply not_rbracket_Forall. by eapply span_Forall.
    + apply not_rparen_Forall. by eapply span_Forall.
Qed.

Lemma match_here_shape t l post :
  well_shaped t l ->
  match_here (link_shape t l ++ post) = Some (t, l, length t + length l + 4).
Proof.
  intros (Ht & Hnt & Hl & Hnl). unfold match_here, link_shape. simpl.
  rewrite <- app_assoc. simpl.
  rewrite span_unique; [|by apply not_rbracket_Forall|done].
  destruct t as [|x t]; [done|]. simpl.
  rewrite <- app_assoc. simpl.
  rewrite span_unique; [|by apply not_rparen_Forall|done].
  destruct l as [|y l]; done.
Qed.

(** [search] returns the leftmost occurrence, and fails only when there is
    none. *)
Lemma search_Some s : forall pos t l e,
  search s pos = Some (t, l, e) ->
  exists pre post,
    occurs_at s pre t l post /\
    (forall pre' t' l' post',
        occurs_at s pre' t' l' post' -> length pre <= length pre') /\
    e = pos + length pre + (length t + length l + 4).
Proof.
  induction s as [|c s IH]; intros pos t l e.
  - simpl. done.
  - cbn [search]. destruct (match_here (c :: s)) as [[[g1 g2] len]|] eqn:Hm.
    + intros [= -> -> <-].
      apply match_here_Some in Hm as (post & Hs & Hw & ->).
      exists [], post. split; [by split|]. split; [simpl; lia|simpl; lia].
    + intros Hs. apply IH in Hs as (pre & post & [Hs Hw] & Hleft & ->).
      exists (c :: pre), post. split; [|split].
      * split; [|done]. simpl. by f_equal.
      * intros pre' t' l' post' [Hs' Hw'].
        destruct pre' as [|c' pre'].
        -- rewrite app_nil_l in Hs'.
           rewrite Hs', match_here_shape in Hm by done. done.
        -- rewrite <- app_comm_cons in Hs'. injection Hs' as -> Hs'.
           cbn [length]. apply le_n_S. eapply Hleft.
           split; [exact Hs' | exact Hw'].
      * simpl. lia.
Qed.

Lemma search_None s : forall pos,
  search s pos = None -> forall pre t l post, ~ occurs_at s pre t l post.
Proof.
  induction s as [|c s IH]; intros pos.
  - intros _ pre t l post [Hs _]. destruct pre; discriminate Hs.
  - cbn [search]. destruct (match_here (c :: s)) as [[[g1 g2] len]|] eqn:Hm; [done|].
    intros Hs pre t l post [Hs' Hw].
    destruct pre as [|c' pre].
    + rewrite app_nil_l in Hs'.
      rewrite Hs', match_here_shape in Hm by done. done.
    + rewrite <- app_comm_cons in Hs'. injection Hs' as -> Hs'.
      eapply IH; [done|]. split; [exact Hs' | exact Hw].
Qed.

(** A well-shaped link at a given offset is determined by the text. *)
Lemma occurs_at_same_offset s pre t l post pre' t' l' post' :
  occurs_at s pre t l post -> occurs_at s pre' t' l' post' ->
  length pre = length pre' ->
  pre = pre' /\ t = t' /\ l = l' /\ post = post'.
Proof.
  intros [Hs Hw] [Hs' Hw'] Hlen. rewrite Hs in Hs'.
  apply app_inj_1 in Hs' as [-> Hrest]; [|done].
  pose proof (match_here_shape t l post Hw) as H1.
  rewrite Hrest, match_here_shape in H1 by done.
  injection H1 as -> ->. apply app_inv_head in Hrest. done.
Qed.

Lemma scan_matches_unique s occs :
  scan_matches s occs -> forall occs', scan_matches s occs' -> occs' = occs.
Proof.
  induction 1 as [s Hnone|s pre t l post rest Hocc Hleft Hrest IH];
    intros occs' H'; inversion H' as [s0 Hnone'|s0 pre' t' l' post' rest' Hocc' Hleft' Hrest']; subst.
  - done.
  - by destruct (Hnone _ _ _ _ Hocc').
  - by destruct (Hnone' _ _ _ _ Hocc).
  - assert (length pre = length pre') as Hlen.
    { apply Nat.le_antisymm; [by eapply Hleft | by eapply Hleft']. }
    destruct (occurs_at_same_offset _ _ _ _ _ _ _ _ _ Hocc Hocc' Hlen)
      as (-> & -> & -> & ->).
    f_equal. by apply IH.
Qed.

(** One call of [exec] from an index inside the text. *)
Lemma exec_Some content k t l re' :
  k <= length content ->
  exec (mkRegExp k) content = (Some (t, l), re') ->
  exists pre post,
    occurs_at (drop k content) pre t l post /\
    (forall pre' t' l' post',
        occurs_at (drop k content) pre' t' l' post' ->
        length pre <= length pre') /\
    drop (lastIndex re') content = post /\
    k < lastIndex re' <= length content.
Proof.
  intros Hk. unfold exec. simpl. rewrite decide_True by done.
  destruct (search (drop k content) k) as [[[g1 g2] e]|] eqn:Hs; [|done].
  intros [= -> -> <-]. simpl.
  apply search_Some in Hs as (pre & post & Hocc & Hleft & ->).
  exists pre, post. split; [done|]. split; [done|].
  destruct Hocc as [Hd Hw].
  assert (length (drop k content) =
          length pre + (length t + length l + 4) + length post) as Hlen.
  { rewrite Hd, !length_app, link_shape_length. lia. }
  rewrite length_drop in Hlen. split; [|lia].
  replace (k + length pre + (length t + length l + 4))
    with (k + (length pre + length (link_shape t l)))
    by (rewrite link_shape_length; lia).
  rewrite <- drop_drop, Hd.
  rewrite app_assoc, drop_app_length'; [done|].
  by rewrite length_app.
Qed.

Lemma exec_None content k re' :
  k <= length content ->
  exec (mkRegExp k) content = (None, re') ->
  re' = mkRegExp 0 /\
  forall pre t l post, ~ occurs_at (drop k content) pre t l post.
Proof.
  intros Hk. unfold exec. simpl. rewrite decide_True by done.
  destruct (search (drop k content) k) as [[[g1 g2] e]|] eqn:Hs; [done|].
  intros [= <-]. split; [done|]. by eapply search_None.
Qed.

Lemma push_if_valid_item items g1 g2 :
  push_if_valid items g1 g2 =
  items ++ omap item_of_occurrence [(g1, g2)].
Proof.
  unfold push_if_valid, item_of_occurrence. cbn -[startsWith http trim].
  destruct (trim g1) as [|x t]; cbn -[startsWith http trim];
    [by rewrite app_nil_r|].
  destruct (trim g2) as [|y l]; cbn -[startsWith http trim];
    [by rewrite app_nil_r|].
  destruct (startsWith (y :: l) http); [done | by rewrite app_nil_r].
Qed.

(** The loop visits the matches from left to right, pushes the item of
    each one that has one, and stops with [lastIndex] back at 0. *)
Lemma parse_loop_scan content : forall fuel k items,
  k <= length content -> length content - k < fuel ->
  exists occs,
    scan_matches (drop k content) occs /\
    parse_loop fuel (mkRegExp k) content items =
      Some (items ++ omap item_of_occurrence occs, mkRegExp 0).
Proof.
  induction fuel as [|fuel IH]; intros k items Hk Hfuel; [lia|].
  cbn [parse_loop].
  destruct (exec (mkRegExp k) content) as [[[g1 g2]|] re'] eqn:Hx.
  - apply exec_Some in Hx as (pre & post & Hocc & Hleft & Hpost & Hlt); [|done].
    destruct re' as [e]. simpl in Hpost, Hlt.
    destruct (IH e (push_if_valid items g1 g2)) as (occs & Hoccs & Hloop);
      [lia..|].
    exists ((g1, g2) :: occs). split.
    + eapply scan_next; [done..|]. by rewrite <- Hpost.
    + rewrite Hloop, push_if_valid_item, <- app_assoc.
      f_equal. f_equal. f_equal. simpl.
      by destruct (item_of_occurrence (g1, g2)).
  - apply exec_None in Hx as [-> Hnone]; [|done].
    exists []. split; [by constructor|]. simpl. by rewrite app_nil_r.
Qed.

(** ** Effects *)

Ltac eff_unfold :=
  unfold mbind, mret, Eff_bind, Eff_ret, try_catch, throw, log, emit,
    existsSync, readFileSync, writeFileSync, renameSync, Date_now,
    process_exit, extend in *.

Lemma since_extend w evs : since w (extend w evs) = evs.
Proof. unfold since, extend. simpl. by rewrite drop_app_length. Qed.

Lemma extend_extend w a b : extend (extend w a) b = extend w (a ++ b).
Proof. unfold extend. simpl. by rewrite app_assoc. Qed.

Lemma extend_nil w : extend w [] = w.
Proof. destruct w. unfold extend. simpl. by rewrite app_nil_r. Qed.

Lemma sentinel_prefixed url : sentinel_prefix `prefix_of` sentinel url.
Proof. unfold sentinel. by apply prefix_app_r. Qed.

Lemma sentinel_embeds url : includes (sentinel url) url = true.
Proof. unfold sentinel. apply includes_middle. Qed.

Lemma sentinel_starts_failed url : startsWith (sentinel url) failed_prefix = true.
Proof. reflexivity. Qed.

#[local] Opaque EXCERPT_LIMIT.

(** The fetcher always returns, changes nothing but the trace, and what it
    returns does not depend on the world. *)
Lemma fetchArticleContent_run E url w :
  exists evs,
    fetchArticleContent E url w = (Return (fetched E url), extend w evs) /\
    Forall is_fetch_event evs.
Proof.
  unfold fetched, fetchArticleContent, fetch, parse_article. eff_unfold.
  cbn -[sentinel substring0 trim EXCERPT_LIMIT].
  destruct (http_get E url) as [m|[] status statusText html];
    cbn -[sentinel substring0 trim EXCERPT_LIMIT];
    try (eexists; split; [rewrite <- ?app_assoc; reflexivity|];
         by repeat constructor).
  destruct (readability E html url) as [m| |[[|c t]|]];
    cbn -[sentinel substring0 trim EXCERPT_LIMIT];
    eexists; (split; [rewrite <- ?app_assoc; reflexivity|]);
    by repeat constructor.
Qed.

Lemma fetched_fails E url : fetch_fails E url -> fetched E url = sentinel url.
Proof.
  unfold fetched, fetchArticleContent, fetch, parse_article. eff_unfold.
  intros [m H|status statusText body H|status statusText html H Hr];
    cbn -[sentinel substring0 trim EXCERPT_LIMIT]; rewrite H; cbn -[sentinel substring0 trim EXCERPT_LIMIT];
    [done..|].
  by destruct (readability E html url) as [m| |[[|c t]|]].
Qed.

Lemma fetched_reads E url text :
  fetch_reads E url text -> fetched E url = substring0 EXCERPT_LIMIT (trim text).
Proof.
  unfold fetched, fetchArticleContent, fetch, parse_article. eff_unfold.
  intros (status & statusText & html & H & Hr & Ht).
  cbn -[sentinel substring0 trim EXCERPT_LIMIT]. rewrite H. cbn -[sentinel substring0 trim EXCERPT_LIMIT].
  rewrite Hr. by destruct text.
Qed.

#[local] Transparent EXCERPT_LIMIT.

Lemma fetch_cases E url :
  fetch_fails E url \/ exists text, fetch_reads E url text.
Proof.
  destruct (http_get E url) as [m|[] status statusText html] eqn:H.
  - left. by eapply fails_transport.
  - destruct (readability E html url) as [m| |[[|c t]|]] eqn:Hr.
    1-3,5: left; eapply fails_unparseable; [done|by rewrite Hr].
    right. exists (c :: t), status, statusText, html. done.
  - left. by eapply fails_status.
Qed.

(** ** Counting effects *)

Lemma count_of_nil {A} (f : A -> bool) : count_of f [] = 0.
Proof. reflexivity. Qed.

Lemma count_of_cons {A} (f : A -> bool) a l :
  count_of f (a :: l) = (if f a then 1 else 0) + count_of f l.
Proof.
  unfold count_of. destruct (f a) eqn:H.
  - rewrite filter_cons_True by (by rewrite H). done.
  - rewrite filter_cons_False by (rewrite H; intros []). done.
Qed.

Lemma count_of_app {A} (f : A -> bool) l k :
  count_of f (l ++ k) = count_of f l + count_of f k.
Proof. unfold count_of. by rewrite filter_app, length_app. Qed.

Lemma count_of_none {A} (f g : A -> bool) l :
  (forall a, g a = true -> f a = false) ->
  Forall g l -> count_of f l = 0.
Proof.
  intros Hfg Hl. induction Hl as [|a l Ha Hl IH]; [done|].
  rewrite count_of_cons, IH, Hfg; [done|]. by destruct (g a).
Qed.

Lemma omap_none {A B} (f : A -> option B) (g : A -> bool) (l : list A) :
  (forall a, g a = true -> f a = None) ->
  Forall g l -> omap f l = [].
Proof.
  intros Hfg Hl. induction Hl as [|a l Ha Hl IH]; [done|].
  change (omap f (a :: l)) with
    (match f a with Some y => y :: omap f l | None => omap f l end).
  rewrite Hfg; [exact IH|]. by destruct (g a).
Qed.

Lemma written_paths_app a b :
  written_paths (a ++ b) = written_paths a ++ written_paths b.
Proof. apply omap_app. Qed.

Lemma renames_app a b : renames (a ++ b) = renames a ++ renames b.
Proof. apply omap_app. Qed.

(** A fetch neither skips, writes, renames, spawns nor generates. *)
Lemma fetch_events_quiet evs :
  Forall is_fetch_event evs ->
  skipped evs = 0 /\ written_paths evs = [] /\ renames evs = [] /\
  spawns evs = 0 /\ generations evs = 0.
Proof.
  intros H. repeat split.
  - eapply count_of_none; [|exact H]. by intros [[]| | | | |].
  - eapply omap_none; [|exact H]. by intros [[]| | | | |].
  - eapply omap_none; [|exact H]. by intros [[]| | | | |].
  - eapply count_of_none; [|exact H]. by intros [[]| | | | |].
  - eapply count_of_none; [|exact H]. by intros [[]| | | | |].
Qed.

Lemma generateContent_run E t c l w :
  generateContent E t c l w =
  (fst (generateContent E t c l empty_world), extend w (generate_events E t c)).
Proof.
  unfold generateContent, generate_events, anthropic_messages_create, first_text.
  eff_unfold. cbn -[generate_prompt generate_system mock_content].
  destruct (MOCK_MODE E); [done|].
  cbn -[generate_prompt generate_system mock_content].
  rewrite <- app_assoc.
  destruct (messages_create E generate_system (generate_prompt t c))
    as [m|[|[]]]; done.
Qed.

Lemma generate_events_quiet E t c :
  skipped (generate_events E t c) = 0 /\
  written_paths (generate_events E t c) = [] /\
  renames (generate_events E t c) = [] /\
  spawns (generate_events E t c) = 0 /\
  generations (generate_events E t c) = 1.
Proof. unfold generate_events. by destruct (MOCK_MODE E). Qed.

(** ** One task, and the batch *)

Lemma generateContent_no_exit E t c l w code :
  fst (generateContent E t c l w) <> Exit code.
Proof.
  unfold generateContent, anthropic_messages_create, first_text. eff_unfold.
  cbn -[generate_prompt generate_system mock_content].
  destruct (MOCK_MODE E); [done|].
  cbn -[generate_prompt generate_system mock_content].
  by destruct (messages_create E generate_system (generate_prompt t c))
    as [m|[|[]]].
Qed.

(** Rewrites the counters of a trace built from known pieces. *)
Ltac tally_step :=
  first
    [ rewrite count_of_app | rewrite count_of_cons | rewrite count_of_nil
    | rewrite omap_app
    | progress cbn [omap list_omap written_path renamed is_skip is_spawn
                    is_generating is_network_call app Nat.add]
    | match goal with
      | H : count_of _ _ = _ |- _ => rewrite H
      | H : omap _ _ = _ |- _ => rewrite H
      end ].

Ltac tally :=
  unfold skipped, spawns, generations, network_calls, written_paths,
    renames in *;
  repeat tally_step; try done.

(** What one task does to the world and to the shared counter. *)
Lemma article_task_run E filename total index a c w :
  exists evs body,
    article_task E filename total index a c w =
      (Return (if saves E a then S c else c),
       mkWorld
         (if saves E a
          then <[output_path E (clock E (ticks w)) a := body]> (fs w)
          else fs w)
         (if saves E a then S (S (ticks w)) else ticks w)
         (trace w ++ evs)) /\
    skipped evs = (if skips E a then 1 else 0) /\
    written_paths evs =
      (if saves E a then [output_path E (clock E (ticks w)) a] else []) /\
    generations evs = (if skips E a then 0 else 1) /\
    renames evs = [] /\ spawns evs = 0.
Proof.
  unfold article_task, saves, skips, generation.
  unfold mbind, Eff_bind, try_catch, log, emit.
  cbn -[fetchArticleContent generateContent startsWith failed_prefix
        output_filename final_content].
  set (w1 := mkWorld _ _ _).
  destruct (fetchArticleContent_run E (link a) w1) as (evs1 & -> & Hq).
  apply fetch_events_quiet in Hq as (Hs1 & Hw1 & Hr1 & Hp1 & Hg1).
  destruct (startsWith (fetched E (link a)) failed_prefix) eqn:Hskip;
    cbn -[fetchArticleContent generateContent startsWith failed_prefix
          output_filename final_content].
  - eexists (_ :: evs1 ++ [_]), []. split.
    + rewrite <- !app_assoc. reflexivity.
    + repeat split; tally.
  - rewrite generateContent_run.
    pose proof (generateContent_no_exit E (title a) (fetched E (link a))
                  (link a) empty_world) as Hne.
    pose proof (generate_events_quiet E (title a) (fetched E (link a)))
      as (Hs2 & Hw2 & Hr2 & Hp2 & Hg2).
    destruct (fst (generateContent E (title a) (fetched E (link a)) (link a)
                     empty_world)) as [v|e|code];
      cbn -[fetchArticleContent generateContent startsWith failed_prefix
            output_filename final_content generate_events].
    + eexists (_ :: evs1 ++ generate_events _ _ _ ++ [_; _]), _. split.
      * unfold mret, Eff_ret, output_path. rewrite <- !app_assoc. reflexivity.
      * repeat split; tally.
    + eexists (_ :: evs1 ++ generate_events _ _ _ ++ [_]), []. split.
      * unfold mret, Eff_ret. rewrite <- !app_assoc. reflexivity.
      * repeat split; tally.
    + by destruct (Hne code).
Qed.

Lemma under_path_join dir name : under dir (path_join dir name) = true.
Proof.
  unfold under, path_join.
  replace (dir ++ slash :: name) with ((dir ++ [slash]) ++ name)
    by (by rewrite <- app_assoc).
  apply startsWith_app.
Qed.

(** The batch: every task returns, so the loop reaches its end; the
    counter ends at the number of saved posts. *)
Lemma run_tasks_run E filename total : forall articles index c w,
  exists evs w',
    run_tasks E filename total index articles c w =
      (Return (c + count_of (saves E) articles), w') /\
    trace w' = trace w ++ evs /\
    ticks w' = ticks w + 2 * count_of (saves E) articles /\
    dom (fs w') = dom (fs w) ∪ list_to_set (written_paths evs) /\
    (forall p, p ∉ written_paths evs -> fs w' !! p = fs w !! p) /\
    skipped evs = count_of (skips E) articles /\
    length (written_paths evs) = count_of (saves E) articles /\
    Forall (fun p => under (OUTPUT_DIR E) p = true) (written_paths evs) /\
    generations evs = count_of (fun a => negb (skips E a)) articles /\
    renames evs = [] /\ spawns evs = 0.
Proof.
  induction articles as [|a rest IH]; intros index c w.
  - exists [], w. cbn [run_tasks]. rewrite !count_of_nil, app_nil_r.
    repeat split; try done.
    + by rewrite Nat.add_0_r.
    + cbn. set_solver.
  - cbn [run_tasks]. unfold mbind, Eff_bind.
    destruct (article_task_run E filename total index a c w)
      as (evs1 & body & -> & Hs1 & Hw1 & Hg1 & Hr1 & Hp1).
    set (w1 := mkWorld _ _ _).
    destruct (IH (S index) (if saves E a then S c else c) w1)
      as (evs2 & w' & -> & Ht & Hk & Hd & Hf & Hs2 & Hw2 & Hu & Hg2 & Hr2 & Hp2).
    exists (evs1 ++ evs2), w'. rewrite !count_of_cons.
    subst w1. cbn [trace ticks fs] in *.
    split; [|split; [|split; [|split; [|split; [|split;
      [|split; [|split; [|split; [|split]]]]]]]]].
    + f_equal. f_equal. destruct (saves E a); lia.
    + by rewrite Ht, app_assoc.
    + rewrite Hk. destruct (saves E a); lia.
    + rewrite Hd, written_paths_app, Hw1. destruct (saves E a).
      * rewrite dom_insert_L. cbn. set_solver.
      * cbn. set_solver.
    + intros p Hp. rewrite written_paths_app, Hw1 in Hp.
      rewrite Hf by set_solver. destruct (saves E a); [|done].
      rewrite lookup_insert_ne; [done|]. set_solver.
    + unfold skipped in *. by rewrite count_of_app, Hs1, Hs2.
    + rewrite written_paths_app, length_app, Hw1, Hw2.
      by destruct (saves E a).
    + rewrite written_paths_app, Hw1. apply Forall_app. split; [|done].
      destruct (saves E a); [|done]. constructor; [|done].
      apply under_path_join.
    + unfold generations in *. rewrite count_of_app, Hg1, Hg2.
      by destruct (skips E a).
    + by rewrite renames_app, Hr1, Hr2.
    + unfold spawns in *. by rewrite count_of_app, Hp1, Hp2.
Qed.

Lemma runVerifySkill_run E w :
  exists evs,
    runVerifySkill E w = (Return tt, extend w evs) /\
    spawns evs = 1 /\ skipped evs = 0 /\ written_paths evs = [] /\
    renames evs = [] /\ generations evs = 0.
Proof.
  unfold runVerifySkill. eff_unfold. cbn.
  destruct (verify_exit_code E =? 0)%Z; cbn;
    (eexists; split; [rewrite <- !app_assoc; reflexivity|]);
    repeat split; tally.
Qed.

(** A file without a valid link: two console lines and nothing else. *)
Lemma processInputFile_no_links E filePath content w :
  fs w !! filePath = Some content ->
  parseMarkdownLinks content = [] ->
  processInputFile E filePath w =
    (Return tt,
     extend w [EvLog (LogProcessing (basename filePath));
               EvLog (LogNoValidLinks (basename filePath))]).
Proof.
  intros Hfile Hnone. unfold processInputFile. eff_unfold.
  cbn -[parseMarkdownLinks basename]. rewrite Hfile.
  cbn -[parseMarkdownLinks basename]. rewrite ?Hfile.
  cbn -[parseMarkdownLinks basename]. rewrite Hnone.
  cbn -[parseMarkdownLinks basename]. by rewrite <- app_assoc.
Qed.

(** A path that is no readable file when the debounce ends. When nothing
    is there: one console line. When something is there that cannot be
    read: the read raises, and the error is logged. *)
Lemma processInputFile_not_readable E filePath w :
  fs w !! filePath = None ->
  processInputFile E filePath w =
    (Return tt,
     extend w (EvLog (LogProcessing (basename filePath)) ::
               match unreadable E filePath with
               | Some m => [EvLog (LogInputFailed (basename filePath)
                                     (SystemError m))]
               | None => []
               end)).
Proof.
  intros Hgone. unfold processInputFile. eff_unfold.
  cbn -[parseMarkdownLinks basename]. rewrite Hgone.
  destruct (unreadable E filePath) as [m|];
    cbn -[parseMarkdownLinks basename]; [|done].
  rewrite Hgone. cbn -[parseMarkdownLinks basename].
  by rewrite <- app_assoc.
Qed.

(** A file with valid links, when the system takes the rename: the batch,
    then one rename, then the hook when something was saved. *)
Lemma processInputFile_links E filePath content w :
  fs w !! filePath = Some content ->
  parseMarkdownLinks content <> [] ->
  let articles := parseMarkdownLinks content in
  let saved := count_of (saves E) articles in
  let dst := archive_path E (clock E (ticks w + 2 * saved)) (basename filePath) in
  rename_error E filePath dst = None ->
  exists evs w' body,
    processInputFile E filePath w = (Return tt, w') /\
    trace w' = trace w ++ evs /\
    renames evs = [(filePath, dst)] /\
    skipped evs = count_of (skips E) articles /\
    length (written_paths evs) = saved /\
    Forall (fun p => under (OUTPUT_DIR E) p = true) (written_paths evs) /\
    spawns evs = (if 0 <? saved then 1 else 0) /\
    generations evs = count_of (fun a => negb (skips E a)) articles /\
    dom (fs w') =
      ((dom (fs w) ∪ list_to_set (written_paths evs)) ∖ {[filePath]}) ∪ {[dst]} /\
    fs w' !! dst = Some body /\
    (filePath <> dst -> fs w' !! filePath = None).
Proof.
  intros Hfile Hsome articles saved dst Hok.
  assert ((length articles =? 0) = false) as Hlen.
  { subst articles. by destruct (parseMarkdownLinks content). }
  unfold processInputFile.
  unfold mbind, Eff_bind, try_catch, log, emit, existsSync, readFileSync.
  cbn -[parseMarkdownLinks basename run_tasks count_of Nat.eqb Nat.ltb].
  rewrite Hfile.
  cbn -[parseMarkdownLinks basename run_tasks count_of Nat.eqb Nat.ltb].
  rewrite ?Hfile.
  cbn -[parseMarkdownLinks basename run_tasks count_of Nat.eqb Nat.ltb].
  fold articles. rewrite Hlen.
  set (w1 := mkWorld _ _ (_ ++ [EvLog (LogFound _)])).
  destruct (run_tasks_run E (basename filePath) (length articles) articles 0 0 w1)
    as (evs1 & w2 & -> & Ht & Hk & Hd & Hf & Hs1 & Hw1 & Hu & Hg1 & Hr1 & Hp1).
  fold saved in Hk, Hw1 |- *.
  unfold Date_now, renameSync.
  cbn -[parseMarkdownLinks basename run_tasks count_of Nat.eqb Nat.ltb].
  subst w1. cbn [fs ticks trace] in *. rewrite Hk. fold dst.
  assert (is_Some (fs w2 !! filePath)) as [body Hbody].
  { apply elem_of_dom. rewrite Hd. apply elem_of_union_l, elem_of_dom. eauto. }
  rewrite Hbody, Hok.
  cbn -[parseMarkdownLinks basename run_tasks count_of Nat.eqb Nat.ltb].
  assert (forall tail,
    renames tail = [] -> skipped tail = 0 -> written_paths tail = [] ->
    generations tail = 0 ->
    let evs := EvLog (LogProcessing (basename filePath)) ::
               EvLog (LogFound (length articles)) :: evs1 ++
               EvRename filePath dst :: EvLog (LogArchived dst) :: tail in
    renames evs = [(filePath, dst)] /\
    skipped evs = count_of (skips E) articles /\
    written_paths evs = written_paths evs1 /\
    spawns evs = spawns tail /\
    generations evs = count_of (fun a => negb (skips E a)) articles) as Hcount.
  { intros tail Hr Hs Hw Hg evs. subst evs.
    repeat split; tally. by rewrite app_nil_r. }
  assert (dom (<[dst:=body]> (delete filePath (fs w2))) =
          (dom (fs w) ∪ list_to_set (written_paths evs1)) ∖ {[filePath]} ∪ {[dst]})
    as Hdom.
  { rewrite dom_insert_L, dom_delete_L, Hd. set_solver. }
  destruct saved as [|n] eqn:Hsaved.
  - change (0 <? 0) with false. cbn iota.
    destruct (Hcount []) as (Hc1 & Hc2 & Hc3 & Hc4 & Hc5); [done..|].
    eexists (_ :: _ :: evs1 ++ _ :: _ :: []), _, body.
    split; [reflexivity|]. cbn [trace fs].
    split; [by rewrite Ht, <- !app_assoc|].
    rewrite Hc3. repeat split; try done.
    + apply lookup_insert_eq.
    + intros Hne. by rewrite lookup_insert_ne, lookup_delete_eq.
  - change (0 <? S n) with true. replace (0 + S n) with (S n) by done.
    cbn iota.
    match goal with |- context [runVerifySkill E ?w] =>
      destruct (runVerifySkill_run E w) as (evs2 & -> & Hp2 & Hs2 & Hw2 & Hr2 & Hg2)
    end.
    destruct (Hcount evs2) as (Hc1 & Hc2 & Hc3 & Hc4 & Hc5); [done..|].
    eexists (_ :: _ :: evs1 ++ _ :: _ :: evs2), _, body.
    split; [reflexivity|]. cbn [trace fs extend].
    split; [by rewrite Ht, <- !app_assoc|].
    rewrite Hc3. repeat split; try done.
    + by rewrite Hc4.
    + apply lookup_insert_eq.
    + intros Hne. by rewrite lookup_insert_ne, lookup_delete_eq.
Qed.

(** A file with valid links, when the system refuses the rename: the
    batch, then the error is logged. Nothing is moved, the hook is not
    spawned, and only the paths written have changed. *)
Lemma processInputFile_links_refused E filePath content w m :
  fs w !! filePath = Some content ->
  parseMarkdownLinks content <> [] ->
  let articles := parseMarkdownLinks content in
  let saved := count_of (saves E) articles in
  let dst := archive_path E (clock E (ticks w + 2 * saved)) (basename filePath) in
  rename_error E filePath dst = Some m ->
  exists evs w',
    processInputFile E filePath w = (Return tt, w') /\
    trace w' = trace w ++ evs /\
    renames evs = [] /\
    skipped evs = count_of (skips E) articles /\
    length (written_paths evs) = saved /\
    Forall (fun p => under (OUTPUT_DIR E) p = true) (written_paths evs) /\
    spawns evs = 0 /\
    generations evs = count_of (fun a => negb (skips E a)) articles /\
    dom (fs w') = dom (fs w) ∪ list_to_set (written_paths evs) /\
    (forall p, p ∉ written_paths evs -> fs w' !! p = fs w !! p).
Proof.
  intros Hfile Hsome articles saved dst Hno.
  assert ((length articles =? 0) = false) as Hlen.
  { subst articles. by destruct (parseMarkdownLinks content). }
  unfold processInputFile.
  unfold mbind, Eff_bind, try_catch, log, emit, existsSync, readFileSync.
  cbn -[parseMarkdownLinks basename run_tasks count_of Nat.eqb Nat.ltb].
  rewrite Hfile.
  cbn -[parseMarkdownLinks basename run_tasks count_of Nat.eqb Nat.ltb].
  rewrite ?Hfile.
  cbn -[parseMarkdownLinks basename run_tasks count_of Nat.eqb Nat.ltb].
  fold articles. rewrite Hlen.
  set (w1 := mkWorld _ _ (_ ++ [EvLog (LogFound _)])).
  destruct (run_tasks_run E (basename filePath) (length articles) articles 0 0 w1)
    as (evs1 & w2 & -> & Ht & Hk & Hd & Hf & Hs1 & Hw1 & Hu & Hg1 & Hr1 & Hp1).
  fold saved in Hk, Hw1 |- *.
  unfold Date_now, renameSync.
  cbn -[parseMarkdownLinks basename run_tasks count_of Nat.eqb Nat.ltb].
  subst w1. cbn [fs ticks trace] in *. rewrite Hk. fold dst.
  assert (is_Some (fs w2 !! filePath)) as [body Hbody].
  { apply elem_of_dom. rewrite Hd. apply elem_of_union_l, elem_of_dom. eauto. }
  rewrite Hbody, Hno.
  cbn -[parseMarkdownLinks basename run_tasks count_of Nat.eqb Nat.ltb].
  eexists (_ :: _ :: evs1 ++ [_]), _.
  split; [reflexivity|]. cbn [trace fs].
  split; [by rewrite Ht, <- !app_assoc|].
  assert (written_paths
            (EvLog (LogProcessing (basename filePath))
             :: EvLog (LogFound (length articles))
             :: evs1 ++
                [EvLog (LogInputFailed (basename filePath) (SystemError m))])
          = written_paths evs1) as Hwp.
  { tally. by rewrite app_nil_r. }
  rewrite Hwp.
  repeat split; try done; tally.
Qed.

(** ** Paths *)

(** Equal up to the bracketing of [++] and [::]. *)
Ltac reassoc :=
  repeat first [rewrite <- app_assoc | rewrite <- app_comm_cons];
  reflexivity.

Lemma last_segment_spec s : forall acc,
  slash ∉ acc ->
  (slash ∉ last_segment acc s) /\
  exists q, acc ++ s = q ++ last_segment acc s /\
            (q = [] \/ exists q', q = q' ++ [slash]).
Proof.
  induction s as [|c s IH]; intros acc Hacc; cbn [last_segment].
  - split; [done|]. exists []. rewrite app_nil_r. by split; [|left].
  - destruct (N.eqb_spec c slash) as [->|Hc].
    + destruct (IH [] (not_elem_of_nil _)) as (Hno & q & Hq & Hend).
      split; [done|]. exists (acc ++ slash :: q). split.
      * rewrite app_nil_l in Hq. rewrite <- app_assoc. cbn. by rewrite <- Hq.
      * right. destruct Hend as [->|[q' ->]].
        -- by exists acc.
        -- exists (acc ++ slash :: q'). by rewrite <- app_assoc.
    + destruct (IH (acc ++ [c])) as (Hno & q & Hq & Hend).
      { rewrite elem_of_app, list_elem_of_singleton. intros [?|?]; [done | congruence]. }
      split; [done|]. exists q. split; [|done].
      by rewrite <- Hq, <- app_assoc.
Qed.

Lemma strip_leading_slashes_spec s :
  exists k, s = replicate k slash ++ strip_leading_slashes s.
Proof.
  induction s as [|c s [k IH]]; cbn [strip_leading_slashes].
  - by exists 0.
  - destruct (N.eqb_spec c slash) as [->|Hc].
    + exists (S k). cbn. by rewrite <- IH.
    + by exists 0.
Qed.

(** A path is its base name preceded by nothing or by a directory part
    ending in a separator, and followed by separators only. *)
Lemma basename_spec p :
  (slash ∉ basename p) /\
  exists q k, p = q ++ basename p ++ replicate k slash /\
              (q = [] \/ exists q', q = q' ++ [slash]).
Proof.
  unfold basename.
  destruct (strip_leading_slashes_spec (rev p)) as [k Hk].
  set (r := strip_leading_slashes (rev p)) in *.
  destruct (last_segment_spec (rev r) [] (not_elem_of_nil _))
    as (Hno & q & Hq & Hend).
  split; [done|]. exists q, k. split; [|done].
  rewrite app_assoc, <- Hq, app_nil_l.
  apply (f_equal (@rev N)) in Hk. rewrite rev_involutive, rev_app_distr in Hk.
  rewrite Hk. f_equal. clear. induction k as [|k IH]; [done|].
  cbn. rewrite IH. by rewrite <- replicate_cons_app.
Qed.

(** The archive name is longer than the base name it ends with, so the
    rename never maps a file to itself. *)
Lemma archive_path_not_source E now p : archive_path E now (basename p) <> p.
Proof.
  unfold archive_path, path_join. intros Heq.
  destruct (basename_spec p) as (Hno & q & k & Hp & Hend).
  remember (basename p) as b eqn:Hb. clear Hb.
  change (str "_") with [chr "_"] in Heq.
  pose proof (eq_trans Heq Hp) as H. clear Heq Hp. rename H into Heq.
  destruct k as [|k].
  - cbn [replicate] in Heq. rewrite app_nil_r in Heq.
    replace (ARCHIVE_DIR E ++ slash :: decimal now ++ [chr "_"] ++ b)
      with ((ARCHIVE_DIR E ++ slash :: decimal now ++ [chr "_"]) ++ b) in Heq
      by reassoc.
    apply app_inv_tail in Heq.
    destruct Hend as [->|[q' ->]].
    + by destruct (ARCHIVE_DIR E).
    + replace (ARCHIVE_DIR E ++ slash :: decimal now ++ [chr "_"])
        with ((ARCHIVE_DIR E ++ slash :: decimal now) ++ [chr "_"]) in Heq
        by reassoc.
      apply app_inj_tail in Heq as [_ Heq]. discriminate Heq.
  - assert (exists X c, ARCHIVE_DIR E ++ slash :: decimal now ++ [chr "_"] ++ b
                        = X ++ [c] /\ c <> slash) as (X & c & HX & Hc).
    { assert (b = [] \/ exists b' c, b = b' ++ [c]) as [->|(b' & c & Hb)].
      { destruct b as [|x b] using rev_ind; [by left|right; eauto]. }
      - exists (ARCHIVE_DIR E ++ slash :: decimal now), (chr "_").
        split; [|done]. rewrite app_nil_r. reassoc.
      - exists (ARCHIVE_DIR E ++ slash :: decimal now ++ [chr "_"] ++ b'), c.
        split; [rewrite Hb; reassoc|].
        intros ->. apply Hno. rewrite Hb. set_solver. }
    rewrite HX in Heq.
    rewrite replicate_S_end, !app_assoc in Heq.
    apply app_inj_tail in Heq as [_ Heq]. done.
Qed.

Lemma archive_not_output E now name :
  under (OUTPUT_DIR E) (archive_path E now name) = false.
Proof.
  destruct (under _ _) eqn:H; [|done].
  apply startsWith_prefix in H.
  unfold OUTPUT_DIR, archive_path, ARCHIVE_DIR, path_join in H.
  rewrite <- !app_assoc in H. apply prefix_app_inv in H.
  rewrite <- !app_comm_cons in H. apply prefix_cons_inv_2 in H.
  change (str "outputs") with (chr "o" :: str "utputs") in H.
  change (str "archive") with (chr "a" :: str "rchive") in H.
  rewrite <- !app_comm_cons in H. by apply prefix_cons_inv_1 in H.
Qed.

(** The new files under the output directory are the paths written, when
    these were free before the run. *)
Lemma created_outputs_written E w w' paths filePath dst :
  dom (fs w') =
    ((dom (fs w) ∪ list_to_set paths) ∖ {[filePath]}) ∪ {[dst]} ->
  is_Some (fs w !! filePath) ->
  under (OUTPUT_DIR E) dst = false ->
  Forall (fun p => under (OUTPUT_DIR E) p = true) paths ->
  (forall p, p ∈ paths -> fs w !! p = None) ->
  created_outputs E w w' = list_to_set paths.
Proof.
  intros Hdom Hfile Hdst Hunder Hfresh. unfold created_outputs.
  apply set_eq. intros x.
  rewrite elem_of_filter, elem_of_difference, Hdom, elem_of_list_to_set.
  rewrite Forall_forall in Hunder.
  split.
  - intros (Hx & Hin & Hnot).
    apply elem_of_union in Hin as [Hin|Hin].
    + apply elem_of_difference in Hin as [Hin _].
      apply elem_of_union in Hin as [Hin|Hin]; [done|].
      by apply elem_of_list_to_set in Hin.
    + apply elem_of_singleton in Hin as ->. rewrite Hdst in Hx. done.
  - intros Hx. split; [|split].
    + rewrite (Hunder _ Hx). done.
    + apply elem_of_union_l, elem_of_difference. split.
      * apply elem_of_union_r. by apply elem_of_list_to_set.
      * intros Heq%elem_of_singleton. subst x.
        rewrite (Hfresh _ Hx) in Hfile. by destruct Hfile.
    + intros Hin%elem_of_dom. rewrite (Hfresh _ Hx) in Hin. by destruct Hin.
Qed.

Lemma created_outputs_written_kept E w w' paths :
  dom (fs w') = dom (fs w) ∪ list_to_set paths ->
  Forall (fun p => under (OUTPUT_DIR E) p = true) paths ->
  (forall p, p ∈ paths -> fs w !! p = None) ->
  created_outputs E w w' = list_to_set paths.
Proof.
  intros Hdom Hunder Hfresh. unfold created_outputs.
  apply set_eq. intros x.
  rewrite elem_of_filter, elem_of_difference, Hdom, elem_of_list_to_set.
  rewrite Forall_forall in Hunder.
  split.
  - intros (Hx & Hin & Hnot).
    apply elem_of_union in Hin as [Hin|Hin]; [done|].
    by apply elem_of_list_to_set in Hin.
  - intros Hx. split; [|split].
    + rewrite (Hunder _ Hx). done.
    + apply elem_of_union_r. by apply elem_of_list_to_set.
    + intros Hin%elem_of_dom. rewrite (Hfresh _ Hx) in Hin. by destruct Hin.
Qed.

Lemma returns_sentinel_skips E a :
  returns_sentinel E a = true -> skips E a = true.
Proof.
  unfold returns_sentinel, skips. intros H%bool_decide_eq_true.
  rewrite H. apply sentinel_starts_failed.
Qed.

Lemma count_of_ext {A} (f g : A -> bool) l :
  (forall a, a ∈ l -> f a = g a) -> count_of f l = count_of g l.
Proof.
  induction l as [|a l IH]; intros H; [done|].
  rewrite !count_of_cons, H, IH; [done| |]; set_solver.
Qed.

Lemma count_of_le {A} (f : A -> bool) l : count_of f l <= length l.
Proof. unfold count_of. apply length_filter. Qed.

Lemma count_of_negb {A} (f : A -> bool) l :
  count_of (fun a => negb (f a)) l = length l - count_of f l.
Proof.
  induction l as [|a l IH]; [done|].
  rewrite !count_of_cons, IH. pose proof (count_of_le f l).
  cbn [length]. destruct (f a); cbn; lia.
Qed.

Lemma count_of_mono {A} (f g : A -> bool) l :
  (forall a, f a = true -> g a = true) -> count_of f l <= count_of g l.
Proof.
  intros H. induction l as [|a l IH]; [done|].
  rewrite !count_of_cons. specialize (H a).
  destruct (f a), (g a); cbn; lia.
Qed.

(** ** Pipeline A: the batch orchestrator *)

(** The counts of a batch over at least one link, in terms of the tasks
    that take the skip branch (K of them) and of those that reach the
    write. *)
Lemma processInputFile_batch_counts E filePath content w :
  fs w !! filePath = Some content ->
  let articles := parseMarkdownLinks content in
  let K := count_of (skips E) articles in
  let S := count_of (saves E) articles in
  let dst := archive_target E w filePath content in
  articles <> [] ->
  exists w',
    processInputFile E filePath w = (Return tt, w') /\
    skipped (since w w') = K /\
    length (written_paths (since w w')) = S /\
    (NoDup (written_paths (since w w')) ->
     (forall p, p ∈ written_paths (since w w') -> fs w !! p = None) ->
     size (created_outputs E w w') = S) /\
    (rename_error E filePath dst = None ->
     renames (since w w') = [(filePath, dst)] /\
     fs w' !! filePath = None /\
     is_Some (fs w' !! dst) /\
     spawns (since w w') = (if 0 <? S then 1 else 0)) /\
    (rename_error E filePath dst <> None ->
     renames (since w w') = [] /\
     spawns (since w w') = 0 /\
     is_Some (fs w' !! filePath) /\
     (forall p, p ∉ written_paths (since w w') -> fs w' !! p = fs w !! p)).
Proof.
  intros Hfile articles K S dst Hsome.
  destruct (rename_error E filePath dst) as [m|] eqn:Hren.
  - destruct (processInputFile_links_refused E filePath content w m
                Hfile Hsome Hren)
      as (evs & w' & Hrun & Ht & Hr & Hs & Hw & Hu & Hp & Hg & Hd & Hf).
    fold articles in Hs, Hw, Hg.
    assert (since w w' = evs) as Hsince.
    { unfold since. by rewrite Ht, drop_app_length. }
    exists w'. rewrite Hsince. split; [done|]. split; [done|].
    split; [done|]. split; [|split; [done|]].
    + intros Hnodup Hfresh.
      rewrite (created_outputs_written_kept E w w' (written_paths evs))
        by done.
      rewrite size_list_to_set by done. by rewrite Hw.
    + intros _. split; [done|]. split; [done|]. split; [|done].
      apply elem_of_dom. rewrite Hd. apply elem_of_union_l, elem_of_dom.
      by rewrite Hfile.
  - destruct (processInputFile_links E filePath content w Hfile Hsome Hren)
      as (evs & w' & body & Hrun & Ht & Hr & Hs & Hw & Hu & Hp & Hg & Hd
          & Hdst & Hsrc).
    fold articles in Hs, Hw, Hp, Hg.
    assert (since w w' = evs) as Hsince.
    { unfold since. by rewrite Ht, drop_app_length. }
    pose proof (archive_path_not_source E
                  (clock E (ticks w + 2 * count_of (saves E) articles))
                  filePath) as Hne.
    exists w'. rewrite Hsince. split; [done|]. split; [done|].
    split; [done|]. split; [|split; [|done]].
    + intros Hnodup Hfresh.
      rewrite (created_outputs_written E w w' (written_paths evs) filePath dst);
        [|done|by rewrite Hfile|apply archive_not_output|done|done].
      rewrite size_list_to_set by done. by rewrite Hw.
    + intros _. split; [done|]. split; [by apply Hsrc|].
      split; [exists body; exact Hdst | done].
Qed.

(** C1 (as amended). Take an input file present in the world whose
    extraction yields N valid links, of which M make the fetcher return its
    sentinel while each of the other N - M fetches (the fetcher returns a
    string that does not start with "[Failed"), generates and writes. Then
    [processInputFile] returns normally, skips exactly M tasks and makes
    exactly N - M output writes; these create exactly N - M files under the
    output directory provided the paths written are pairwise distinct and
    were free before the run. When N >= 1 the run asks the system once to
    rename the file to [<archive>/<epoch-ms>_<base name>], the prefix being
    the reading of the clock that follows the 2 (N - M) readings made for
    the posts saved. When the system takes the rename, the file is archived
    exactly once, whatever M is, and is gone from its place. When the
    system refuses it (a name too long, a missing permission), nothing is
    renamed and the file stays where it was. When N = 0 no rename is asked
    for. *)
Theorem processInputFile_skips_writes_archives E filePath content w :
  fs w !! filePath = Some content ->
  let articles := parseMarkdownLinks content in
  let N := length articles in
  let M := count_of (returns_sentinel E) articles in
  Forall (fun a => returns_sentinel E a = false ->
                   skips E a = false /\
                   is_return (generation E a (fetched E (link a))) = true)
         articles ->
  let dst :=
    archive_path E (clock E (ticks w + 2 * (N - M))) (basename filePath) in
  exists w',
    processInputFile E filePath w = (Return tt, w') /\
    M <= N /\
    skipped (since w w') = M /\
    length (written_paths (since w w')) = N - M /\
    (NoDup (written_paths (since w w')) ->
     (forall p, p ∈ written_paths (since w w') -> fs w !! p = None) ->
     size (created_outputs E w w') = N - M) /\
    (1 <= N -> rename_error E filePath dst = None ->
     renames (since w w') = [(filePath, dst)] /\
     fs w' !! filePath = None /\
     is_Some (fs w' !! dst)) /\
    (1 <= N -> rename_error E filePath dst <> None ->
     renames (since w w') = [] /\
     is_Some (fs w' !! filePath)) /\
    (N = 0 -> renames (since w w') = []).
Proof.
  intros Hfile articles N M Hgen dst.
  rewrite Forall_forall in Hgen.
  assert (count_of (skips E) articles = M) as HK.
  { apply count_of_ext. intros a Ha.
    destruct (returns_sentinel E a) eqn:Hrs.
    - by apply returns_sentinel_skips.
    - by destruct (Hgen a Ha Hrs). }
  assert (count_of (saves E) articles = N - M) as HS.
  { subst N. rewrite <- HK, <- count_of_negb. apply count_of_ext.
    intros a Ha. unfold saves.
    destruct (returns_sentinel E a) eqn:Hrs.
    - by rewrite (returns_sentinel_skips _ _ Hrs).
    - destruct (Hgen a Ha Hrs) as [-> ->]. done. }
  assert (M <= N) as HMN by apply count_of_le.
  destruct (decide (articles = [])) as [Hnone|Hsome].
  - rewrite (processInputFile_no_links E filePath content w Hfile Hnone).
    eexists. split; [reflexivity|]. rewrite since_extend.
    assert (N = 0) as HN by (subst N; by rewrite Hnone).
    assert (M = 0) as HM by lia.
    rewrite HN, HM.
    split; [done|]. split; [done|]. split; [done|]. split.
    + intros _ _. unfold created_outputs, extend. cbn [fs].
      rewrite difference_diag_L, filter_empty_L, size_empty; [done|].
      apply _.
    + split; [lia|]. split; [lia | done].
  - destruct (processInputFile_batch_counts E filePath content w Hfile Hsome)
      as (w' & Hrun & Hs & Hw & Hnew & Hok & Hrefused).
    fold articles in Hs, Hw, Hnew, Hok, Hrefused.
    unfold archive_target in Hok, Hrefused.
    fold articles in Hok, Hrefused. rewrite HS in Hok, Hrefused.
    fold dst in Hok, Hrefused.
    exists w'. split; [done|]. split; [done|].
    split; [by rewrite Hs|]. split; [by rewrite Hw|].
    split; [by rewrite <- HS|]. split; [|split].
    + intros _ Hren. destruct (Hok Hren) as (Hr & Hgone & Hthere & _). done.
    + intros _ Hren. destruct (Hrefused Hren) as (Hr & _ & Hstays & _). done.
    + intros HN. destruct articles; [done | discriminate HN].
Qed.

Lemma processInputFile_skips_writes_archives_witness :
  let w := world_with links_one_down in
  let w' := snd (processInputFile env_mock sample_path w) in
  fs w !! sample_path = Some links_one_down /\
  length (parseMarkdownLinks links_one_down) = 2 /\
  count_of (returns_sentinel env_mock) (parseMarkdownLinks links_one_down) = 1 /\
  skipped (since w w') = 1 /\
  length (written_paths (since w w')) = 1 /\
  size (created_outputs env_mock w w') = 1 /\
  length (renames (since w w')) = 1 /\
  fs w' !! sample_path = None.
Proof.
  intros w w'.
  destruct (processInputFile_skips_writes_archives env_mock sample_path
              links_one_down w)
    as (w'' & Hrun & _ & Hskip & Hwr & Hnew & Harch & _ & _).
  - vm_compute. reflexivity.
  - apply (bool_decide_unpack _). vm_compute. exact I.
  - assert (w'' = w') as -> by (subst w'; by rewrite Hrun).
    destruct Harch as (Hren & Hgone & _);
      [vm_compute; lia | vm_compute; reflexivity |].
    split; [vm_compute; reflexivity|]. split; [vm_compute; reflexivity|].
    split; [vm_compute; reflexivity|]. split; [exact Hskip|].
    split; [exact Hwr|]. split.
    + apply Hnew.
      * apply (bool_decide_unpack _). vm_compute. exact I.
      * apply Forall_forall, (bool_decide_unpack _). vm_compute. exact I.
    + split; [by rewrite Hren | exact Hgone].
Defined.

(** C1 fails as stated on two inputs that meet its premises. With two valid
    links whose titles sanitize to the same fragment, both fetched,
    generated and written in the same second, N = 2 and M = 0, nothing is
    skipped and both writes succeed, yet one output file is created: the
    second write replaces the first. With one valid link, fetched,
    generated and written, in a file whose name is 253 code units long,
    N = 1 and M = 0 and one output file is created, yet the input file is
    not archived: the system refuses the archive name, which is longer
    than 255, the error is logged and the file stays where it was. *)
Lemma processInputFile_counts_counterexample :
  (let w := world_with links_twins in
   let w' := snd (processInputFile env_mock sample_path w) in
   let articles := parseMarkdownLinks links_twins in
   length articles = 2 /\
   count_of (returns_sentinel env_mock) articles = 0 /\
   Forall (fun a => is_return (generation env_mock a
                                 (fetched env_mock (link a))) = true)
          articles /\
   skipped (since w w') = 0 /\
   length (written_paths (since w w')) = 2 /\
   size (created_outputs env_mock w w') = 1 /\
   size (created_outputs env_mock w w') <> 2 - 0) /\
  (let w := world_at long_path links_one in
   let w' := snd (processInputFile env_mock long_path w) in
   let articles := parseMarkdownLinks links_one in
   length (basename long_path) = 253 /\
   length articles = 1 /\
   count_of (returns_sentinel env_mock) articles = 0 /\
   Forall (fun a => is_return (generation env_mock a
                                 (fetched env_mock (link a))) = true)
          articles /\
   skipped (since w w') = 0 /\
   size (created_outputs env_mock w w') = 1 /\
   renames (since w w') = [] /\
   fs w' !! long_path = Some links_one /\
   size (dom (fs w')) = 2).
Proof.
  split; cbv zeta; repeat split; try (vm_compute; reflexivity);
    apply (bool_decide_unpack _); vm_compute; exact I.
Qed.

(** C2 (as amended). [processInputFile] returns normally. A path that is
    no readable file when the run looks at it (nothing is there, or a
    directory, or a file that may not be read) is left alone: the run does
    nothing beyond console lines. For a readable input file, the file is
    left unarchived in two cases and no other: extraction yields no item,
    or the system refuses the rename that the run asks for after the
    batch. With no item, the file system is unchanged (no output file, no
    rename) and neither the verification hook nor any network call fires.
    With items and the rename taken, the file is renamed once into the
    archive directory and is gone from its place. With items and the
    rename refused, the batch has run and its posts are written, but the
    file stays where it was and the hook is not spawned. *)
Theorem processInputFile_unarchived_cases E filePath w :
  let w' := snd (processInputFile E filePath w) in
  fst (processInputFile E filePath w) = Return tt /\
  (fs w !! filePath = None ->
   fs w' = fs w /\ beyond_console (since w w') = []) /\
  (forall content,
      fs w !! filePath = Some content ->
      let dst := archive_target E w filePath content in
      (renames (since w w') = [] <->
       parseMarkdownLinks content = [] \/
       rename_error E filePath dst <> None) /\
      (parseMarkdownLinks content = [] ->
       fs w' = fs w /\ written_paths (since w w') = [] /\
       spawns (since w w') = 0 /\ network_calls (since w w') = 0 /\
       fs w' !! filePath = Some content) /\
      (parseMarkdownLinks content <> [] ->
       rename_error E filePath dst = None ->
       renames (since w w') = [(filePath, dst)] /\
       fs w' !! filePath = None /\
       is_Some (fs w' !! dst)) /\
      (parseMarkdownLinks content <> [] ->
       rename_error E filePath dst <> None ->
       renames (since w w') = [] /\
       is_Some (fs w' !! filePath) /\
       spawns (since w w') = 0 /\
       length (written_paths (since w w')) =
         count_of (saves E) (parseMarkdownLinks content))).
Proof.
  cbv zeta. destruct (fs w !! filePath) as [content0|] eqn:Hfile0.
  2:{ rewrite (processInputFile_not_readable E filePath w Hfile0).
      cbn [fst snd]. rewrite since_extend.
      split; [done|]. split; [|done]. intros _. split; [done|].
      by destruct (unreadable E filePath). }
  assert (fst (processInputFile E filePath w) = Return tt /\
          forall content, Some content0 = Some content ->
            (renames (since w (snd (processInputFile E filePath w))) = [] <->
             parseMarkdownLinks content = [] \/
             rename_error E filePath (archive_target E w filePath content)
             <> None) /\
            (parseMarkdownLinks content = [] ->
             fs (snd (processInputFile E filePath w)) = fs w /\
             written_paths (since w (snd (processInputFile E filePath w))) = [] /\
             spawns (since w (snd (processInputFile E filePath w))) = 0 /\
             network_calls (since w (snd (processInputFile E filePath w))) = 0 /\
             fs (snd (processInputFile E filePath w)) !! filePath
             = Some content) /\
            (parseMarkdownLinks content <> [] ->
             rename_error E filePath (archive_target E w filePath content)
             = None ->
             renames (since w (snd (processInputFile E filePath w))) =
               [(filePath, archive_target E w filePath content)] /\
             fs (snd (processInputFile E filePath w)) !! filePath = None /\
             is_Some (fs (snd (processInputFile E filePath w))
                      !! archive_target E w filePath content)) /\
            (parseMarkdownLinks content <> [] ->
             rename_error E filePath (archive_target E w filePath content)
             <> None ->
             renames (since w (snd (processInputFile E filePath w))) = [] /\
             is_Some (fs (snd (processInputFile E filePath w)) !! filePath) /\
             spawns (since w (snd (processInputFile E filePath w))) = 0 /\
             length (written_paths
                       (since w (snd (processInputFile E filePath w)))) =
               count_of (saves E) (parseMarkdownLinks content))) as [Hret Hall].
  2:{ split; [exact Hret|]. split; [done | exact Hall]. }
  destruct (decide (parseMarkdownLinks content0 = [])) as [Hnone|Hsome].
  - rewrite (processInputFile_no_links E filePath content0 w Hfile0 Hnone).
    cbn [fst snd]. rewrite since_extend. split; [done|].
    intros content [= <-]. split; [split; [by left | done]|].
    split; [intros _; by repeat split|]. split; [done | done].
  - destruct (processInputFile_batch_counts E filePath content0 w Hfile0 Hsome)
      as (w' & Hrun & Hs & Hw & Hnew & Hok & Hrefused).
    rewrite Hrun. cbn [fst snd]. split; [done|].
    intros content [= <-]. split; [|split; [done|split]].
    + split.
      * intros Hr. right. intros Hren.
        destruct (Hok Hren) as (Hr' & _). by rewrite Hr' in Hr.
      * intros [Hnone|Hren]; [done|]. by destruct (Hrefused Hren).
    + intros _ Hren. destruct (Hok Hren) as (Hr & Hgone & Hthere & _). done.
    + intros _ Hren. destruct (Hrefused Hren) as (Hr & Hp & Hstays & _). done.
Qed.

Lemma processInputFile_unarchived_cases_witness :
  let w := world_with links_none in
  let w' := snd (processInputFile env_live_text sample_path w) in
  fs w !! sample_path = Some links_none /\
  parseMarkdownLinks links_none = [] /\
  fst (processInputFile env_live_text sample_path w) = Return tt /\
  fs w' = fs w /\ renames (since w w') = [] /\ spawns (since w w') = 0.
Proof.
  intros w w'.
  assert (fs w !! sample_path = Some links_none) as Hfile
    by (vm_compute; reflexivity).
  assert (parseMarkdownLinks links_none = []) as Hnone
    by (vm_compute; reflexivity).
  destruct (processInputFile_unarchived_cases env_live_text sample_path w)
    as (Hret & _ & Hall).
  destruct (Hall links_none Hfile) as (Hiff & Hzero & _).
  destruct (Hzero Hnone) as (Hfs & _ & Hsp & _ & _).
  split; [exact Hfile|]. split; [exact Hnone|]. split; [exact Hret|].
  split; [exact Hfs|]. split; [|exact Hsp].
  apply Hiff. by left.
Defined.

(** C2 fails as stated: a file can be left unarchived although extraction
    yields items. A file whose name is 253 code units long holds two valid
    links; the batch runs and one post is written; the archive name is
    longer than 255, the system refuses the rename, the error is logged and
    the file stays in the input directory with its content. A file that
    may not be read is not archived either: reading it raises before any
    extraction. *)
Lemma processInputFile_unarchived_with_links_counterexample :
  (let w := world_at long_path links_one_down in
   let w' := snd (processInputFile env_mock long_path w) in
   length (parseMarkdownLinks links_one_down) = 2 /\
   fst (processInputFile env_mock long_path w) = Return tt /\
   length (written_paths (since w w')) = 1 /\
   renames (since w w') = [] /\
   spawns (since w w') = 0 /\
   fs w' !! long_path = Some links_one_down) /\
  (let w := empty_world in
   let p := str "/app/local_inputs/locked.md" in
   let w' := snd (processInputFile env_mock p w) in
   fst (existsSync env_mock p w) = Return true /\
   fst (processInputFile env_mock p w) = Return tt /\
   renames (since w w') = [] /\
   since w w' =
     [EvLog (LogProcessing (str "locked.md"));
      EvLog (LogInputFailed (str "locked.md")
               (SystemError (str "EACCES: permission denied, open")))]).
Proof.
  split; cbv zeta; repeat split; vm_compute; reflexivity.
Qed.

(** ** Pipeline A: fetcher and generator *)

(** C3. For every URL and world, [fetchArticleContent] returns (it never
    throws or exits) and touches nothing but the trace. On every failure
    path (transport error, non-success status, unparseable content) the
    result is the sentinel "[Failed to fetch content from <url>]", which
    starts with the fixed prefix and embeds the URL; otherwise it is the
    trimmed readable text cut to at most 15000 code units. *)
Theorem fetchArticleContent_never_throws E url w :
  exists s evs,
    fetchArticleContent E url w = (Return s, extend w evs) /\
    ((fetch_fails E url /\ s = sentinel url) \/
     (exists text, fetch_reads E url text /\
                   s = substring0 15000 (trim text) /\ length s <= 15000)) /\
    (fetch_fails E url -> s = sentinel url) /\
    sentinel_prefix `prefix_of` sentinel url /\
    includes (sentinel url) url = true.
Proof.
  destruct (fetchArticleContent_run E url w) as (evs & Hrun & _).
  exists (fetched E url), evs. split; [done|].
  split; [|split; [apply fetched_fails|split]].
  - destruct (fetch_cases E url) as [Hfail|[text Hread]].
    + left. split; [done|]. by apply fetched_fails.
    + right. exists text. split; [done|].
      rewrite (fetched_reads E url text Hread). split; [done|].
      apply length_substring0.
  - apply sentinel_prefixed.
  - apply sentinel_embeds.
Qed.

(** C8. In mock mode, for every title, excerpt and link, [generateContent]
    returns the placeholder built from the title alone, which contains the
    title, and its only effect is one console line: no network call. *)
Theorem generateContent_mock_placeholder E articleTitle articleContent sourceLink w :
  MOCK_MODE E = true ->
  generateContent E articleTitle articleContent sourceLink w =
    (Return (VString (mock_content articleTitle)),
     extend w [EvLog (LogGenerating articleTitle)]) /\
  includes (mock_content articleTitle) articleTitle = true /\
  network_calls
    (since w (snd (generateContent E articleTitle articleContent sourceLink w)))
    = 0.
Proof.
  intros Hmock.
  assert (generateContent E articleTitle articleContent sourceLink w =
          (Return (VString (mock_content articleTitle)),
           extend w [EvLog (LogGenerating articleTitle)])) as Hrun.
  { unfold generateContent. eff_unfold. by rewrite Hmock. }
  split; [done|]. split.
  - unfold mock_content. apply includes_middle.
  - rewrite Hrun. cbn [snd]. by rewrite since_extend.
Qed.

Lemma generateContent_mock_placeholder_witness :
  MOCK_MODE env_mock = true /\
  generateContent env_mock (str "AI News") (str "text") (str "http://a")
    empty_world =
    (Return (VString (mock_content (str "AI News"))),
     extend empty_world [EvLog (LogGenerating (str "AI News"))]).
Proof.
  split; [reflexivity|].
  apply (generateContent_mock_placeholder env_mock (str "AI News") (str "text")
           (str "http://a") empty_world).
  reflexivity.
Defined.

(** C4 (as amended). In live mode both [generateContent] and
    [analyzeHotList] make one model call and return the [text] field of the
    first block of the answer as it is; a rejected call and an empty content
    list are errors passed on to the caller; a first block that is not a
    text block is no error: the result is [undefined]. *)
Theorem live_mode_first_block_text E :
  MOCK_MODE E = false ->
  (forall t c l w,
      generateContent E t c l w =
        (first_text_outcome
           (messages_create E generate_system (generate_prompt t c)),
         extend w [EvLog (LogGenerating t);
                   EvModelCall generate_system (generate_prompt t c)])) /\
  (forall items w,
      Tophub.analyzeHotList E items w =
        (first_text_outcome
           (messages_create E Tophub.analyze_system
              (Tophub.analyze_prompt items)),
         extend w [EvLog LogAnalyzing;
                   EvModelCall Tophub.analyze_system
                     (Tophub.analyze_prompt items)])).
Proof.
  intros Hlive. split.
  - intros t c l w.
    unfold generateContent, anthropic_messages_create, first_text.
    eff_unfold. rewrite Hlive.
    cbn -[generate_prompt generate_system]. rewrite <- app_assoc.
    by destruct (messages_create E generate_system (generate_prompt t c))
      as [m|[|[]]].
  - intros items w.
    unfold Tophub.analyzeHotList, anthropic_messages_create, first_text.
    eff_unfold. rewrite Hlive.
    cbn -[Tophub.analyze_prompt Tophub.analyze_system]. rewrite <- app_assoc.
    by destruct (messages_create E Tophub.analyze_system
                   (Tophub.analyze_prompt items)) as [m|[|[]]].
Qed.

Lemma live_mode_first_block_text_witness :
  MOCK_MODE env_live_text = false /\
  fst (generateContent env_live_text (str "AI News") (str "text")
         (str "http://a") empty_world) = Return (VString (str "# Post")) /\
  fst (Tophub.analyzeHotList env_live_text [] empty_world)
    = Return (VString (str "# Post")).
Proof.
  destruct (live_mode_first_block_text env_live_text) as [Hgen Hana];
    [reflexivity|].
  split; [reflexivity|]. split.
  - by rewrite Hgen.
  - by rewrite Hana.
Defined.

(** C4 fails as stated when the first block of the answer is not a text
    block (here a tool-use block followed by a text block): neither function
    raises, both return [undefined], and the text block is not returned. *)
Lemma live_mode_non_text_counterexample :
  MOCK_MODE env_live_tool = false /\
  messages_create env_live_tool generate_system
    (generate_prompt (str "AI News") (str "text")) =
    ApiMessage [ToolUseBlock (str "toolu_01") (str "search");
                TextBlock (str "# Post")] /\
  fst (generateContent env_live_tool (str "AI News") (str "text")
         (str "http://a") empty_world) = Return VUndefined /\
  fst (Tophub.analyzeHotList env_live_tool [] empty_world) = Return VUndefined.
Proof. repeat split. Qed.


(** ** Pipeline A: the link extractor *)

Lemma item_of_occurrence_Some t l a :
  item_of_occurrence (t, l) = Some a <->
  a = mkArticle (trim t) (trim l) /\ trim t <> [] /\ trim l <> [] /\
  startsWith (trim l) http = true.
Proof.
  unfold item_of_occurrence. cbn [fst snd].
  destruct (trim t) as [|x t'], (trim l) as [|y l'];
    try (split; [done | by intros (_ & ? & ? & _)]).
  destruct (startsWith (y :: l') http).
  - split; [by intros [= <-] | by intros (-> & _)].
  - split; [done | by intros (_ & _ & _ & ?)].
Qed.

Lemma occurrence_after s pre t l post o :
  occurs_at s pre t l post -> occurrence post o -> occurrence s o.
Proof.
  intros [-> _] (pre' & post' & -> & Hshape).
  exists (pre ++ link_shape t l ++ pre'), post'. split; [|done].
  by rewrite <- !app_assoc.
Qed.

Lemma scan_matches_occurrences s occs :
  scan_matches s occs -> Forall (occurrence s) occs.
Proof.
  induction 1 as [s Hnone|s pre t l post rest Hocc Hleft _ IH]; [done|].
  apply Forall_cons_2; [by exists pre, post|].
  eapply Forall_impl; [exact IH|]. intros o.
  by apply (occurrence_after s pre t l post).
Qed.

(** C6 (as amended). For every text, the matches the scan for
    [[Title](URL)] reports (the leftmost occurrence first, then those of
    the text after it, so that they never overlap) are determined by the
    text; each of them is an occurrence of a link in the text; and
    [parseMarkdownLinks] returns, in that order, exactly one item for each
    match whose trimmed title and trimmed link are not empty and whose
    trimmed link starts with "http" (the item holds the two trimmed parts),
    and nothing for any other match. *)
Theorem parseMarkdownLinks_one_item_per_match content :
  exists occs,
    scan_matches content occs /\
    (forall occs', scan_matches content occs' -> occs' = occs) /\
    Forall (occurrence content) occs /\
    parseMarkdownLinks content = omap item_of_occurrence occs /\
    (forall t l a,
        item_of_occurrence (t, l) = Some a <->
        a = mkArticle (trim t) (trim l) /\ trim t <> [] /\ trim l <> [] /\
        startsWith (trim l) http = true).
Proof.
  destruct (parse_loop_scan content (parse_fuel content) 0 [])
    as (occs & Hoccs & Hloop); [lia | unfold parse_fuel; lia |].
  rewrite drop_0 in Hoccs. exists occs. split; [done|].
  split; [by apply scan_matches_unique|].
  split; [by apply scan_matches_occurrences|]. split.
  - unfold parseMarkdownLinks. by rewrite Hloop.
  - apply item_of_occurrence_Some.
Qed.

(** C6 fails as stated: not every occurrence yields an item. In a text
    where the parenthesis of a first link is not closed before a second
    link, the second link is an occurrence of the shape, with a title and
    an http link that pass the test, yet it yields no item: the match of
    the first link runs to the parenthesis that closes the second, and the
    scan resumes after it. *)
Lemma parseMarkdownLinks_nested_occurrence_counterexample :
  let good := mkArticle (str "Good") (str "http://b.example/y") in
  occurrence links_nested (str "Good", str "http://b.example/y") /\
  item_of_occurrence (str "Good", str "http://b.example/y") = Some good /\
  length (parseMarkdownLinks links_nested) = 1 /\
  (good ∉ parseMarkdownLinks links_nested) /\
  ~ every_occurrence_extracted links_nested.
Proof.
  intros good.
  assert (occurrence links_nested (str "Good", str "http://b.example/y"))
    as Hocc.
  { exists (str "- [Broken](http://a.example/x" ++ [10%N] ++ str "- "), [].
    split; [vm_compute; reflexivity|].
    repeat split; apply (bool_decide_unpack _); vm_compute; exact I. }
  assert (item_of_occurrence (str "Good", str "http://b.example/y")
          = Some good) as Hitem by (vm_compute; reflexivity).
  assert (good ∉ parseMarkdownLinks links_nested) as Hnot
    by (apply (bool_decide_unpack _); vm_compute; exact I).
  split; [exact Hocc|]. split; [exact Hitem|].
  split; [vm_compute; reflexivity|]. split; [exact Hnot|].
  intros Hall. apply Hnot. by apply (Hall _ _ Hocc Hitem).
Qed.

(** C9. For every text the extraction loop ends, with any fuel above the
    length of the text, and leaves the regular expression as it found it
    ([lastIndex] back at 0): a second run on the same text starts from the
    same state and returns the same list, the one [parseMarkdownLinks]
    returns. *)
Theorem parseMarkdownLinks_restartable content :
  exists items,
    parse_loop (parse_fuel content) (mkRegExp 0) content []
      = Some (items, mkRegExp 0) /\
    parseMarkdownLinks content = items /\
    forall fuel,
      parse_fuel content <= fuel ->
      parse_loop fuel (mkRegExp 0) content [] = Some (items, mkRegExp 0).
Proof.
  destruct (parse_loop_scan content (parse_fuel content) 0 [])
    as (occs & Hoccs & Hloop); [lia | unfold parse_fuel; lia |].
  exists (omap item_of_occurrence occs).
  split; [done|]. split.
  - unfold parseMarkdownLinks. by rewrite Hloop.
  - intros fuel Hfuel.
    destruct (parse_loop_scan content fuel 0 [])
      as (occs' & Hoccs' & ->); [lia | unfold parse_fuel in Hfuel; lia |].
    by rewrite (scan_matches_unique _ _ Hoccs _ Hoccs').
Qed.

(** ** Pipeline B *)



Lemma scrape_item_push items el :
  Tophub.scrape_item items el = items ++ Tophub.scrape_item [] el.
Proof.
  unfold Tophub.scrape_item.
  destruct (truthy _); [done | by rewrite app_nil_r].
Qed.

(** [each] visits the elements in document order and every element adds
    what it yields on its own to the end of the list. *)
Lemma fold_left_scrape_item nodes : forall items,
  fold_left Tophub.scrape_item nodes items =
  items ++ concat (map (Tophub.scrape_item []) nodes).
Proof.
  induction nodes as [|el nodes IH]; intros items; cbn [fold_left map concat].
  - by rewrite app_nil_r.
  - by rewrite IH, scrape_item_push, app_assoc.
Qed.

Lemma scrape_item_untitled el :
  Tophub.node_title el = [] -> Tophub.scrape_item [] el = [].
Proof.
  unfold Tophub.scrape_item. fold (Tophub.node_title el). by intros ->.
Qed.

Lemma scrape_item_titled el :
  Tophub.node_title el <> [] ->
  Tophub.scrape_item [] el =
    [mkHotItem
       (trim (Tophub.selection_text (left_item_spans el)))
       (Tophub.node_title el)
       (Tophub.full_link (Tophub.href_or_empty (Tophub.node_href el)))
       (Tophub.or_empty
          (map trim (Tophub.split_on Tophub.middle_dot (Tophub.node_label el)) !! 0))
       (Tophub.or_empty
          (map trim (Tophub.split_on Tophub.middle_dot (Tophub.node_label el)) !! 1))].
Proof.
  unfold Tophub.scrape_item. fold (Tophub.node_title el).
  by destruct (Tophub.node_title el).
Qed.






Lemma fetchHotList_run E w :
  exists evs,
    snd (Tophub.fetchHotList E w) = extend w evs /\ written_paths evs = [] /\
    forall code, fst (Tophub.fetchHotList E w) <> Exit code.
Proof.
  unfold Tophub.fetchHotList, fetch. eff_unfold. cbn -[Tophub.TOPHUB_URL].
  destruct (http_get E Tophub.TOPHUB_URL) as [m|[] status statusText html];
    cbn -[Tophub.TOPHUB_URL]; rewrite <- ?app_assoc;
    (eexists; split; [reflexivity|]; split; [reflexivity | done]).
Qed.

Lemma analyzeHotList_run E items w :
  exists evs,
    snd (Tophub.analyzeHotList E items w) = extend w evs /\
    written_paths evs = [] /\
    forall code, fst (Tophub.analyzeHotList E items w) <> Exit code.
Proof.
  unfold Tophub.analyzeHotList, anthropic_messages_create, first_text.
  eff_unfold. cbn -[Tophub.analyze_prompt Tophub.analyze_system].
  destruct (MOCK_MODE E); cbn -[Tophub.analyze_prompt Tophub.analyze_system].
  - eexists. split; [reflexivity|]. done.
  - rewrite <- app_assoc.
    destruct (messages_create E Tophub.analyze_system
                (Tophub.analyze_prompt items)) as [m|[|[]]];
      (eexists; split; [reflexivity|]; done).
Qed.

(** C5 (as amended). A run of Pipeline B in which fetching the hot list or
    the analysis throws ends the process with exit code 1 and writes no
    report. When fetching throws, nothing is written. When the analysis
    throws, the raw-data file, written before the analysis, stays in the
    trends directory. A run in which neither throws returns the path of the
    report after writing both files. *)
Theorem run_exits_1_keeping_raw_data E w :
  let dateStr := replace_colon_dot (toISOString (clock E (ticks w))) in
  let rawPath := path_join (Tophub.TRENDS_DIR E) (Tophub.raw_filename dateStr) in
  let reportPath :=
    path_join (Tophub.TRENDS_DIR E) (Tophub.report_filename dateStr) in
  (forall e w1,
      Tophub.fetchHotList E w = (Throw e, w1) ->
      exists w',
        Tophub.run E w = (Exit 1%Z, w') /\
        fs w' = fs w /\ written_paths (since w w') = []) /\
  (forall items w1 e,
      Tophub.fetchHotList E w = (Return items, w1) ->
      (forall w2, fst (Tophub.analyzeHotList E items w2) = Throw e) ->
      exists w',
        Tophub.run E w = (Exit 1%Z, w') /\
        fs w' = <[rawPath := JSON_stringify E items]> (fs w) /\
        written_paths (since w w') = [rawPath]) /\
  (forall items w1 report,
      Tophub.fetchHotList E w = (Return items, w1) ->
      (forall w2, fst (Tophub.analyzeHotList E items w2) = Return report) ->
      exists w',
        Tophub.run E w = (Return reportPath, w') /\
        written_paths (since w w') = [rawPath; reportPath]).
Proof.
  intros dateStr rawPath reportPath.
  destruct (fetchHotList_run E w) as (evs1 & Hw1 & Hq1 & _).
  split; [|split].
  - intros e w1 Hfetch. rewrite Hfetch in Hw1. cbn [snd] in Hw1. subst w1.
    unfold Tophub.run. unfold try_catch, mbind, Eff_bind at 1.
    rewrite Hfetch. unfold mbind, Eff_bind, log, emit, process_exit.
    cbn [extend fs ticks trace].
    eexists. split; [reflexivity|]. split; [done|].
    unfold since. cbn [trace]. rewrite <- app_assoc, drop_app_length.
    rewrite written_paths_app, Hq1. done.
  - intros items w1 e Hfetch Hthrow.
    rewrite Hfetch in Hw1. cbn [snd] in Hw1. subst w1.
    unfold Tophub.run. unfold try_catch.
    unfold mbind at 1. unfold Eff_bind at 1. rewrite Hfetch.
    unfold mbind, Eff_bind, log, emit, process_exit, Date_now, writeFileSync,
      mret, Eff_ret.
    cbn -[Tophub.analyzeHotList toISOString Tophub.TRENDS_DIR].
    fold dateStr. fold rawPath.
    match goal with |- context [Tophub.analyzeHotList E items ?w2] =>
      destruct (analyzeHotList_run E items w2) as (evs2 & Hw2 & Hq2 & _);
      specialize (Hthrow w2);
      destruct (Tophub.analyzeHotList E items w2) as [o w3]
    end.
    cbn [fst snd] in Hthrow, Hw2. subst o w3.
    cbn [extend fs ticks trace].
    eexists. split; [reflexivity|]. split; [done|].
    unfold since. cbn [trace].
    rewrite <- !app_assoc, drop_app_length.
    rewrite !written_paths_app, Hq1, Hq2. done.
  - intros items w1 report Hfetch Hret.
    rewrite Hfetch in Hw1. cbn [snd] in Hw1. subst w1.
    unfold Tophub.run. unfold try_catch.
    unfold mbind at 1. unfold Eff_bind at 1. rewrite Hfetch.
    unfold mbind, Eff_bind, log, emit, process_exit, Date_now, writeFileSync,
      mret, Eff_ret.
    cbn -[Tophub.analyzeHotList toISOString Tophub.TRENDS_DIR].
    fold dateStr. fold rawPath.
    match goal with |- context [Tophub.analyzeHotList E items ?w2] =>
      destruct (analyzeHotList_run E items w2) as (evs2 & Hw2 & Hq2 & _);
      specialize (Hret w2);
      destruct (Tophub.analyzeHotList E items w2) as [o w3]
    end.
    cbn [fst snd] in Hret, Hw2. subst o w3.
    cbn [extend fs ticks trace]. fold reportPath.
    eexists. split; [reflexivity|].
    unfold since. cbn [trace].
    rewrite <- !app_assoc, drop_app_length.
    rewrite !written_paths_app, Hq1, Hq2. done.
Qed.

Lemma run_exits_1_keeping_raw_data_witness :
  let w := empty_world in
  (exists items w1,
      Tophub.fetchHotList env_live_down w = (Return items, w1) /\
      forall w2, fst (Tophub.analyzeHotList env_live_down items w2)
                 = Throw (SystemError (str "overloaded"))) /\
  exists w',
    Tophub.run env_live_down w = (Exit 1%Z, w') /\
    written_paths (since w w') =
      [str "/app/outputs/trends/tophub_hot_2023-11-14T22-13-20-123Z.json"].
Proof.
  intros w.
  destruct (run_exits_1_keeping_raw_data env_live_down w) as (_ & Hana & _).
  destruct (Tophub.fetchHotList env_live_down w) as [o w1] eqn:Hfetch.
  assert (exists items, o = Return items) as [items ->].
  { vm_compute in Hfetch. injection Hfetch as <- _. eauto. }
  assert (forall w2, fst (Tophub.analyzeHotList env_live_down items w2)
                     = Throw (SystemError (str "overloaded"))) as Hthrow.
  { intros w2. reflexivity. }
  split; [by exists items, w1|].
  destruct (Hana items w1 _ eq_refl Hthrow) as (w' & Hrun & _ & Hwritten).
  exists w'. split; [exact Hrun|]. rewrite Hwritten. vm_compute. reflexivity.
Defined.

(** C5 fails as stated when the analysis throws: the run exits with code 1
    and the raw-data file it wrote before the analysis is still there. *)
Lemma run_partial_output_counterexample :
  let w' := snd (Tophub.run env_live_down empty_world) in
  (exists items w1,
      Tophub.fetchHotList env_live_down empty_world = (Return items, w1) /\
      fst (Tophub.analyzeHotList env_live_down items w1)
        = Throw (SystemError (str "overloaded"))) /\
  fst (Tophub.run env_live_down empty_world) = Exit 1%Z /\
  fs empty_world = ∅ /\
  fs w' !! str "/app/outputs/trends/tophub_hot_2023-11-14T22-13-20-123Z.json"
    = Some (str "[...]").
Proof.
  cbv zeta. split; [|split; [|split]].
  - eexists _, _. split; [vm_compute; reflexivity|]. reflexivity.
  - vm_compute. reflexivity.
  - reflexivity.
  - vm_compute. reflexivity.
Qed.


(** * Further properties of the code *)

(** ** Trimming *)

Lemma trimStart_suffix s : exists k, s = k ++ trimStart s.
Proof.
  induction s as [|c s [k IH]]; cbn [trimStart]; [by exists []|].
  destruct (is_js_space c).
  - exists (c :: k). cbn. by rewrite <- IH.
  - by exists [].
Qed.

Lemma trimStart_head s c r : trimStart s = c :: r -> is_js_space c = false.
Proof.
  induction s as [|d s IH]; cbn [trimStart]; [done|].
  destruct (is_js_space d) eqn:Hd; [done|]. by intros [= <- _].
Qed.

Lemma trimStart_fixed s :
  match s with [] => True | c :: _ => is_js_space c = false end ->
  trimStart s = s.
Proof. destruct s as [|c s]; [done|]. cbn [trimStart]. by intros ->. Qed.

Lemma trimStart_idemp s : trimStart (trimStart s) = trimStart s.
Proof.
  apply trimStart_fixed. destruct (trimStart s) as [|c r] eqn:H; [done|].
  by eapply trimStart_head.
Qed.

Lemma trimEnd_prefix s : exists k, s = trimEnd s ++ k.
Proof.
  unfold trimEnd. destruct (trimStart_suffix (rev s)) as [k Hk].
  exists (rev k). apply (f_equal (@rev N)) in Hk.
  by rewrite rev_involutive, rev_app_distr in Hk.
Qed.

(** What is left after trimming is a stretch of the text. *)
Lemma trim_infix s : exists a b, s = a ++ trim s ++ b.
Proof.
  unfold trim. destruct (trimStart_suffix s) as [a Ha].
  destruct (trimEnd_prefix (trimStart s)) as [b Hb].
  exists a, b. by rewrite <- Hb.
Qed.

Lemma trim_idemp s : trim (trim s) = trim s.
Proof.
  assert (trimStart (trim s) = trim s) as Hstart.
  { apply trimStart_fixed. destruct (trim s) as [|c r] eqn:Ht; [done|].
    unfold trim in Ht. destruct (trimEnd_prefix (trimStart s)) as [k Hk].
    rewrite Ht in Hk. cbn in Hk. by eapply trimStart_head. }
  unfold trim at 1. rewrite Hstart. unfold trim, trimEnd.
  by rewrite rev_involutive, trimStart_idemp.
Qed.

Lemma trim_nil : trim [] = [].
Proof. reflexivity. Qed.

Lemma not_elem_of_trim c s : c ∉ s -> c ∉ trim s.
Proof.
  intros Hc Hin. destruct (trim_infix s) as (a & b & Hs).
  apply Hc. rewrite Hs. set_solver.
Qed.

(** ** More on the link extractor *)

Lemma scan_matches_well_shaped s occs :
  scan_matches s occs -> Forall (fun o => well_shaped (fst o) (snd o)) occs.
Proof.
  induction 1 as [|s pre t l post rest [_ Hw] _ _ IH]; constructor; done.
Qed.

Lemma scan_matches_length s occs :
  scan_matches s occs -> 6 * length occs <= length s.
Proof.
  induction 1 as [|s pre t l post rest [Hs (Ht & _ & Hl & _)] _ _ IH]; [cbn; lia|].
  rewrite Hs, !length_app, link_shape_length. cbn [length].
  destruct t; [done|]. destruct l; [done|]. cbn [length]. lia.
Qed.

Lemma length_omap_le {A B} (f : A -> option B) l :
  length (omap f l) <= length l.
Proof.
  induction l as [|a l IH]; [done|]. cbn. destruct (f a); cbn; lia.
Qed.

Lemma parseMarkdownLinks_scan content :
  exists occs,
    scan_matches content occs /\
    parseMarkdownLinks content = omap item_of_occurrence occs.
Proof.
  destruct (parse_loop_scan content (parse_fuel content) 0 [])
    as (occs & Hoccs & Hloop); [lia | unfold parse_fuel; lia |].
  rewrite drop_0 in Hoccs. exists occs. split; [done|].
  unfold parseMarkdownLinks. by rewrite Hloop.
Qed.

(** X1. Every item [parseMarkdownLinks] returns has a title and a link that
    are not empty and carry no white space at either end (trimming them
    again changes nothing); the link starts with "http"; the title holds no
    closing bracket and the link no closing parenthesis. *)
Theorem parseMarkdownLinks_items_clean content :
  Forall (fun a =>
            title a <> [] /\ link a <> [] /\
            startsWith (link a) http = true /\
            trim (title a) = title a /\ trim (link a) = link a /\
            (chr "]" ∉ title a) /\ (chr ")" ∉ link a))
         (parseMarkdownLinks content).
Proof.
  destruct (parseMarkdownLinks_scan content) as (occs & Hoccs & ->).
  apply scan_matches_well_shaped in Hoccs.
  induction Hoccs as [|[t l] occs (Ht & Hnt & Hl & Hnl) _ IH]; [constructor|].
  change (omap item_of_occurrence ((t, l) :: occs)) with
    (match item_of_occurrence (t, l) with
     | Some y => y :: omap item_of_occurrence occs
     | None => omap item_of_occurrence occs
     end).
  destruct (item_of_occurrence (t, l)) as [a|] eqn:Hitem; [|done].
  constructor; [|done].
  unfold item_of_occurrence in Hitem. cbn [fst snd] in *.
  destruct (trim t) as [|x t'] eqn:Htrim; [done|].
  destruct (trim l) as [|y l'] eqn:Hltrim; [done|].
  destruct (startsWith (y :: l') http) eqn:Hhttp; [|done].
  injection Hitem as <-. cbn [title link].
  rewrite <- Htrim, <- Hltrim.
  repeat split; try (by rewrite ?Htrim, ?Hltrim).
  - apply trim_idemp.
  - apply trim_idemp.
  - by apply not_elem_of_trim.
  - by apply not_elem_of_trim.
Qed.

(** X2. A match takes at least six code units and matches do not overlap:
    a text of n code units yields at most n / 6 items; in particular a text
    shorter than six code units yields none. *)
Theorem parseMarkdownLinks_at_most_one_per_six content :
  6 * length (parseMarkdownLinks content) <= length content.
Proof.
  destruct (parseMarkdownLinks_scan content) as (occs & Hoccs & ->).
  apply scan_matches_length in Hoccs.
  pose proof (length_omap_le item_of_occurrence occs). lia.
Qed.

(** ** More on the batch orchestrator *)

Ltac tally_calls_step :=
  first
    [ rewrite count_of_app | rewrite count_of_cons | rewrite count_of_nil
    | progress cbn [is_http_get is_model_call is_spawn is_skip is_generating
                    app Nat.add]
    | match goal with
      | H : count_of _ _ = _ |- _ => rewrite H
      end ].

Ltac tally_calls :=
  unfold http_gets, model_calls, spawns, skipped, generations in *;
  repeat tally_calls_step; try done.

Lemma since_app w w' evs : trace w' = trace w ++ evs -> since w w' = evs.
Proof. intros H. unfold since. by rewrite H, drop_app_length. Qed.

#[local] Opaque EXCERPT_LIMIT.

(** One call of the fetcher is one HTTP request and no model call. *)
Lemma fetchArticleContent_calls E url w :
  exists evs,
    fetchArticleContent E url w = (Return (fetched E url), extend w evs) /\
    http_gets evs = 1 /\ model_calls evs = 0.
Proof.
  unfold fetched, fetchArticleContent, fetch, parse_article. eff_unfold.
  cbn -[sentinel substring0 trim EXCERPT_LIMIT].
  destruct (http_get E url) as [m|[] status statusText html];
    cbn -[sentinel substring0 trim EXCERPT_LIMIT];
    try (eexists; split; [rewrite <- ?app_assoc; reflexivity|]; by split).
  destruct (readability E html url) as [m| |[[|c t]|]];
    cbn -[sentinel substring0 trim EXCERPT_LIMIT];
    eexists; (split; [rewrite <- ?app_assoc; reflexivity|]); by split.
Qed.

#[local] Transparent EXCERPT_LIMIT.

Lemma generate_events_calls E t c :
  http_gets (generate_events E t c) = 0 /\
  model_calls (generate_events E t c) = (if MOCK_MODE E then 0 else 1).
Proof. unfold generate_events. by destruct (MOCK_MODE E). Qed.

(** One task: one HTTP request, and one model call unless the task is
    skipped or mock mode is on. *)
Lemma article_task_calls E filename total index a c w :
  let w' := snd (article_task E filename total index a c w) in
  http_gets (since w w') = 1 /\
  model_calls (since w w') =
    (if skips E a then 0 else if MOCK_MODE E then 0 else 1).
Proof.
  unfold article_task, skips.
  unfold mbind, Eff_bind, try_catch, log, emit.
  cbn -[fetchArticleContent generateContent startsWith failed_prefix
        output_filename final_content].
  set (w1 := mkWorld _ _ _).
  destruct (fetchArticleContent_calls E (link a) w1) as (evs1 & -> & Hh1 & Hm1).
  destruct (startsWith (fetched E (link a)) failed_prefix) eqn:Hskip;
    cbn -[fetchArticleContent generateContent startsWith failed_prefix
          output_filename final_content].
  - rewrite (since_app w _ (_ :: evs1 ++ [_])) by (cbn [trace extend]; rewrite <- !app_assoc; reflexivity).
    split; tally_calls.
  - rewrite generateContent_run.
    pose proof (generateContent_no_exit E (title a) (fetched E (link a))
                  (link a) empty_world) as Hne.
    pose proof (generate_events_calls E (title a) (fetched E (link a)))
      as (Hh2 & Hm2).
    destruct (fst (generateContent E (title a) (fetched E (link a)) (link a)
                     empty_world)) as [v|e|code];
      cbn -[fetchArticleContent generateContent startsWith failed_prefix
            output_filename final_content generate_events].
    + rewrite (since_app w _ (_ :: evs1 ++ generate_events _ _ _ ++ [_; _]))
        by (cbn [trace extend]; rewrite <- !app_assoc; reflexivity).
      split; tally_calls.
    + rewrite (since_app w _ (_ :: evs1 ++ generate_events _ _ _ ++ [_]))
        by (cbn [trace extend]; rewrite <- !app_assoc; reflexivity).
      split; tally_calls.
    + by destruct (Hne code).
Qed.

Lemma run_tasks_step E filename total index a rest c w :
  exists c1 w1 evs1 evs2,
    article_task E filename total index a c w = (Return c1, w1) /\
    trace w1 = trace w ++ evs1 /\
    trace (snd (run_tasks E filename total (S index) rest c1 w1))
      = trace w1 ++ evs2 /\
    run_tasks E filename total index (a :: rest) c w =
      run_tasks E filename total (S index) rest c1 w1.
Proof.
  destruct (article_task_run E filename total index a c w)
    as (evs1 & body & Hrun & _).
  destruct (run_tasks_run E filename total rest (S index)
              (if saves E a then S c else c)
              (mkWorld
                 (if saves E a
                  then <[output_path E (clock E (ticks w)) a := body]> (fs w)
                  else fs w)
                 (if saves E a then S (S (ticks w)) else ticks w)
                 (trace w ++ evs1)))
    as (evs2 & w' & Hrest & Ht & _).
  eexists _, _, evs1, evs2. split; [exact Hrun|]. split; [done|].
  split; [by rewrite Hrest|].
  cbn [run_tasks]. unfold mbind, Eff_bind. by rewrite Hrun.
Qed.

(** The batch: one HTTP request for each article, and one model call for
    each article that is not skipped, unless mock mode is on. *)
Lemma run_tasks_calls E filename total : forall articles index c w,
  let w' := snd (run_tasks E filename total index articles c w) in
  http_gets (since w w') = length articles /\
  model_calls (since w w') =
    (if MOCK_MODE E then 0
     else count_of (fun a => negb (skips E a)) articles).
Proof.
  induction articles as [|a rest IH]; intros index c w; cbv zeta.
  - cbn [run_tasks snd]. unfold mret, Eff_ret. cbn [snd].
    rewrite (since_app w w []) by (by rewrite app_nil_r).
    by destruct (MOCK_MODE E).
  - destruct (run_tasks_step E filename total index a rest c w)
      as (c1 & w1 & evs1 & evs2 & Htask & Ht1 & Ht2 & ->).
    pose proof (article_task_calls E filename total index a c w) as Hcalls.
    cbv zeta in Hcalls. rewrite Htask in Hcalls. cbn [snd] in Hcalls.
    specialize (IH (S index) c1 w1). cbv zeta in IH.
    rewrite (since_app _ _ _ Ht1) in Hcalls.
    rewrite (since_app _ _ _ Ht2) in IH.
    rewrite (since_app w _ (evs1 ++ evs2)) by (by rewrite Ht2, Ht1, app_assoc).
    destruct Hcalls as [Hh1 Hm1], IH as [Hh2 Hm2].
    unfold http_gets, model_calls in *.
    rewrite !count_of_app, Hh1, Hh2, Hm1, Hm2, count_of_cons. cbn [length].
    split; [done|]. by destruct (skips E a), (MOCK_MODE E).
Qed.

(** The steps of [processInputFile] on a file with valid links, around the
    batch: the rename and the hook when the system takes the rename, the
    logged error when it refuses. *)
Lemma processInputFile_links_shape E filePath content w :
  fs w !! filePath = Some content ->
  parseMarkdownLinks content <> [] ->
  let articles := parseMarkdownLinks content in
  let filename := basename filePath in
  let w1 := extend w [EvLog (LogProcessing filename);
                      EvLog (LogFound (length articles))] in
  let w2 := snd (run_tasks E filename (length articles) 0 articles 0 w1) in
  let dst := archive_target E w filePath content in
  exists body,
    fs w2 !! filePath = Some body /\
    processInputFile E filePath w =
      (Return tt,
       match rename_error E filePath dst with
       | None =>
           mkWorld (<[dst := body]> (delete filePath (fs w2)))
                   (S (ticks w2))
                   (trace w2 ++ EvRename filePath dst :: EvLog (LogArchived dst)
                      :: (if 0 <? count_of (saves E) articles
                          then hook_events E else []))
       | Some m =>
           mkWorld (fs w2) (S (ticks w2))
                   (trace w2 ++
                    [EvLog (LogInputFailed filename (SystemError m))])
       end).
Proof.
  intros Hfile Hsome articles filename w1 w2 dst.
  assert ((length articles =? 0) = false) as Hlen.
  { subst articles. by destruct (parseMarkdownLinks content). }
  destruct (run_tasks_run E filename (length articles) articles 0 0 w1)
    as (evs1 & w2' & Hrun & Ht & Hk & Hd & _).
  assert (w2 = w2') as Hw2 by (subst w2; by rewrite Hrun).
  assert (is_Some (fs w2 !! filePath)) as [body Hbody].
  { rewrite Hw2. apply elem_of_dom. rewrite Hd.
    apply elem_of_union_l, elem_of_dom. cbn. eauto. }
  assert (dst = archive_path E (clock E (ticks w2)) filename) as Hdst.
  { unfold dst, archive_target. fold articles filename.
    by rewrite Hw2, Hk. }
  exists body. split; [done|].
  unfold processInputFile.
  unfold mbind, Eff_bind, try_catch, log, emit, existsSync, readFileSync.
  cbn -[parseMarkdownLinks basename run_tasks count_of Nat.eqb Nat.ltb
        hook_events].
  rewrite Hfile.
  cbn -[parseMarkdownLinks basename run_tasks count_of Nat.eqb Nat.ltb
        hook_events].
  rewrite ?Hfile.
  cbn -[parseMarkdownLinks basename run_tasks count_of Nat.eqb Nat.ltb
        hook_events].
  fold articles filename. rewrite Hlen.
  cbn -[parseMarkdownLinks basename run_tasks count_of Nat.eqb Nat.ltb
        hook_events renameSync Date_now runVerifySkill].
  replace (mkWorld (fs w) (ticks w)
             ((trace w ++ [EvLog (LogProcessing filename)]) ++
              [EvLog (LogFound (length articles))])) with w1
    by (subst w1; unfold extend; by rewrite <- app_assoc).
  rewrite Hrun. rewrite <- Hw2.
  unfold Date_now, renameSync.
  cbn -[parseMarkdownLinks basename run_tasks count_of Nat.eqb Nat.ltb
        hook_events].
  rewrite <- Hdst, Hbody.
  destruct (rename_error E filePath dst) as [m|];
    cbn -[parseMarkdownLinks basename run_tasks count_of Nat.eqb Nat.ltb
          hook_events]; [reflexivity|].
  destruct (count_of (saves E) articles) as [|n].
  - change (0 <? 0) with false. cbn iota. unfold mret, Eff_ret.
    rewrite <- !app_assoc. reflexivity.
  - change (0 <? S n) with true. replace (0 + S n) with (S n) by done.
    cbn iota. unfold runVerifySkill, hook_events. eff_unfold. cbn.
    destruct (verify_exit_code E =? 0)%Z; cbn; rewrite <- !app_assoc;
      reflexivity.
Qed.

Lemma hook_events_quiet E :
  spawns (hook_events E) = 1 /\ written_paths (hook_events E) = [] /\
  renames (hook_events E) = [] /\ skipped (hook_events E) = 0 /\
  generations (hook_events E) = 0 /\ http_gets (hook_events E) = 0 /\
  model_calls (hook_events E) = 0.
Proof. unfold hook_events. by destruct (verify_exit_code E =? 0)%Z. Qed.

Lemma after_batch_quiet E w filePath content :
  let evs := after_batch E w filePath content in
  let dst := archive_target E w filePath content in
  written_paths evs = [] /\ skipped evs = 0 /\ generations evs = 0 /\
  http_gets evs = 0 /\ model_calls evs = 0 /\
  renames evs =
    (if rename_refused E w filePath content then [] else [(filePath, dst)]) /\
  spawns evs =
    (if rename_refused E w filePath content then 0
     else if 0 <? count_of (saves E) (parseMarkdownLinks content)
          then 1 else 0).
Proof.
  cbv zeta. unfold after_batch, rename_refused.
  destruct (hook_events_quiet E) as (Hq1 & Hq2 & Hq3 & Hq4 & Hq5 & Hq6 & Hq7).
  destruct (rename_error E filePath (archive_target E w filePath content));
    [done|].
  destruct (0 <? count_of (saves E) (parseMarkdownLinks content));
    [|done].
  set (dst := archive_target E w filePath content).
  split_and!.
  - change (written_paths (hook_events E) = []). done.
  - unfold skipped in *. by rewrite !count_of_cons, Hq4.
  - unfold generations in *. by rewrite !count_of_cons, Hq5.
  - unfold http_gets in *. by rewrite !count_of_cons, Hq6.
  - unfold model_calls in *. by rewrite !count_of_cons, Hq7.
  - change ((filePath, dst) :: renames (hook_events E) = [(filePath, dst)]).
    by rewrite Hq3.
  - unfold spawns in *. by rewrite !count_of_cons, Hq1.
Qed.

(** The trace of a run over a file with valid links: two console lines,
    the batch, then what follows the batch. *)
Lemma processInputFile_links_trace E filePath content w :
  fs w !! filePath = Some content ->
  parseMarkdownLinks content <> [] ->
  let articles := parseMarkdownLinks content in
  let filename := basename filePath in
  let w1 := extend w [EvLog (LogProcessing filename);
                      EvLog (LogFound (length articles))] in
  let w2 := snd (run_tasks E filename (length articles) 0 articles 0 w1) in
  since w (snd (processInputFile E filePath w)) =
    EvLog (LogProcessing filename) :: EvLog (LogFound (length articles)) ::
    since w1 w2 ++ after_batch E w filePath content.
Proof.
  intros Hfile Hsome articles filename w1 w2.
  destruct (processInputFile_links_shape E filePath content w Hfile Hsome)
    as (body & _ & ->).
  fold articles filename w1 w2. cbn [snd].
  destruct (run_tasks_run E filename (length articles) articles 0 0 w1)
    as (evs1 & w2' & Hrun & Ht & _).
  assert (w2 = w2') as <- by (subst w2; by rewrite Hrun).
  rewrite (since_app _ _ _ Ht).
  apply since_app. unfold after_batch. fold articles filename.
  destruct (rename_error E filePath (archive_target E w filePath content));
    cbn [trace]; rewrite Ht; subst w1; cbn [extend trace];
    rewrite <- !app_assoc; reflexivity.
Qed.

(** X3. [processInputFile] returns normally for every environment, path and
    world: whether the file is gone or cannot be read, holds no link, or
    holds links whose fetches, generations, archiving or verification
    script fail, nothing is thrown to the watcher and the process is not
    exited. *)
Theorem processInputFile_always_returns E filePath w :
  fst (processInputFile E filePath w) = Return tt.
Proof.
  destruct (fs w !! filePath) as [content|] eqn:Hfile.
  - destruct (decide (parseMarkdownLinks content = [])) as [Hnone|Hsome].
    + by rewrite (processInputFile_no_links E filePath content w Hfile Hnone).
    + destruct (processInputFile_links_shape E filePath content w Hfile Hsome)
        as (body & _ & ->). done.
  - by rewrite (processInputFile_not_readable E filePath w Hfile).
Qed.

(** The written paths of a run over a file with valid links are those of
    the batch. *)
Lemma processInputFile_links_written E filePath content w :
  fs w !! filePath = Some content ->
  parseMarkdownLinks content <> [] ->
  let articles := parseMarkdownLinks content in
  let filename := basename filePath in
  let w1 := extend w [EvLog (LogProcessing filename);
                      EvLog (LogFound (length articles))] in
  let w2 := snd (run_tasks E filename (length articles) 0 articles 0 w1) in
  written_paths (since w (snd (processInputFile E filePath w))) =
  written_paths (since w1 w2).
Proof.
  intros Hfile Hsome articles filename w1 w2.
  rewrite (processInputFile_links_trace E filePath content w Hfile Hsome).
  fold articles filename w1 w2.
  destruct (after_batch_quiet E w filePath content) as (Hq & _).
  match goal with |- written_paths (_ :: _ :: ?X) = _ =>
    change (written_paths X = written_paths (since w1 w2)) end.
  by rewrite written_paths_app, Hq, app_nil_r.
Qed.

(** The file system a run over a file with valid links leaves. *)
Lemma processInputFile_links_fs E filePath content w :
  fs w !! filePath = Some content ->
  parseMarkdownLinks content <> [] ->
  let w' := snd (processInputFile E filePath w) in
  let dst := archive_target E w filePath content in
  Forall (fun p => under (OUTPUT_DIR E) p = true)
         (written_paths (since w w')) /\
  (dst ∉ written_paths (since w w')) /\
  match rename_error E filePath dst with
  | None =>
      fs w' !! filePath = None /\
      (forall p, p <> filePath -> p <> dst ->
                 p ∉ written_paths (since w w') -> fs w' !! p = fs w !! p) /\
      (filePath ∉ written_paths (since w w') -> fs w' !! dst = Some content)
  | Some _ =>
      forall p, p ∉ written_paths (since w w') -> fs w' !! p = fs w !! p
  end.
Proof.
  intros Hfile Hsome w' dst. subst w'.
  rewrite (processInputFile_links_written E filePath content w Hfile Hsome).
  destruct (processInputFile_links_shape E filePath content w Hfile Hsome)
    as (body & Hbody & ->). cbn [snd]. fold dst.
  set (articles := parseMarkdownLinks content) in *.
  set (filename := basename filePath) in *.
  set (w1 := extend w _) in *.
  destruct (run_tasks_run E filename (length articles) articles 0 0 w1)
    as (evs1 & w2' & Hrun & Ht & _ & _ & Hframe & _ & _ & Hunder & _).
  rewrite Hrun in *. cbn [snd] in *.
  rewrite (since_app _ _ _ Ht).
  assert (dst ∉ written_paths evs1) as Hdst.
  { intros Hin. rewrite Forall_forall in Hunder.
    pose proof (Hunder _ Hin) as Hu. unfold dst, archive_target in Hu.
    by rewrite archive_not_output in Hu. }
  split; [done|]. split; [done|].
  destruct (rename_error E filePath dst) as [m|]; cbn [fs].
  - intros p Hp. by apply Hframe.
  - split; [|split].
    + rewrite lookup_insert_ne, lookup_delete_eq; [done|].
      apply archive_path_not_source.
    + intros p Hp1 Hp2 Hp3.
      rewrite lookup_insert_ne, lookup_delete_ne by done. by apply Hframe.
    + intros Hin. rewrite lookup_insert_eq, <- Hbody, <- Hfile.
      by apply (Hframe filePath).
Qed.

(** X4. A run over a file with valid links changes the file system in at
    most three places: the input path, the archive path and the output
    paths written, all of them under the output directory; every other
    file keeps its content. When the system takes the rename, the input
    path is removed and, the input file not being itself under the output
    directory, the archive path holds exactly the content the input file
    had. When the system refuses the rename, the archive path is as it
    was and the input file is still there with its content. *)
Theorem processInputFile_touches_only_its_files E filePath content w :
  fs w !! filePath = Some content ->
  parseMarkdownLinks content <> [] ->
  let w' := snd (processInputFile E filePath w) in
  let dst := archive_target E w filePath content in
  Forall (fun p => under (OUTPUT_DIR E) p = true)
         (written_paths (since w w')) /\
  (forall p, p <> filePath -> p <> dst ->
             p ∉ written_paths (since w w') ->
             fs w' !! p = fs w !! p) /\
  (rename_error E filePath dst = None ->
   fs w' !! filePath = None /\
   (under (OUTPUT_DIR E) filePath = false -> fs w' !! dst = Some content)) /\
  (rename_error E filePath dst <> None ->
   fs w' !! dst = fs w !! dst /\
   (under (OUTPUT_DIR E) filePath = false ->
    fs w' !! filePath = Some content)).
Proof.
  intros Hfile Hsome w' dst.
  destruct (processInputFile_links_fs E filePath content w Hfile Hsome)
    as (Hunder & Hdst & Hfs).
  fold w' dst in Hunder, Hdst, Hfs.
  assert (under (OUTPUT_DIR E) filePath = false ->
          filePath ∉ written_paths (since w w')) as Hout.
  { intros Hout Hin. rewrite Forall_forall in Hunder.
    rewrite (Hunder _ Hin) in Hout. done. }
  split; [done|].
  destruct (rename_error E filePath dst) as [m|].
  - split; [intros p _ _ Hp; by apply Hfs|].
    split; [done|]. intros _. split; [by apply Hfs|].
    intros Hno. rewrite <- Hfile. by apply Hfs, Hout.
  - destruct Hfs as (Hgone & Hframe & Harch).
    split; [done|]. split; [|done]. intros _. split; [done|].
    intros Hno. by apply Harch, Hout.
Qed.

Lemma processInputFile_touches_only_its_files_witness :
  let w := world_with links_one_down in
  let w' := snd (processInputFile env_mock sample_path w) in
  let dst := archive_target env_mock w sample_path links_one_down in
  fs w !! sample_path = Some links_one_down /\
  parseMarkdownLinks links_one_down <> [] /\
  rename_error env_mock sample_path dst = None /\
  Forall (fun p => under (OUTPUT_DIR env_mock) p = true)
         (written_paths (since w w')) /\
  fs w' !! str "/app/.env" = fs w !! str "/app/.env" /\
  fs w' !! sample_path = None /\
  fs w' !! dst = Some links_one_down.
Proof.
  intros w w' dst.
  assert (fs w !! sample_path = Some links_one_down) as Hfile
    by (vm_compute; reflexivity).
  assert (parseMarkdownLinks links_one_down <> []) as Hsome
    by (apply (bool_decide_unpack _); vm_compute; exact I).
  assert (rename_error env_mock sample_path dst = None) as Hren
    by (vm_compute; reflexivity).
  destruct (processInputFile_touches_only_its_files env_mock sample_path
              links_one_down w Hfile Hsome) as (Hout & Hframe & Hok & _).
  destruct (Hok Hren) as [Hgone Harch].
  split; [exact Hfile|]. split; [exact Hsome|]. split; [exact Hren|].
  split; [exact Hout|]. split; [|split; [exact Hgone|]].
  - apply Hframe.
    + apply (bool_decide_unpack _). vm_compute. exact I.
    + apply (bool_decide_unpack _). vm_compute. exact I.
    + apply (bool_decide_unpack _). vm_compute. exact I.
  - apply Harch. vm_compute. reflexivity.
Defined.

Ltac tally_all :=
  unfold skipped, spawns, generations, network_calls, written_paths,
    renames, http_gets, model_calls in *;
  repeat first [tally_step | tally_calls_step];
  cbn [app length Nat.add]; try done.

(** The counters of a run over a file with valid links. *)
Lemma processInputFile_links_counts E filePath content w :
  fs w !! filePath = Some content ->
  parseMarkdownLinks content <> [] ->
  let articles := parseMarkdownLinks content in
  let evs := since w (snd (processInputFile E filePath w)) in
  let dst := archive_target E w filePath content in
  renames evs =
    (if rename_refused E w filePath content then [] else [(filePath, dst)]) /\
  skipped evs = count_of (skips E) articles /\
  length (written_paths evs) = count_of (saves E) articles /\
  spawns evs =
    (if rename_refused E w filePath content then 0
     else if 0 <? count_of (saves E) articles then 1 else 0) /\
  generations evs = count_of (fun a => negb (skips E a)) articles /\
  http_gets evs = length articles /\
  model_calls evs =
    (if MOCK_MODE E then 0
     else count_of (fun a => negb (skips E a)) articles).
Proof.
  intros Hfile Hsome articles evs dst. subst evs.
  rewrite (processInputFile_links_trace E filePath content w Hfile Hsome).
  fold articles.
  set (filename := basename filePath).
  set (w1 := extend w _).
  destruct (run_tasks_run E filename (length articles) articles 0 0 w1)
    as (evs1 & w2' & Hrun & Ht & _ & _ & _ & Hs & Hw & _ & Hg & Hr & Hp).
  pose proof (run_tasks_calls E filename (length articles) articles 0 0 w1)
    as Hcalls. cbv zeta in Hcalls.
  rewrite Hrun in *. cbn [snd] in *.
  rewrite (since_app _ _ _ Ht) in *. destruct Hcalls as [Hh Hm].
  destruct (after_batch_quiet E w filePath content)
    as (Hq1 & Hq2 & Hq3 & Hq4 & Hq5 & Hq6 & Hq7).
  fold articles dst in Hq6, Hq7.
  set (tail := after_batch E w filePath content) in *.
  clear Hrun Ht.
  repeat split.
  - unfold renames in *.
    change (omap renamed (EvLog (LogProcessing filename)
                          :: EvLog (LogFound (length articles))
                          :: evs1 ++ tail))
      with (omap renamed (evs1 ++ tail)).
    by rewrite omap_app, Hr, Hq6.
  - unfold skipped in *. rewrite !count_of_cons, count_of_app, Hs, Hq2.
    cbn [is_skip]. lia.
  - unfold written_paths in *.
    change (omap written_path (EvLog (LogProcessing filename)
                               :: EvLog (LogFound (length articles))
                               :: evs1 ++ tail))
      with (omap written_path (evs1 ++ tail)).
    by rewrite omap_app, Hq1, app_nil_r.
  - unfold spawns in *. rewrite !count_of_cons, count_of_app, Hp, Hq7.
    cbn [is_spawn]. lia.
  - unfold generations in *. rewrite !count_of_cons, count_of_app, Hg, Hq3.
    cbn [is_generating]. lia.
  - unfold http_gets in *. rewrite !count_of_cons, count_of_app, Hh, Hq4.
    cbn [is_http_get]. lia.
  - unfold model_calls in *. rewrite !count_of_cons, count_of_app, Hm, Hq5.
    cbn [is_model_call]. lia.
Qed.

(** X5. For every environment, path and world, the verification hook is
    spawned once when the run wrote at least one post and archived the
    input file, and not at all otherwise: a run whose rename the system
    refuses does not spawn it, whatever it wrote. *)
Theorem hook_spawned_iff_written_and_archived E filePath w :
  let evs := since w (snd (processInputFile E filePath w)) in
  spawns evs =
    (if is_nil (written_paths evs) || is_nil (renames evs) then 0 else 1).
Proof.
  cbv zeta.
  destruct (fs w !! filePath) as [content|] eqn:Hfile.
  - destruct (decide (parseMarkdownLinks content = [])) as [Hnone|Hsome].
    + rewrite (processInputFile_no_links E filePath content w Hfile Hnone).
      cbn [snd]. by rewrite since_extend.
    + destruct (processInputFile_links_counts E filePath content w Hfile Hsome)
        as (Hr & _ & Hw & Hp & _).
      rewrite Hp, Hr.
      destruct (rename_refused E w filePath content);
        [by rewrite orb_true_r|].
      rewrite orb_false_r. destruct (written_paths _) as [|p ps].
      * cbn in Hw. by rewrite <- Hw.
      * cbn in Hw. by rewrite <- Hw.
  - rewrite (processInputFile_not_readable E filePath w Hfile).
    cbn [snd]. rewrite since_extend. by destruct (unreadable E filePath).
Qed.

Lemma count_of_all {A} (f : A -> bool) l :
  Forall (fun a => f a = true) l -> count_of f l = length l.
Proof.
  induction 1 as [|a l Ha _ IH]; [done|].
  by rewrite count_of_cons, Ha, IH.
Qed.

Lemma count_of_zero {A} (f : A -> bool) l :
  Forall (fun a => f a = false) l -> count_of f l = 0.
Proof.
  induction 1 as [|a l Ha _ IH]; [done|].
  by rewrite count_of_cons, Ha, IH.
Qed.

(** What a run that saves no post leaves: the archived file when the
    system takes the rename, the file system as it was when it refuses. *)
Lemma processInputFile_nothing_saved E filePath content w :
  fs w !! filePath = Some content ->
  parseMarkdownLinks content <> [] ->
  count_of (saves E) (parseMarkdownLinks content) = 0 ->
  let w' := snd (processInputFile E filePath w) in
  let dst := archive_path E (clock E (ticks w)) (basename filePath) in
  written_paths (since w w') = [] /\
  spawns (since w w') = 0 /\
  (rename_error E filePath dst = None ->
   renames (since w w') = [(filePath, dst)] /\
   fs w' !! filePath = None /\
   fs w' !! dst = Some content) /\
  (rename_error E filePath dst <> None ->
   renames (since w w') = [] /\ fs w' = fs w).
Proof.
  intros Hfile Hsome HS w' dst.
  assert (archive_target E w filePath content = dst) as Htarget.
  { unfold archive_target, dst. by rewrite HS, Nat.mul_0_r, Nat.add_0_r. }
  destruct (processInputFile_links_counts E filePath content w Hfile Hsome)
    as (_ & _ & Hw & _).
  fold w' in Hw. rewrite HS in Hw.
  assert (written_paths (since w w') = []) as Hnil
    by by destruct (written_paths _).
  destruct (processInputFile_batch_counts E filePath content w Hfile Hsome)
    as (w'' & Hrun & _ & _ & _ & Hok & Hrefused).
  assert (w'' = w') as -> by (subst w'; by rewrite Hrun).
  rewrite Htarget, HS in Hok. rewrite Htarget in Hrefused.
  destruct (processInputFile_links_fs E filePath content w Hfile Hsome)
    as (_ & _ & Hfs).
  fold w' in Hfs. rewrite Htarget, Hnil in Hfs.
  split; [done|]. split.
  { destruct (rename_error E filePath dst) as [m|] eqn:Hren.
    - by destruct Hrefused as (_ & ? & _).
    - by destruct Hok as (_ & _ & _ & ?). }
  split.
  - intros Hren. destruct (Hok Hren) as (Hr & Hgone & _ & _).
    rewrite Hren in Hfs. destruct Hfs as (_ & _ & Harch).
    split; [done|]. split; [done|]. apply Harch, not_elem_of_nil.
  - intros Hren. destruct (Hrefused Hren) as (Hr & _ & _ & Hframe).
    split; [done|]. apply map_eq. intros p. apply Hframe.
    rewrite Hnil. apply not_elem_of_nil.
Qed.

(** X6. When every link of the file fails to fetch (transport error,
    non-success status or unparseable page), the run makes one HTTP request
    per link and no model call, skips every task, writes nothing and does
    not spawn the hook. It still asks for the rename, with the first
    reading of the clock as time stamp: when the system takes it, the file
    is archived with its content although nothing was produced; when the
    system refuses it, the file system is left as it was. *)
Theorem all_fetches_fail_still_archives E filePath content w :
  fs w !! filePath = Some content ->
  parseMarkdownLinks content <> [] ->
  Forall (fun a => fetch_fails E (link a)) (parseMarkdownLinks content) ->
  let w' := snd (processInputFile E filePath w) in
  let N := length (parseMarkdownLinks content) in
  let dst := archive_path E (clock E (ticks w)) (basename filePath) in
  http_gets (since w w') = N /\
  model_calls (since w w') = 0 /\
  skipped (since w w') = N /\
  written_paths (since w w') = [] /\
  spawns (since w w') = 0 /\
  (rename_error E filePath dst = None ->
   renames (since w w') = [(filePath, dst)] /\
   fs w' !! filePath = None /\
   fs w' !! dst = Some content) /\
  (rename_error E filePath dst <> None ->
   renames (since w w') = [] /\ fs w' = fs w).
Proof.
  intros Hfile Hsome Hfail w' N dst. subst w' N.
  destruct (processInputFile_links_counts E filePath content w Hfile Hsome)
    as (Hr & Hs & Hw & Hp & Hg & Hh & Hm).
  assert (Forall (fun a => skips E a = true) (parseMarkdownLinks content))
    as Hskips.
  { eapply Forall_impl; [exact Hfail|]. intros a Ha. unfold skips.
    rewrite (fetched_fails _ _ Ha). apply sentinel_starts_failed. }
  assert (count_of (skips E) (parseMarkdownLinks content) =
          length (parseMarkdownLinks content)) as HK
    by by apply count_of_all.
  assert (count_of (saves E) (parseMarkdownLinks content) = 0) as HS.
  { apply count_of_zero. eapply Forall_impl; [exact Hskips|].
    intros a Ha. unfold saves. by rewrite Ha. }
  assert (count_of (fun a => negb (skips E a)) (parseMarkdownLinks content) = 0)
    as HA.
  { apply count_of_zero. eapply Forall_impl; [exact Hskips|].
    intros a Ha. by rewrite Ha. }
  rewrite HK in Hs. rewrite HA in Hm.
  destruct (processInputFile_nothing_saved E filePath content w Hfile Hsome HS)
    as (Hnil & Hsp & Hok & Hrefused).
  split; [done|]. split; [by destruct (MOCK_MODE E)|]. split; [done|].
  split; [done|]. split; [done|]. split; [exact Hok | exact Hrefused].
Qed.

Lemma all_fetches_fail_still_archives_witness :
  let w := world_with links_all_down in
  let w' := snd (processInputFile env_live_text sample_path w) in
  fs w !! sample_path = Some links_all_down /\
  http_gets (since w w') = 3 /\
  model_calls (since w w') = 0 /\
  skipped (since w w') = 3 /\
  written_paths (since w w') = [] /\
  spawns (since w w') = 0 /\
  length (renames (since w w')) = 1 /\
  fs w' !! sample_path = None.
Proof.
  intros w w'.
  assert (fs w !! sample_path = Some links_all_down) as Hfile
    by (vm_compute; reflexivity).
  split; [exact Hfile|].
  destruct (all_fetches_fail_still_archives env_live_text sample_path
              links_all_down w Hfile)
    as (Hh & Hm & Hs & Hw & Hp & Hok & _).
  - apply (bool_decide_unpack _). vm_compute. exact I.
  - assert (parseMarkdownLinks links_all_down =
            [ mkArticle (str "Down") (str "http://down.example/x");
              mkArticle (str "Gone") (str "http://gone.example/y");
              mkArticle (str "Empty") (str "http://empty.example/z") ])
      as -> by (vm_compute; reflexivity).
    apply Forall_cons_2;
      [|apply Forall_cons_2; [|apply Forall_cons_2; [|apply Forall_nil_2]]].
    + eapply fails_transport. vm_compute. reflexivity.
    + eapply fails_status. vm_compute. reflexivity.
    + eapply fails_unparseable; [vm_compute; reflexivity|].
      vm_compute. exact I.
  - destruct Hok as (Hr & Hgone & _); [vm_compute; reflexivity|].
    split; [exact Hh|]. split; [exact Hm|]. split; [exact Hs|].
    split; [exact Hw|]. split; [exact Hp|].
    split; [exact (f_equal length Hr) | exact Hgone].
Defined.

Lemma live_generation_outcome E t c l w :
  MOCK_MODE E = false ->
  fst (generateContent E t c l w) =
  first_text_outcome (messages_create E generate_system (generate_prompt t c)).
Proof.
  intros Hlive. unfold generateContent, anthropic_messages_create, first_text.
  eff_unfold. rewrite Hlive. cbn -[generate_prompt generate_system].
  by destruct (messages_create E generate_system (generate_prompt t c))
    as [m|[|[]]].
Qed.

(** X7. In live mode, when the model API rejects every call, each task
    that is not skipped calls [messages.create] once, nothing is written
    and the hook is not spawned. The run still asks for the rename: when
    the system takes it, the file is archived with its content; when the
    system refuses it, the file system is left as it was. *)
Theorem api_down_still_archives E filePath content w :
  fs w !! filePath = Some content ->
  parseMarkdownLinks content <> [] ->
  MOCK_MODE E = false ->
  (forall system prompt, exists m, messages_create E system prompt = ApiError m) ->
  let w' := snd (processInputFile E filePath w) in
  let articles := parseMarkdownLinks content in
  let dst := archive_path E (clock E (ticks w)) (basename filePath) in
  model_calls (since w w') = length articles - skipped (since w w') /\
  generations (since w w') = length articles - skipped (since w w') /\
  written_paths (since w w') = [] /\
  spawns (since w w') = 0 /\
  (rename_error E filePath dst = None ->
   renames (since w w') = [(filePath, dst)] /\
   fs w' !! filePath = None /\
   fs w' !! dst = Some content) /\
  (rename_error E filePath dst <> None ->
   renames (since w w') = [] /\ fs w' = fs w).
Proof.
  intros Hfile Hsome Hlive Hdown w' articles dst. subst w' articles.
  destruct (processInputFile_links_counts E filePath content w Hfile Hsome)
    as (Hr & Hs & Hw & Hp & Hg & Hh & Hm).
  assert (count_of (saves E) (parseMarkdownLinks content) = 0) as HS.
  { apply count_of_zero, Forall_forall. intros a _. unfold saves, generation.
    rewrite (live_generation_outcome E (title a) (fetched E (link a))
               (link a) empty_world Hlive).
    destruct (Hdown generate_system
                (generate_prompt (title a) (fetched E (link a)))) as [m ->].
    cbn. apply andb_false_r. }
  rewrite Hlive in Hm.
  destruct (processInputFile_nothing_saved E filePath content w Hfile Hsome HS)
    as (Hnil & Hsp & Hok & Hrefused).
  rewrite Hs, Hm, Hg, <- count_of_negb.
  split; [done|]. split; [done|]. split; [done|]. split; [done|].
  split; [exact Hok | exact Hrefused].
Qed.

Lemma api_down_still_archives_witness :
  let w := world_with links_one_down in
  let w' := snd (processInputFile env_live_down sample_path w) in
  fs w !! sample_path = Some links_one_down /\
  MOCK_MODE env_live_down = false /\
  model_calls (since w w') = 2 - skipped (since w w') /\
  generations (since w w') = 2 - skipped (since w w') /\
  written_paths (since w w') = [] /\
  spawns (since w w') = 0 /\
  length (renames (since w w')) = 1 /\
  fs w' !! sample_path = None.
Proof.
  intros w w'.
  assert (fs w !! sample_path = Some links_one_down) as Hfile
    by (vm_compute; reflexivity).
  split; [exact Hfile|]. split; [reflexivity|].
  destruct (api_down_still_archives env_live_down sample_path
              links_one_down w Hfile)
    as (Hm & Hg & Hw & Hp & Hok & _).
  - apply (bool_decide_unpack _). vm_compute. exact I.
  - reflexivity.
  - intros system prompt. exists (str "overloaded"). reflexivity.
  - destruct Hok as (Hr & Hgone & _); [vm_compute; reflexivity|].
    split; [exact Hm|]. split; [exact Hg|]. split; [exact Hw|].
    split; [exact Hp|]. split; [exact (f_equal length Hr) | exact Hgone].
Defined.

(** X8. A run over a file with N valid links makes exactly N HTTP requests,
    one per link and none repeated, and attempts generation exactly once for
    each task that is not skipped; in mock mode it makes no model call at
    all, in live mode one per attempted generation. *)
Theorem one_request_per_link E filePath content w :
  fs w !! filePath = Some content ->
  let w' := snd (processInputFile E filePath w) in
  let articles := parseMarkdownLinks content in
  http_gets (since w w') = length articles /\
  generations (since w w') = length articles - skipped (since w w') /\
  model_calls (since w w') =
    (if MOCK_MODE E then 0 else generations (since w w')).
Proof.
  intros Hfile w' articles. subst w' articles.
  destruct (decide (parseMarkdownLinks content = [])) as [Hnone|Hsome].
  - rewrite (processInputFile_no_links E filePath content w Hfile Hnone).
    cbn [snd]. rewrite since_extend, Hnone. by destruct (MOCK_MODE E).
  - destruct (processInputFile_links_counts E filePath content w Hfile Hsome)
      as (Hr & Hs & Hw & Hp & Hg & Hh & Hm).
    rewrite Hh, Hg, Hm, Hs, <- count_of_negb. done.
Qed.

Lemma one_request_per_link_witness :
  let w := world_with links_one_down in
  let w' := snd (processInputFile env_live_text sample_path w) in
  fs w !! sample_path = Some links_one_down /\
  http_gets (since w w') = 2 /\
  generations (since w w') = 2 - skipped (since w w') /\
  model_calls (since w w') = generations (since w w').
Proof.
  intros w w'.
  assert (fs w !! sample_path = Some links_one_down) as Hfile
    by (vm_compute; reflexivity).
  split; [exact Hfile|].
  apply (one_request_per_link env_live_text sample_path links_one_down w Hfile).
Defined.

(** ** File names *)

Lemma uint_units d :
  Forall (fun c => is_iso_unit c = true) (str (NilEmpty.string_of_uint d)).
Proof. induction d; cbn; constructor; done. Qed.

Lemma decimal_units n : Forall (fun c => is_iso_unit c = true) (decimal n).
Proof.
  unfold decimal. destruct (Z.to_int n) as [d|d]; cbn [NilZero.string_of_int].
  - destruct d; try apply uint_units. by repeat constructor.
  - change (str (String "-" (NilZero.string_of_uint d)))
      with (chr "-" :: str (NilZero.string_of_uint d)).
    constructor; [done|].
    destruct d; try apply uint_units. by repeat constructor.
Qed.

Lemma pad_units k n : Forall (fun c => is_iso_unit c = true) (pad k n).
Proof.
  unfold pad. apply Forall_app. split; [|apply decimal_units].
  by apply Forall_replicate.
Qed.

Lemma iso_year_units y : Forall (fun c => is_iso_unit c = true) (iso_year y).
Proof.
  unfold iso_year.
  destruct ((0 <=? y) && (y <=? 9999))%Z; [apply pad_units|].
  destruct (y <? 0)%Z; (constructor; [done | apply pad_units]).
Qed.

Lemma toISOString_units t :
  Forall (fun c => is_iso_unit c = true) (toISOString t).
Proof.
  unfold toISOString. destruct (civil_from_days _) as [[y m] d].
  repeat (apply Forall_app_2;
          [first [apply pad_units | apply iso_year_units
                 | by repeat constructor]|]).
  by repeat constructor.
Qed.

Lemma replace_colon_dot_units s :
  Forall (fun c => is_iso_unit c = true) s ->
  Forall (fun c => is_name_unit c = true) (replace_colon_dot s).
Proof.
  unfold replace_colon_dot. induction 1 as [|c s Hc _ IH]; [constructor|].
  cbn [map]. constructor; [|done].
  destruct (N.eqb_spec c (chr ":")) as [->|Hcolon]; [done|].
  destruct (N.eqb_spec c (chr ".")) as [->|Hdot]; [done|].
  cbn [orb]. unfold is_iso_unit in Hc. unfold is_name_unit, keeps_in_title.
  apply N.eqb_neq in Hcolon, Hdot. rewrite Hcolon, Hdot, !orb_false_r in Hc.
  apply orb_true_iff in Hc as [Hc|Hc].
  - apply orb_true_iff in Hc as [Hc|Hc].
    + apply orb_true_iff in Hc as [Hc|Hc].
      * apply orb_true_iff in Hc as [Hc|Hc].
        -- by rewrite Hc, !orb_true_r.
        -- apply N.eqb_eq in Hc as ->. done.
      * apply N.eqb_eq in Hc as ->. done.
    + apply N.eqb_eq in Hc as ->. done.
  - apply N.eqb_eq in Hc as ->. done.
Qed.

Lemma sanitize_units s : Forall (fun c => is_name_unit c = true) (sanitize s).
Proof.
  unfold sanitize. induction s as [|c s IH]; [constructor|].
  cbn [map]. constructor; [|done].
  unfold is_name_unit. destruct (keeps_in_title c) eqn:Hk; [by rewrite Hk|done].
Qed.

Lemma output_filename_units t article_title :
  Forall (fun c => is_name_unit c = true) (output_filename t article_title).
Proof.
  unfold output_filename.
  apply Forall_app_2; [by repeat constructor|].
  apply Forall_app_2;
    [apply Forall_take, replace_colon_dot_units, toISOString_units|].
  apply Forall_app_2; [by repeat constructor|].
  apply Forall_app_2; [apply Forall_take, sanitize_units|].
  by repeat constructor.
Qed.

Lemma last_segment_no_slash s : forall acc,
  slash ∉ s -> last_segment acc s = acc ++ s.
Proof.
  induction s as [|c s IH]; intros acc Hs; cbn [last_segment].
  - by rewrite app_nil_r.
  - destruct (N.eqb_spec c slash) as [->|Hc]; [destruct Hs; by left|].
    rewrite IH by (intros H; apply Hs; by right). by rewrite <- app_assoc.
Qed.

Lemma last_segment_after_slash s name : forall acc,
  slash ∉ name -> last_segment acc (s ++ slash :: name) = name.
Proof.
  induction s as [|c s IH]; intros acc Hname.
  - cbn [app last_segment]. unfold slash at 1. rewrite N.eqb_refl.
    by rewrite last_segment_no_slash.
  - cbn [app last_segment]. destruct (N.eqb c slash); by apply IH.
Qed.

(** The base name of [dir/name] is [name] when [name] is a file name. *)
Lemma basename_path_join dir name :
  name <> [] -> slash ∉ name -> basename (path_join dir name) = name.
Proof.
  intros Hne Hname. unfold basename, path_join.
  assert (strip_leading_slashes (rev (dir ++ slash :: name))
          = rev (dir ++ slash :: name)) as ->.
  { rewrite rev_app_distr. cbn [rev].
    destruct name as [|x name] using rev_ind; [done|].
    rewrite rev_app_distr. cbn [rev app strip_leading_slashes].
    destruct (N.eqb_spec x slash) as [->|]; [|done].
    destruct Hname. set_solver. }
  rewrite rev_involutive. by apply last_segment_after_slash.
Qed.

Lemma name_units_no_slash name :
  Forall (fun c => is_name_unit c = true) name -> slash ∉ name.
Proof.
  rewrite Forall_forall. intros H Hin. by specialize (H _ Hin).
Qed.

(** X9. Whatever the title of the article and the time, every path a task
    writes is [<output directory>/<name>] where the name is made of ASCII
    letters, digits, CJK ideographs and the signs [_ - . +] only and is at
    most 48 code units long: it holds no path separator, so its base name
    is the name and a title cannot send the post outside the output
    directory. *)
Theorem article_task_writes_inside_output_dir E filename total index a c w :
  Forall (fun p =>
            exists name,
              p = path_join (OUTPUT_DIR E) name /\
              Forall (fun u => is_name_unit u = true) name /\
              (chr "/" ∉ name) /\
              length name <= 48 /\
              basename p = name)
         (written_paths
            (since w (snd (article_task E filename total index a c w)))).
Proof.
  destruct (article_task_run E filename total index a c w)
    as (evs & body & Hrun & _ & Hw & _).
  rewrite Hrun. cbn [snd]. rewrite (since_app w _ evs) by done. rewrite Hw.
  destruct (saves E a); [|constructor]. constructor; [|constructor].
  exists (output_filename (clock E (ticks w)) (title a)).
  pose proof (output_filename_units (clock E (ticks w)) (title a)) as Hu.
  pose proof (name_units_no_slash _ Hu) as Hns.
  split; [done|]. split; [done|]. split; [done|]. split.
  - unfold output_filename. rewrite !length_app, !length_take.
    change (length (str "list_")) with 5. change (length (str "_")) with 1.
    change (length (str ".md")) with 3. lia.
  - apply basename_path_join; [|done]. unfold output_filename.
    change (str "list_") with (chr "l" :: str "ist_"). done.
Qed.

(** ** Prompts *)

Lemma includes_infix s p :
  includes s p = true <-> exists a b, s = a ++ p ++ b.
Proof.
  split.
  - induction s as [|c s IH]; cbn [includes].
    + rewrite orb_false_r. intros H%startsWith_prefix. destruct H as [k ->].
      by exists [], k.
    + intros [H|H]%orb_true_iff.
      * apply startsWith_prefix in H as [k ->]. by exists [], k.
      * destruct (IH H) as (a & b & ->). by exists (c :: a), b.
  - intros (a & b & ->). apply includes_middle.
Qed.

Lemma includes_trans s p q :
  includes s p = true -> includes p q = true -> includes s q = true.
Proof.
  rewrite !includes_infix. intros (a & b & ->) (a' & b' & ->).
  exists (a ++ a'), (b' ++ b). by rewrite <- !app_assoc.
Qed.

Lemma includes_unlines ls l : l ∈ ls -> includes (unlines ls) l = true.
Proof.
  intros Hin. apply includes_infix.
  induction ls as [|x ls IH]; [by apply elem_of_nil in Hin|].
  apply elem_of_cons in Hin as [->|Hin].
  - destruct ls as [|y ls]; cbn [unlines].
    + exists [], []. by rewrite app_nil_r.
    + by exists [], (nl ++ unlines (y :: ls)).
  - destruct (IH Hin) as (a & b & Heq).
    destruct ls as [|y ls]; [by apply elem_of_nil in Hin|].
    change (unlines (x :: y :: ls)) with (x ++ nl ++ unlines (y :: ls)).
    rewrite Heq. exists (x ++ nl ++ a), b.
    by rewrite <- !app_assoc.
Qed.

Lemma includes_wrap a m b p :
  includes m p = true -> includes (a ++ m ++ b) p = true.
Proof.
  intros (x & y & ->)%includes_infix. apply includes_infix.
  exists (a ++ x), (y ++ b). by rewrite <- !app_assoc.
Qed.

Lemma includes_prefix p b : includes (p ++ b) p = true.
Proof. apply (includes_middle [] p b). Qed.

Lemma includes_suffix a p : includes (a ++ p) p = true.
Proof.
  pose proof (includes_middle a p []) as H. by rewrite app_nil_r in H.
Qed.

Lemma generate_prompt_truncates t c :
  generate_prompt t c = generate_prompt t (take PROMPT_EXCERPT_LIMIT c).
Proof.
  unfold generate_prompt, substring0. by rewrite take_take, Nat.min_id.
Qed.

(** X10. The prompt [generateContent] sends contains the title of the
    article and the first 8000 code units of its text, and nothing of the
    text beyond them: two texts that agree on their first 8000 code units
    give the same result and the same effects. *)
Theorem generateContent_reads_first_8000 E t c c' l w :
  take PROMPT_EXCERPT_LIMIT c = take PROMPT_EXCERPT_LIMIT c' ->
  generateContent E t c l w = generateContent E t c' l w /\
  includes (generate_prompt t c) t = true /\
  includes (generate_prompt t c) (take PROMPT_EXCERPT_LIMIT c) = true.
Proof.
  intros Hsame.
  assert (generate_prompt t c = generate_prompt t c') as Heq.
  { rewrite (generate_prompt_truncates t c), (generate_prompt_truncates t c').
    by rewrite Hsame. }
  split; [|split].
  - unfold generateContent. by rewrite Heq.
  - unfold generate_prompt. apply includes_wrap.
    eapply includes_trans; [|apply includes_suffix].
    apply includes_unlines.
    do 4 apply list_elem_of_further. apply list_elem_of_here.
  - unfold generate_prompt. apply includes_wrap.
    eapply includes_trans; [|apply includes_prefix].
    apply includes_unlines.
    do 6 apply list_elem_of_further. apply list_elem_of_here.
Qed.

Lemma generateContent_reads_first_8000_witness :
  let c := replicate 8000 (chr "a") ++ str "left" in
  let c' := replicate 8000 (chr "a") ++ str "right, and longer" in
  c <> c' /\
  take PROMPT_EXCERPT_LIMIT c = take PROMPT_EXCERPT_LIMIT c' /\
  MOCK_MODE env_live_text = false /\
  generateContent env_live_text (str "AI News") c (str "http://a") empty_world
  = generateContent env_live_text (str "AI News") c' (str "http://a")
      empty_world /\
  includes (generate_prompt (str "AI News") c) (take PROMPT_EXCERPT_LIMIT c)
  = true.
Proof.
  intros c c'.
  assert (take PROMPT_EXCERPT_LIMIT c = take PROMPT_EXCERPT_LIMIT c') as Hsame
    by (vm_compute; reflexivity).
  destruct (generateContent_reads_first_8000 env_live_text (str "AI News")
              c c' (str "http://a") empty_world Hsame) as (Hrun & _ & Hcut).
  split.
  { intros Heq. apply (f_equal length) in Heq. vm_compute in Heq.
    discriminate Heq. }
  split; [exact Hsame|]. split; [reflexivity|].
  split; [exact Hrun | exact Hcut].
Defined.

(** X11. [analyzeHotList] looks at the first 30 items only: two lists that
    agree on their first 30 items give the same result and the same
    effects, and the line of each of these items is part of the prompt. *)
Theorem analyzeHotList_reads_first_30 E items items' w :
  take 30 items = take 30 items' ->
  Tophub.analyzeHotList E items w = Tophub.analyzeHotList E items' w /\
  Forall (fun item =>
            includes (Tophub.analyze_prompt items) (Tophub.item_line item)
            = true)
         (take 30 items).
Proof.
  intros Hsame.
  assert (Tophub.analyze_prompt items = Tophub.analyze_prompt items') as Heq.
  { unfold Tophub.analyze_prompt. by rewrite Hsame. }
  split.
  - unfold Tophub.analyzeHotList. by rewrite Heq.
  - apply Forall_forall. intros item Hin.
    unfold Tophub.analyze_prompt. apply includes_wrap.
    eapply includes_trans;
      [|apply (includes_unlines (map Tophub.item_line (take 30 items)));
        by apply list_elem_of_fmap_2].
    apply includes_unlines.
    do 2 apply list_elem_of_further. apply list_elem_of_here.
Qed.

Lemma analyzeHotList_reads_first_30_witness :
  take 30 (replicate 31 (mkHotItem [] (str "t") [] [] [])) =
  take 30 (replicate 40 (mkHotItem [] (str "t") [] [] [])) /\
  Tophub.analyzeHotList env_live_text
    (replicate 31 (mkHotItem [] (str "t") [] [] [])) empty_world =
  Tophub.analyzeHotList env_live_text
    (replicate 40 (mkHotItem [] (str "t") [] [] [])) empty_world.
Proof.
  split; [reflexivity|].
  apply (analyzeHotList_reads_first_30 env_live_text). reflexivity.
Defined.

(** ** Pipeline B: the items scraped and the run as a whole *)

Lemma split_on_pieces sep s :
  Forall (fun piece => sep ∉ piece) (Tophub.split_on sep s).
Proof.
  induction s as [|c s IH]; cbn [Tophub.split_on].
  - apply Forall_cons_2; [apply not_elem_of_nil | apply Forall_nil_2].
  - destruct (N.eqb_spec c sep) as [->|Hc].
    + apply Forall_cons_2; [apply not_elem_of_nil | exact IH].
    + destruct (Tophub.split_on sep s) as [|piece pieces].
      * apply Forall_cons_2; [|apply Forall_nil_2].
        by intros ->%list_elem_of_singleton.
      * apply Forall_cons in IH as [Hpiece Hpieces].
        apply Forall_cons_2; [|exact Hpieces].
        intros [->|Hin]%elem_of_cons; [done | by apply Hpiece].
Qed.

Lemma or_empty_part sep s i :
  let part := Tophub.or_empty (map trim (Tophub.split_on sep s) !! i) in
  trim part = part /\ sep ∉ part.
Proof.
  cbn zeta. rewrite list_lookup_fmap.
  destruct (Tophub.split_on sep s !! i) as [piece|] eqn:Hi; cbn.
  - pose proof (split_on_pieces sep s) as Hall.
    rewrite Forall_lookup in Hall. specialize (Hall i piece Hi). cbn in Hall.
    destruct (truthy (trim piece)).
    + split; [apply trim_idemp | by apply not_elem_of_trim].
    + split; [done | apply not_elem_of_nil].
  - split; [done | apply not_elem_of_nil].
Qed.

Lemma full_link_http l : startsWith (Tophub.full_link l) http = true.
Proof.
  unfold Tophub.full_link. destruct (startsWith l http) eqn:Hl; [done|].
  change Tophub.TOPHUB_ORIGIN with (http ++ str "s://tophub.today").
  rewrite <- app_assoc. apply startsWith_app.
Qed.

Lemma fetchHotList_ok E w status statusText html :
  http_get E Tophub.TOPHUB_URL = HttpResponse true status statusText html ->
  Tophub.fetchHotList E w =
    (Return (fold_left Tophub.scrape_item (cheerio_child_items E html) []),
     extend w [EvLog LogFetchingHot; EvHttpGet Tophub.TOPHUB_URL]).
Proof.
  intros Hget. unfold Tophub.fetchHotList, fetch. eff_unfold.
  cbn -[Tophub.TOPHUB_URL]. rewrite Hget. cbn -[Tophub.TOPHUB_URL].
  by rewrite <- app_assoc.
Qed.

Lemma fetchHotList_bad_status E w status statusText body :
  http_get E Tophub.TOPHUB_URL = HttpResponse false status statusText body ->
  Tophub.fetchHotList E w =
    (Throw (Error (str "Failed to fetch tophub: " ++ decimal status ++
                   str " " ++ statusText)),
     extend w [EvLog LogFetchingHot; EvHttpGet Tophub.TOPHUB_URL]).
Proof.
  intros Hget. unfold Tophub.fetchHotList, fetch. eff_unfold.
  cbn -[Tophub.TOPHUB_URL]. rewrite Hget. cbn -[Tophub.TOPHUB_URL].
  by rewrite <- app_assoc.
Qed.

Lemma fetchHotList_network E w m :
  http_get E Tophub.TOPHUB_URL = NetworkError m ->
  Tophub.fetchHotList E w =
    (Throw (SystemError m),
     extend w [EvLog LogFetchingHot; EvHttpGet Tophub.TOPHUB_URL]).
Proof.
  intros Hget. unfold Tophub.fetchHotList, fetch. eff_unfold.
  cbn -[Tophub.TOPHUB_URL]. rewrite Hget. cbn -[Tophub.TOPHUB_URL].
  by rewrite <- app_assoc.
Qed.

Lemma run_fetch_throws E w e evs :
  Tophub.fetchHotList E w = (Throw e, extend w evs) ->
  Tophub.run E w = (Exit 1%Z, extend w (evs ++ [EvLog (LogRunFailed e)])).
Proof.
  intros Hfetch. unfold Tophub.run, try_catch.
  unfold mbind at 1. unfold Eff_bind at 1. rewrite Hfetch.
  unfold mbind, Eff_bind, log, emit, process_exit, extend.
  cbn [fs ticks trace]. by rewrite <- app_assoc.
Qed.

(** X12. Every item [fetchHotList] returns has a non-empty title; its
    title, rank, source and popularity are trimmed; its source and
    popularity hold no middle dot; and its link starts with "http". *)
Theorem fetchHotList_items_clean E w items w' :
  Tophub.fetchHotList E w = (Return items, w') ->
  Forall (fun item =>
            hot_title item <> [] /\
            trim (hot_title item) = hot_title item /\
            trim (rank item) = rank item /\
            trim (source item) = source item /\
            trim (hot item) = hot item /\
            (Tophub.middle_dot ∉ source item) /\
            (Tophub.middle_dot ∉ hot item) /\
            startsWith (hot_link item) http = true)
         items.
Proof.
  intros Hrun.
  destruct (http_get E Tophub.TOPHUB_URL) as [m|[] status statusText html]
    eqn:Hget.
  - by rewrite (fetchHotList_network E w m Hget) in Hrun.
  - rewrite (fetchHotList_ok E w _ _ _ Hget) in Hrun.
    injection Hrun as <- _. rewrite fold_left_scrape_item. cbn [app].
    apply Forall_concat, Forall_fmap, Forall_forall. intros el _. cbn.
    destruct (decide (Tophub.node_title el = [])) as [Hno|Hyes].
    + rewrite scrape_item_untitled by done. apply Forall_nil_2.
    + rewrite scrape_item_titled by done.
      apply Forall_cons_2; [|apply Forall_nil_2].
      cbn [hot_title rank source hot hot_link].
      destruct (or_empty_part Tophub.middle_dot (Tophub.node_label el) 0)
        as [Hs1 Hs2].
      destruct (or_empty_part Tophub.middle_dot (Tophub.node_label el) 1)
        as [Hh1 Hh2].
      split; [done|]. split; [apply trim_idemp|]. split; [apply trim_idemp|].
      split; [exact Hs1|]. split; [exact Hh1|]. split; [exact Hs2|].
      split; [exact Hh2 | apply full_link_http].
  - by rewrite (fetchHotList_bad_status E w _ _ _ Hget) in Hrun.
Qed.

Lemma fetchHotList_items_clean_witness :
  let items := fold_left Tophub.scrape_item sample_nodes [] in
  fst (Tophub.fetchHotList env_mock empty_world) = Return items /\
  length items = 3 /\
  Forall (fun item => startsWith (hot_link item) http = true) items.
Proof.
  intros items. split; [vm_compute; reflexivity|].
  split; [reflexivity|].
  eapply Forall_impl;
    [apply (fetchHotList_items_clean env_mock empty_world items
              (snd (Tophub.fetchHotList env_mock empty_world)));
     vm_compute; reflexivity|].
  cbn beta. intros item H. apply H.
Defined.

(** X13. When the hot-list request fails, [run] makes that one request and
    nothing else: the page is not parsed, the clock is not read, no model
    call is made and no file is written; the error logged before the
    process exits with code 1 is the transport error itself, or, for an
    answer with a non-success status, the error
    "Failed to fetch tophub: <status> <statusText>". *)
Theorem run_failed_request_trace E w :
  (forall m,
      http_get E Tophub.TOPHUB_URL = NetworkError m ->
      Tophub.run E w =
        (Exit 1%Z,
         extend w [EvLog LogFetchingHot; EvHttpGet Tophub.TOPHUB_URL;
                   EvLog (LogRunFailed (SystemError m))])) /\
  (forall status statusText body,
      http_get E Tophub.TOPHUB_URL = HttpResponse false status statusText body ->
      Tophub.run E w =
        (Exit 1%Z,
         extend w [EvLog LogFetchingHot; EvHttpGet Tophub.TOPHUB_URL;
                   EvLog (LogRunFailed
                            (Error (str "Failed to fetch tophub: " ++
                                    decimal status ++ str " " ++
                                    statusText)))])).
Proof.
  split.
  - intros m Hget.
    by rewrite (run_fetch_throws E w _ _ (fetchHotList_network E w m Hget)).
  - intros status statusText body Hget.
    by rewrite (run_fetch_throws E w _ _
                  (fetchHotList_bad_status E w _ _ _ Hget)).
Qed.

Lemma run_failed_request_trace_witness :
  Tophub.run env_offline empty_world =
    (Exit 1%Z,
     extend empty_world
       [EvLog LogFetchingHot; EvHttpGet Tophub.TOPHUB_URL;
        EvLog (LogRunFailed (SystemError (str "ENOTFOUND")))]) /\
  Tophub.run env_unavailable empty_world =
    (Exit 1%Z,
     extend empty_world
       [EvLog LogFetchingHot; EvHttpGet Tophub.TOPHUB_URL;
        EvLog (LogRunFailed
                 (Error (str "Failed to fetch tophub: 503 Service Unavailable")))]).
Proof.
  split.
  - apply (proj1 (run_failed_request_trace env_offline empty_world)).
    reflexivity.
  - apply (proj2 (run_failed_request_trace env_unavailable empty_world)
             503%Z (str "Service Unavailable") []).
    reflexivity.
Defined.









(** ** The watcher's filter *)

Lemma elem_of_rev {A} (x : A) (l : list A) : x ∈ rev l <-> x ∈ l.
Proof. rewrite !list_elem_of_In. symmetry. apply in_rev. Qed.

Lemma strip_leading_slashes_plain s :
  slash ∉ s -> strip_leading_slashes s = s.
Proof.
  destruct s as [|c s]; [done|]. intros Hs. cbn [strip_leading_slashes].
  destruct (N.eqb_spec c slash) as [->|Hc]; [|done].
  destruct Hs. by left.
Qed.

Lemma basename_plain name : slash ∉ name -> basename name = name.
Proof.
  intros Hname. unfold basename.
  rewrite strip_leading_slashes_plain by (by rewrite elem_of_rev).
  rewrite rev_involutive. by apply last_segment_no_slash.
Qed.

Lemma span_all p s : Forall (fun c => p c = true) s -> span p s = (s, []).
Proof.
  induction 1 as [|c s Hc _ IH]; [done|]. cbn [span]. by rewrite Hc, IH.
Qed.

Lemma not_dot_Forall s : dot ∉ s <-> Forall (fun c => not_dot c = true) s.
Proof.
  rewrite Forall_forall. unfold not_dot. split.
  - intros Hs c Hc. destruct (N.eqb_spec c dot) as [->|]; done.
  - intros Hall Hin. specialize (Hall dot Hin). by rewrite N.eqb_refl in Hall.
Qed.

Lemma extname_stem_ext stem ext :
  stem <> [] -> slash ∉ stem -> slash ∉ ext -> dot ∉ ext ->
  extname (stem ++ dot :: ext) =
    if is_nil ext && bool_decide (stem = [dot]) then [] else dot :: ext.
Proof.
  intros Hstem Hs1 Hs2 Hext. unfold extname.
  rewrite basename_plain.
  2:{ rewrite elem_of_app, elem_of_cons. intros [H|[H|H]]; done. }
  rewrite rev_app_distr. cbn [rev]. rewrite <- app_assoc. cbn [app].
  rewrite (span_unique not_dot (rev ext) dot (rev stem)).
  2:{ apply not_dot_Forall. by rewrite elem_of_rev. }
  2:{ unfold not_dot. by rewrite N.eqb_refl. }
  rewrite !rev_involutive.
  destruct stem as [|c pre']; [done|].
  destruct ext as [|e ext']; cbn [is_nil rev andb].
  - destruct (N.eqb_spec c dot) as [->|Hc]; cbn [andb].
    + destruct pre'; cbn [is_nil]; [by rewrite bool_decide_eq_true_2|].
      by rewrite bool_decide_eq_false_2.
    + rewrite bool_decide_eq_false_2; [done|]. intros [= ? _]. done.
  - assert (is_nil (rev ext' ++ [e]) = false) as ->
      by (by destruct (rev ext')).
    by rewrite andb_false_r.
Qed.

Lemma extname_no_extension name :
  slash ∉ name ->
  dot ∉ name \/ (exists ext, name = dot :: ext /\ dot ∉ ext) ->
  extname name = [].
Proof.
  intros Hname Hcase. unfold extname. rewrite basename_plain by done.
  destruct Hcase as [Hdot|(ext & -> & Hdot)].
  - rewrite span_all; [done|].
    apply not_dot_Forall. by rewrite elem_of_rev.
  - cbn [rev].
    rewrite (span_unique not_dot (rev ext) dot []); [done| |].
    + apply not_dot_Forall. by rewrite elem_of_rev.
    + unfold not_dot. by rewrite N.eqb_refl.
Qed.

(** X16. The watcher's handler decides by the extension alone, whatever
    the case of its letters: a file [dir/stem.ext] (non-empty stem, no dot
    in [ext]) is handed to [processInputFile] when [ext], lowercased, is
    "md" or "txt", and is otherwise ignored without any effect. The stem
    may itself hold dots. *)
Theorem on_add_filters_by_extension E dir stem ext w :
  stem <> [] -> slash ∉ stem -> slash ∉ ext -> dot ∉ ext ->
  let filePath := path_join dir (stem ++ dot :: ext) in
  on_add E filePath w =
    if bool_decide (toLowerCase ext ∈ [str "md"; str "txt"])
    then processInputFile E filePath w
    else (Return tt, w).
Proof.
  intros Hstem Hs1 Hs2 Hext filePath. unfold on_add.
  assert (basename filePath = stem ++ dot :: ext) as ->.
  { apply basename_path_join; [by destruct stem|].
    rewrite elem_of_app, elem_of_cons. intros [H|[H|H]]; done. }
  unfold watched_extension. rewrite extname_stem_ext by done.
  destruct ext as [|e ext']; cbn [is_nil andb].
  - destruct (bool_decide (stem = [dot])); vm_compute; reflexivity.
  - assert (forall L : jsstring,
               bool_decide (dot :: L ∈ [str ".md"; str ".txt"]) =
               bool_decide (L ∈ [str "md"; str "txt"])) as Hsame.
    { intros L. apply bool_decide_ext.
      change (str ".md") with (dot :: str "md").
      change (str ".txt") with (dot :: str "txt").
      rewrite !elem_of_cons, !elem_of_nil. split.
      - intros [[= ->]|[[= ->]|[]]]; auto.
      - intros [->|[->|[]]]; auto. }
    change (toLowerCase (dot :: e :: ext'))
      with (dot :: toLowerCase (e :: ext')).
    rewrite Hsame.
    by destruct (bool_decide (toLowerCase (e :: ext') ∈ [str "md"; str "txt"])).
Qed.

Lemma on_add_filters_by_extension_witness :
  on_add env_mock (path_join (str "/app/local_inputs") (str "links.v2.MD"))
         empty_world =
  processInputFile env_mock
    (path_join (str "/app/local_inputs") (str "links.v2.MD")) empty_world /\
  on_add env_mock (path_join (str "/app/local_inputs") (str "links.json"))
         empty_world = (Return tt, empty_world).
Proof.
  split.
  - apply (on_add_filters_by_extension env_mock (str "/app/local_inputs")
             (str "links.v2") (str "MD") empty_world).
    + apply (bool_decide_unpack _). vm_compute. exact I.
    + apply (bool_decide_unpack _). vm_compute. exact I.
    + apply (bool_decide_unpack _). vm_compute. exact I.
    + apply (bool_decide_unpack _). vm_compute. exact I.
  - apply (on_add_filters_by_extension env_mock (str "/app/local_inputs")
             (str "links") (str "json") empty_world).
    + apply (bool_decide_unpack _). vm_compute. exact I.
    + apply (bool_decide_unpack _). vm_compute. exact I.
    + apply (bool_decide_unpack _). vm_compute. exact I.
    + apply (bool_decide_unpack _). vm_compute. exact I.
Defined.

(** X17. The watcher's handler ignores, without any effect, a file whose
    name has no dot and a file whose only dot opens its name: a file named
    [.md] or [.txt] is not processed, since [path.extname] of such a name
    is empty. *)
Theorem on_add_ignores_names_without_extension E dir name w :
  name <> [] -> slash ∉ name ->
  dot ∉ name \/ (exists ext, name = dot :: ext /\ dot ∉ ext) ->
  on_add E (path_join dir name) w = (Return tt, w).
Proof.
  intros Hne Hname Hcase. unfold on_add.
  rewrite basename_path_join by done.
  unfold watched_extension. by rewrite extname_no_extension.
Qed.

Lemma on_add_ignores_names_without_extension_witness :
  on_add env_mock (path_join (str "/app/local_inputs") (str ".md"))
         (world_with links_one_down) = (Return tt, world_with links_one_down).
Proof.
  apply (on_add_ignores_names_without_extension env_mock
           (str "/app/local_inputs") (str ".md")).
  - apply (bool_decide_unpack _). vm_compute. exact I.
  - apply (bool_decide_unpack _). vm_compute. exact I.
  - right. exists (str "md"). split; [reflexivity|].
    apply (bool_decide_unpack _). vm_compute. exact I.
Defined.

(** ** The verification hook *)

Lemma run_tasks_with_exit_code E code filename total : forall articles index c w,
  run_tasks (with_exit_code E code) filename total index articles c w =
  run_tasks E filename total index articles c w.
Proof.
  induction articles as [|a rest IH]; intros index c w; [done|].
  cbn [run_tasks]. unfold mbind, Eff_bind.
  change (article_task (with_exit_code E code) filename total index a c w)
    with (article_task E filename total index a c w).
  destruct (article_task E filename total index a c w) as [[c'|e|k] w1];
    [apply IH | done | done].
Qed.

(** X18. The exit code of the verification child is logged and nothing
    more: with any other exit code [processInputFile] returns the same,
    leaves the same file system and clock, and does the same effects apart
    from console lines, of which it prints as many. *)
Theorem hook_exit_code_only_logged E code filePath w :
  let r := processInputFile E filePath w in
  let r' := processInputFile (with_exit_code E code) filePath w in
  fst r' = fst r /\
  fs (snd r') = fs (snd r) /\
  ticks (snd r') = ticks (snd r) /\
  beyond_console (trace (snd r')) = beyond_console (trace (snd r)) /\
  length (trace (snd r')) = length (trace (snd r)).
Proof.
  cbn zeta. destruct (fs w !! filePath) as [content|] eqn:Hfile.
  2:{ rewrite !processInputFile_not_readable by done.
      cbn [unreadable with_exit_code]. done. }
  destruct (decide (parseMarkdownLinks content = [])) as [Hnone|Hsome].
  { by rewrite !(processInputFile_no_links _ filePath content w Hfile Hnone). }
  destruct (processInputFile_links_shape E filePath content w Hfile Hsome)
    as (body & Hbody & Hrun).
  destruct (processInputFile_links_shape (with_exit_code E code) filePath
              content w Hfile Hsome) as (body' & Hbody' & Hrun').
  cbn zeta in Hbody, Hrun, Hbody', Hrun'.
  rewrite run_tasks_with_exit_code in Hbody', Hrun'.
  rewrite Hbody in Hbody'. injection Hbody' as <-.
  rewrite Hrun, Hrun'. cbn [fst snd].
  change (count_of (saves (with_exit_code E code)))
    with (count_of (saves E)).
  change (archive_target (with_exit_code E code) w filePath content)
    with (archive_target E w filePath content).
  change (rename_error (with_exit_code E code)) with (rename_error E).
  set (dst := archive_target E w filePath content).
  match goal with |- context [trace ?w] => set (w2 := w) end.
  destruct (rename_error E filePath dst) as [m|]; cbn [fs ticks trace];
    [done|].
  split; [done|]. split; [done|]. split; [done|].
  unfold beyond_console. rewrite !filter_app, !length_app.
  destruct (0 <? count_of (saves E) (parseMarkdownLinks content)); [|done].
  unfold hook_events. cbn [verify_exit_code with_exit_code].
  destruct (code =? 0)%Z, (verify_exit_code E =? 0)%Z;
    (split; [f_equal|]; reflexivity).
Qed.

(** ** The names of the trend files *)

Lemma replace_colon_dot_clean s :
  (chr ":" ∉ replace_colon_dot s) /\ (dot ∉ replace_colon_dot s).
Proof.
  unfold replace_colon_dot.
  split; intros (c & Hc & _)%list_elem_of_fmap;
    destruct (N.eqb c (chr ":")) eqn:Hcolon;
    destruct (N.eqb c (chr ".")) eqn:Hdot;
    cbn [orb] in Hc; try (vm_compute in Hc; discriminate Hc);
    subst c; first [ vm_compute in Hcolon; discriminate Hcolon
                   | vm_compute in Hdot; discriminate Hdot ].
Qed.

(** X19. Whatever the time, the time stamp put into the names of the trend
    files holds no colon, no dot and no slash; so both files lie directly
    in the trends directory, and the only extension of the raw file is
    ".json", that of the report ".md". *)
Theorem trend_file_names E t :
  let dateStr := replace_colon_dot (toISOString t) in
  let rawFilename := Tophub.raw_filename dateStr in
  let reportFilename := Tophub.report_filename dateStr in
  (chr ":" ∉ dateStr) /\ (dot ∉ dateStr) /\ (slash ∉ dateStr) /\
  basename (path_join (Tophub.TRENDS_DIR E) rawFilename) = rawFilename /\
  basename (path_join (Tophub.TRENDS_DIR E) reportFilename) = reportFilename /\
  extname rawFilename = str ".json" /\
  extname reportFilename = str ".md".
Proof.
  intros dateStr rawFilename reportFilename.
  destruct (replace_colon_dot_clean (toISOString t)) as [Hcolon Hdot].
  fold dateStr in Hcolon, Hdot.
  assert (slash ∉ dateStr) as Hslash.
  { apply name_units_no_slash, replace_colon_dot_units, toISOString_units. }
  assert (slash ∉ str "tophub_hot_" ++ dateStr) as Hraw.
  { rewrite elem_of_app. intros [H|H]; [|done]. revert H.
    apply (bool_decide_unpack _). vm_compute. exact I. }
  assert (slash ∉ str "tophub_analysis_" ++ dateStr) as Hrep.
  { rewrite elem_of_app. intros [H|H]; [|done]. revert H.
    apply (bool_decide_unpack _). vm_compute. exact I. }
  assert (rawFilename = (str "tophub_hot_" ++ dateStr) ++ dot :: str "json")
    as Hrawname by (unfold rawFilename, Tophub.raw_filename;
                    by rewrite <- app_assoc).
  assert (reportFilename =
          (str "tophub_analysis_" ++ dateStr) ++ dot :: str "md")
    as Hrepname by (unfold reportFilename, Tophub.report_filename;
                    by rewrite <- app_assoc).
  assert (slash ∉ str "json") as Hjson
    by (apply (bool_decide_unpack _); vm_compute; exact I).
  assert (slash ∉ str "md") as Hmd
    by (apply (bool_decide_unpack _); vm_compute; exact I).
  assert (dot ∉ str "json") as Hjson'
    by (apply (bool_decide_unpack _); vm_compute; exact I).
  assert (dot ∉ str "md") as Hmd'
    by (apply (bool_decide_unpack _); vm_compute; exact I).
  assert (slash <> dot) as Hsd by (vm_compute; discriminate).
  split; [exact Hcolon|]. split; [exact Hdot|]. split; [exact Hslash|].
  split; [|split; [|split]].
  - apply basename_path_join.
    + rewrite Hrawname. by destruct (str "tophub_hot_" ++ dateStr).
    + rewrite Hrawname, elem_of_app, elem_of_cons. intros [H|[H|H]]; done.
  - apply basename_path_join.
    + rewrite Hrepname. by destruct (str "tophub_analysis_" ++ dateStr).
    + rewrite Hrepname, elem_of_app, elem_of_cons. intros [H|[H|H]]; done.
  - rewrite Hrawname, extname_stem_ext; [reflexivity| |done|done|done].
    change (str "tophub_hot_") with (chr "t" :: str "ophub_hot_"). done.
  - rewrite Hrepname, extname_stem_ext; [reflexivity| |done|done|done].
    change (str "tophub_analysis_") with (chr "t" :: str "ophub_analysis_").
    done.
Qed.

(** ** The post a task saves *)






